(** * sam9boot: the RomBOOT protocol engine of [sam9boot.c]

    A shallow embedding of the protocol engine of the SAM9 boot utility:
    the response scanner ([GetResponse]), the chunked memory transfers
    (the send loop of [main] and [LoadMemory]), the verify loop, the hex
    dump, the pass-through terminal ([TerminalEmulator]) and the gating of
    the operations in [main].

    Conventions.
    - [bit32] and [byte] values are integers of [Z]; every wrap-around of
      the C arithmetic is written out with [wrap32] and [wrap8].
    - Characters are their codes; a string of the C program is a list of
      codes ([bytes_of_string] reads a literal).
    - The serial line and the console are reached through the four
      primitives of the class [Transport]; the program text is a function
      of an arbitrary transport, so a statement proved for every transport
      holds for every behaviour of the target. *)

From Stdlib Require Import ZArith List Lia Bool String Ascii.
From stdpp Require Import base option list gmap relations.
Import ListNotations.

Local Open Scope Z_scope.

(* ===================================================================== *)
(** * Machine integers and characters *)
(* ===================================================================== *)

(** [typedef unsigned int bit32] and [typedef unsigned char byte]. *)
Definition wrap32 (x : Z) : Z := x mod 2 ^ 32.
Definition wrap8 (x : Z) : Z := x mod 2 ^ 8.

Definition is_bit32 (x : Z) : Prop := 0 <= x < 2 ^ 32.
Definition is_byte (x : Z) : Prop := 0 <= x < 256.

(** [buffer[i]].  A read beyond the block is undefined in C; it reads 0
    here. *)
Definition byte_at (buffer : list Z) (i : Z) : Z :=
  default 0 (buffer !! Z.to_nat i).

Definition bytes_of_string (s : string) : list Z :=
  map (fun c => Z.of_N (N_of_ascii c)) (list_ascii_of_string s).

(* ===================================================================== *)
(** * The C library's hexadecimal conversions *)
(* ===================================================================== *)

(** The white space that a [scanf] conversion skips. *)
Definition isspace (c : Z) : bool :=
  (c =? 0x20) || ((0x09 <=? c) && (c <=? 0x0d)).

(** The value of a hexadecimal digit, in either case. *)
Definition hexval (c : Z) : option Z :=
  if (0x30 <=? c) && (c <=? 0x39) then Some (c - 0x30)
  else if (0x61 <=? c) && (c <=? 0x66) then Some (c - 0x61 + 10)
  else if (0x41 <=? c) && (c <=? 0x46) then Some (c - 0x41 + 10)
  else None.

Definition is_hex (c : Z) : bool :=
  match hexval c with Some _ => true | None => false end.

Fixpoint skip_space (s : list Z) : list Z :=
  match s with
  | c :: s' => if isspace c then skip_space s' else s
  | [] => []
  end.

(** The run of hexadecimal digits at the head of [s], read as a number
    that continues [acc]; the scan stops at the first other character
    (the terminating NUL of a C string is one). *)
Fixpoint hex_accum (acc : Z) (s : list Z) : Z :=
  match s with
  | c :: s' =>
      match hexval c with
      | Some d => hex_accum (acc * 16 + d) s'
      | None => acc
      end
  | [] => acc
  end.

(** What [scanf] stores in an [unsigned int] for digits that write the
    number [v], behind a [-] when [neg].  The C library of a 64-bit
    Linux converts them with [strtoul] into an [unsigned long] of 64
    bits: a number that does not fit becomes [ULONG_MAX] whatever the
    sign, and a [-] negates modulo [2 ^ 64].  The low 32 bits are
    stored. *)
Definition scanf_unsigned (neg : bool) (v : Z) : Z :=
  wrap32 (if 2 ^ 64 <=? v then 2 ^ 64 - 1
          else if neg then (- v) mod 2 ^ 64 else v).

(** [sscanf (s, "%X", &Value)]: white space is skipped, a sign and a
    [0x] prefix are optional, then hexadecimal digits.  When nothing
    matches, [Value] keeps what it held. *)
Definition sscanf_X (s : list Z) (Value : Z) : Z :=
  let s1 := skip_space s in
  let '(neg, s2) :=
    match s1 with
    | c :: r =>
        if c =? 0x2d then (true, r)
        else if c =? 0x2b then (false, r)
        else (false, s1)
    | [] => (false, s1)
    end in
  let signed (v : Z) := scanf_unsigned neg v in
  match s2 with
  | c0 :: c1 :: r =>
      if (c0 =? 0x30) && ((c1 =? 0x78) || (c1 =? 0x58))
      then signed (hex_accum 0 r)
      else if is_hex c0 then signed (hex_accum 0 s2) else Value
  | [c0] => if is_hex c0 then signed (hex_accum 0 s2) else Value
  | [] => Value
  end.

(** One hexadecimal digit of [printf]. *)
Definition hexdigit (upper : bool) (d : Z) : Z :=
  if d <? 10 then 0x30 + d
  else if upper then 0x41 + (d - 10) else 0x61 + (d - 10).

(** The digits of [v], lowest first, without leading zeros. *)
Fixpoint hex_rev (upper : bool) (fuel : nat) (v : Z) : list Z :=
  match fuel with
  | O => []
  | S f =>
      if v =? 0 then []
      else hexdigit upper (v mod 16) :: hex_rev upper f (v / 16)
  end.

(** [printf ("%<p>.<p>X", v)] (and [x] for lower case) of a [bit32]: the
    digits of [v], padded with zeros to at least [p] digits. *)
Definition printf_X (upper : bool) (p : nat) (v : Z) : list Z :=
  let ds := rev (hex_rev upper 8 v) in
  replicate (p - length ds)%nat 0x30 ++ ds.

(* ===================================================================== *)
(** * Transport: the serial line and the console *)
(* ===================================================================== *)

(** [FileNumberConsole] and [FileNumberSam9]. *)
Inductive FileNumber : Type := FileNumberConsole | FileNumberSam9.

(** The commands that the program prints on [FileHandleSam9]:
    - [CmdSync]            ["#\n"]
    - [CmdVersion]         ["V#\n"]
    - [CmdReadByte a]      ["o%5.5X,1#\n"]
    - [CmdReadWord a]      ["w%5.5X,4#\n"] (and ["wfffff240,4#\n"])
    - [CmdWriteByte a v]   ["O%5.5X,%2.2X#\n"]
    - [CmdWriteWord a v]   ["W%5.5X,%8.8X#\n"]
    - [CmdGo a]            ["G%X#\n"] (["G%X"] in the terminal). *)
Inductive Command : Type :=
  | CmdSync
  | CmdVersion
  | CmdReadByte (a : Z)
  | CmdReadWord (a : Z)
  | CmdWriteByte (a v : Z)
  | CmdWriteWord (a v : Z)
  | CmdGo (a : Z).

(** What the program asks of the operating system.  [sys_select] is
    [select] on one descriptor with the 4 ms timeout, [sys_read] reads one
    byte ([None]: the call failed), [sys_write] writes one byte and
    [fprintf] prints a command on the serial line. *)
Class Transport (T : Type) : Type := {
  sys_select : FileNumber -> T -> Z * T;
  sys_read : FileNumber -> T -> option Z * T;
  sys_write : FileNumber -> Z -> T -> T;
  fprintf : Command -> T -> T
}.

Section Engine.

Context {T : Type} `{Transport T}.

Definition FileInputAvailable (fd : FileNumber) (t : T) : Z * T :=
  sys_select fd t.

(** [FileGetCharacter] returns a [byte]: the error code of a failed
    [read] is truncated to it. *)
Definition FileGetCharacter (fd : FileNumber) (t : T) : Z * T :=
  let '(r, t') := sys_read fd t in
  (match r with Some c => wrap8 c | None => wrap8 (-1) end, t').

(* --------------------------------------------------------------------- *)
(** ** GetResponse *)
(* --------------------------------------------------------------------- *)

(** The capture loop.  [room] is [sizeof (Response) - 2 - n]; the port is
    polled before [n] is compared. *)
Fixpoint GetResponse_capture (FileNumber : FileNumber) (room : nat)
    (Response : list Z) (t : T) : list Z * T :=
  let '(avail, t1) := FileInputAvailable FileNumber t in
  if avail =? 0 then (Response, t1)
  else
    match room with
    | O => (Response, t1)
    | S room' =>
        let '(c, t2) := FileGetCharacter FileNumber t1 in
        GetResponse_capture FileNumber room' (Response ++ [c]) t2
    end.

(** The marker matcher: the body of the [for] loop over the captured
    characters.  [rest] is [Response + i], so its head is [Response[i]]. *)
Fixpoint GetResponse_scan (State : Z) (Value : Z) (rest : list Z) : Z :=
  match rest with
  | [] => Value
  | c :: rest' =>
      if State =? 0 then
        GetResponse_scan (if c =? 0x30 then 1 else State) Value rest'
      else if State =? 1 then
        GetResponse_scan (if c =? 0x78 then 2 else 0) Value rest'
      else if State =? 2 then
        GetResponse_scan 3 (sscanf_X rest Value) rest'
      else
        GetResponse_scan State Value rest'
  end.

(** What one call leaves behind: the returned [Value], the global
    [ResponseCount] and the captured characters of [Response].  The
    [printf] of the burst under [FlagTrace] is not part of the model. *)
Record Response : Type := {
  Value : Z;
  ResponseCount : Z;
  Captured : list Z
}.

Definition GetResponse (FileNumber : FileNumber) (t : T) : Response * T :=
  let '(burst, t') := GetResponse_capture FileNumber 30 [] t in
  ({| Value := GetResponse_scan 0 0 burst;
      ResponseCount := Z.of_nat (length burst);
      Captured := burst |}, t').

(* --------------------------------------------------------------------- *)
(** ** The transfer loops *)
(* --------------------------------------------------------------------- *)

(** The three loop variables that the send loop of [main] and the loop of
    [LoadMemory] share. *)
Record Cursor : Type := {
  Address : Z;
  Length : Z;
  Chunk : Z
}.

(** [bit32 MemoryCount] and [bptr MemoryBuffer]; the buffer is the block
    that [calloc] returned, and the empty list before that. *)
Record Memory : Type := {
  MemoryCount : Z;
  MemoryBuffer : list Z
}.

(** [Chunk = ValueBytes > 3 ? 4 : 1], before either loop. *)
Definition first_chunk (ValueBytes : Z) : Z :=
  if 3 <? ValueBytes then 4 else 1.

(** *** LoadMemory *)

(** The [switch] that sends the read command, and the response to it.
    A [Chunk] other than 1 and 4 sends nothing. *)
Definition LoadMemory_exchange (c : Cursor) (t : T) : Response * T :=
  let t1 :=
    if Chunk c =? 1 then fprintf (CmdReadByte (Address c)) t
    else if Chunk c =? 4 then fprintf (CmdReadWord (Address c)) t
    else t in
  GetResponse FileNumberSam9 t1.

(** [for (n = 0; n < Chunk; n++) { MemoryBuffer[MemoryCount++] = Value &
    0xff; Value >>= 8; }], [k] iterations of it.  A store beyond the block
    is undefined in C; the list is left as it is there. *)
Fixpoint LoadMemory_store (k : nat) (Value : Z) (m : Memory) : Memory :=
  match k with
  | O => m
  | S k' =>
      LoadMemory_store k' (Z.shiftr Value 8)
        {| MemoryCount := wrap32 (MemoryCount m + 1);
           MemoryBuffer :=
             <[Z.to_nat (MemoryCount m) := Z.land Value 0xff]>
               (MemoryBuffer m) |}
  end.

(** The end of a responsive iteration: [Address += Chunk; Length +=
    Chunk; if (Count - Length < 4) Chunk = 1]. *)
Definition LoadMemory_advance (Count : Z) (c : Cursor) : Cursor :=
  let Length' := wrap32 (Length c + Chunk c) in
  {| Address := wrap32 (Address c + Chunk c);
     Length := Length';
     Chunk := if wrap32 (Count - Length') <? 4 then 1 else Chunk c |}.

(** One iteration of the [while] loop.  [inl]: the target answered and
    the loop goes on; [inr]: [ResponseCount] was 0 and the function
    returns [false]. *)
Definition LoadMemory_iter (Count : Z) (s : Cursor * Memory * T)
  : (Cursor * Memory * T) + (Memory * T) :=
  let '(c, m, t) := s in
  let '(r, t') := LoadMemory_exchange c t in
  if ResponseCount r =? 0 then inr (m, t')
  else inl (LoadMemory_advance Count c,
            LoadMemory_store (Z.to_nat (Chunk c)) (Value r) m, t').

(** How the [while] loop was left. *)
Inductive LoopExit : Type :=
  | LoopDone         (* [Length < Count] became false *)
  | LoopUnresponsive (* [return false] from inside the loop *).

Fixpoint LoadMemory_loop (fuel : nat) (Count : Z) (s : Cursor * Memory * T)
  : option (LoopExit * Memory * T) :=
  if Length (s.1.1) <? Count then
    match fuel with
    | O => None
    | S fuel' =>
        match LoadMemory_iter Count s with
        | inl s' => LoadMemory_loop fuel' Count s'
        | inr (m, t) => Some (LoopUnresponsive, m, t)
        end
    end
  else Some (LoopDone, s.1.2, s.2).

(** The state in which the loop is entered: the block that [calloc]
    returned, zeroed, and [Address = StartAddress, Length = 0, Chunk =
    ValueBytes > 3 ? 4 : 1]. *)
Definition LoadMemory_start (ValueBytes : Z) (m : Memory)
    (StartAddress Count : Z) (t : T) : Cursor * Memory * T :=
  ({| Address := StartAddress; Length := 0;
      Chunk := first_chunk ValueBytes |},
   {| MemoryCount := MemoryCount m;
      MemoryBuffer := replicate (Z.to_nat Count) 0 |},
   t).

(** The three diagnostics of [LoadMemory]:
    ["(%d bytes, %d expected, target unresponsive)"],
    ["(%d bytes, %d expected)"] and ["(%d bytes, calloc error)"]. *)
Inductive LoadMemoryError : Type :=
  | ErrTargetUnresponsive
  | ErrLengthMismatch
  | ErrCalloc.

(** [LoadMemory (FileHandleSam9, StartAddress, Count)].  [ValueBytes] is
    the global the first chunk width is taken from, [m] holds the globals
    [MemoryCount] and [MemoryBuffer] at the call, and [calloc_ok] tells
    whether [calloc] returns a block.  The result is [None] when the
    function returns [true] and the diagnostic it prints otherwise.  The
    loop runs on [Count] units of fuel, which is enough (see
    [LoadMemory_loop_total]). *)
Definition LoadMemory (ValueBytes : Z) (m : Memory) (calloc_ok : bool)
    (StartAddress Count : Z) (t : T)
  : option (option LoadMemoryError * Memory * T) :=
  if calloc_ok then
    match LoadMemory_loop (Z.to_nat Count) Count
            (LoadMemory_start ValueBytes m StartAddress Count t) with
    | Some (LoopDone, m', t') =>
        if MemoryCount m' =? Count then Some (None, m', t')
        else Some (Some ErrLengthMismatch, m', t')
    | Some (LoopUnresponsive, m', t') =>
        Some (Some ErrTargetUnresponsive, m', t')
    | None => None
    end
  else
    Some (Some ErrCalloc,
          {| MemoryCount := MemoryCount m; MemoryBuffer := [] |}, t).

(** *** The send loop of [main] *)

(** [for (i = 0; i < Chunk; i++) Value |= FileBuffer[Length++] << (i*8)],
    [k] iterations of it from [i].  The shifted [int] is converted to
    [bit32]. *)
Fixpoint send_pack (FileBuffer : list Z) (k : nat) (i : Z)
    (Length Value : Z) : Z * Z :=
  match k with
  | O => (Value, Length)
  | S k' =>
      send_pack FileBuffer k' (i + 1) (wrap32 (Length + 1))
        (Z.lor Value (wrap32 (Z.shiftl (byte_at FileBuffer Length) (i * 8))))
  end.

(** One iteration of the send loop: pack, send the write command, take
    the response (its value is not looked at), advance. *)
Definition send_iter (ValueBytes : Z) (FileBuffer : list Z)
    (s : Cursor * T) : Cursor * T :=
  let '(c, t) := s in
  let '(Value, Length') :=
    send_pack FileBuffer (Z.to_nat (Chunk c)) 0 (Length c) 0 in
  let t1 :=
    if Chunk c =? 1 then fprintf (CmdWriteByte (Address c) Value) t
    else if Chunk c =? 4 then fprintf (CmdWriteWord (Address c) Value) t
    else t in
  let '(_, t2) := GetResponse FileNumberSam9 t1 in
  ({| Address := wrap32 (Address c + Chunk c);
      Length := Length';
      Chunk := if wrap32 (ValueBytes - Length') <? 4 then 1 else Chunk c |},
   t2).

Fixpoint send_loop (fuel : nat) (ValueBytes : Z) (FileBuffer : list Z)
    (s : Cursor * T) : option (Cursor * T) :=
  if Length (s.1) <? ValueBytes then
    match fuel with
    | O => None
    | S fuel' =>
        send_loop fuel' ValueBytes FileBuffer
          (send_iter ValueBytes FileBuffer s)
    end
  else Some s.

(** The send block of [main], from [Address = ValueAddrStart] to the
    end of the loop, on [ValueBytes] units of fuel (enough, see
    [send_total]). *)
Definition send_start (ValueAddrStart ValueBytes : Z) (t : T) : Cursor * T :=
  ({| Address := ValueAddrStart; Length := 0;
      Chunk := first_chunk ValueBytes |}, t).

Definition send (ValueAddrStart ValueBytes : Z) (FileBuffer : list Z)
    (t : T) : option (Cursor * T) :=
  send_loop (Z.to_nat ValueBytes) ValueBytes FileBuffer
    (send_start ValueAddrStart ValueBytes t).

(** *** The loops as step relations *)

(** One responsive iteration of the loop of [LoadMemory], taken when
    [Length < Count]. *)
Definition LoadMemory_step (Count : Z) (s s' : Cursor * Memory * T) : Prop :=
  Length (s.1.1) < Count /\ LoadMemory_iter Count s = inl s'.

(** One iteration of the send loop, taken when [Length < ValueBytes]. *)
Definition send_step (ValueBytes : Z) (FileBuffer : list Z)
    (s s' : Cursor * T) : Prop :=
  Length (s.1) < ValueBytes /\ send_iter ValueBytes FileBuffer s = s'.

(* --------------------------------------------------------------------- *)
(** ** TerminalEmulator *)
(* --------------------------------------------------------------------- *)

(** The console half of one cycle of the [do] loop: the [if] on
    [FileInputAvailable (FileNumberConsole)].  It returns the new [Key]. *)
Definition Terminal_console (Key : Z) (t : T) : Z * T :=
  let '(avail, t1) := FileInputAvailable FileNumberConsole t in
  if avail =? 0 then (Key, t1)
  else
    let '(k, t2) := FileGetCharacter FileNumberConsole t1 in
    let Key' := if k =? 0x0d then 0x23 (* '#' *) else k in
    let t3 := sys_write FileNumberSam9 Key' t2 in
    let t4 :=
      if (0x1f <? Key') && (Key' <? 0x7f)
      then sys_write FileNumberConsole Key' t3 else t3 in
    (Key', t4).

(** The inner [while (FileInputAvailable (FileNumberSam9))] loop, which
    copies the target's bytes to the console; [fuel] bounds the bytes of
    one cycle and [None] means that it ran out. *)
Fixpoint Terminal_drain (fuel : nat) (Key : Z) (t : T) : option (Z * T) :=
  let '(avail, t1) := FileInputAvailable FileNumberSam9 t in
  if avail =? 0 then Some (Key, t1)
  else
    match fuel with
    | O => None
    | S fuel' =>
        let '(k, t2) := FileGetCharacter FileNumberSam9 t1 in
        let t3 := sys_write FileNumberConsole k t2 in
        Terminal_drain fuel' 0 t3
    end.

(** One cycle: the body of the [do] loop. *)
Definition Terminal_cycle (fuel : nat) (Key : Z) (t : T) : option (Z * T) :=
  let '(Key1, t1) := Terminal_console Key t in
  Terminal_drain fuel Key1 t1.

(** The states of the loop and its condition
    [(Key != 0x1b) && (Key != 0x03)], looked at after each cycle. *)
Inductive TerminalState : Type := Running | Exiting.

Definition Terminal_state (Key : Z) : TerminalState :=
  if negb (Key =? 0x1b) && negb (Key =? 0x03) then Running else Exiting.

Fixpoint Terminal_loop (cycles fuel : nat) (Key : Z) (t : T)
  : option (Z * T) :=
  match cycles with
  | O => None
  | S cycles' =>
      match Terminal_cycle fuel Key t with
      | None => None
      | Some (Key', t') =>
          match Terminal_state Key' with
          | Running => Terminal_loop cycles' fuel Key' t'
          | Exiting => Some (Key', t')
          end
      end
  end.

(** [TerminalEmulator]: the optional [go], then the loop from [Key = 0].
    [AddrGo] is [Some ValueAddrGo] when [ParamAddrGo] is set.  The raw
    mode of the console is not part of the model. *)
Definition TerminalEmulator (AddrGo : option Z) (cycles fuel : nat) (t : T)
  : option (Z * T) :=
  let t' :=
    match AddrGo with
    | Some a =>
        let t1 := fprintf CmdSync t in
        let '(_, t2) := GetResponse FileNumberSam9 t1 in
        let t3 := fprintf (CmdGo a) t2 in
        let '(_, t4) := GetResponse FileNumberSam9 t3 in
        t4
    | None => t
    end in
  Terminal_loop cycles fuel 0 t'.

End Engine.

(* ===================================================================== *)
(** * LoadFile, the verify loop and the dump *)
(* ===================================================================== *)

(** The four diagnostics of [LoadFile]: open error, zero length, calloc
    error, read error. *)
Inductive LoadFileError : Type :=
  | ErrOpen
  | ErrZeroLength
  | ErrFileCalloc
  | ErrRead.

(** [LoadFile (FileName)].  [file] is the content of the named file
    ([None] when [fopen] fails) and [calloc_ok] tells whether [calloc]
    returns a block.  The result is the diagnostic ([None] when the
    function returns [true]) and the globals [ValueBytes] and
    [FileBuffer] after the call.  [fread] delivers the bytes that the
    file has, at most [ValueBytes] of them, into the zeroed block. *)
Definition LoadFile (file : option (list Z)) (calloc_ok : bool)
    (ValueBytes : Z) (FileBuffer : list Z)
  : option LoadFileError * Z * list Z :=
  match file with
  | Some content =>
      let FileBytes := wrap32 (Z.of_nat (length content)) in
      if FileBytes =? 0 then (Some ErrZeroLength, ValueBytes, FileBuffer)
      else
        let ValueBytes' := if ValueBytes =? 0 then FileBytes else ValueBytes in
        if calloc_ok then
          let n := Z.to_nat ValueBytes' in
          let got := take n content in
          let buffer := got ++ replicate (n - length got)%nat 0 in
          if Z.of_nat (length got) =? ValueBytes'
          then (None, ValueBytes', buffer)
          else (Some ErrRead, ValueBytes', buffer)
        else (Some ErrFileCalloc, ValueBytes', [])
  | None => (Some ErrOpen, ValueBytes, FileBuffer)
  end.

(** What the verify loop leaves: [Success], the offsets of the error
    lines it printed, and the final value of [i]. *)
Record Verified : Type := {
  verify_Success : bool;
  verify_errors : list Z;
  verify_i : Z
}.

(** [for (i = 0; Success && (i < ValueBytes); i++) if (FileBuffer[i] !=
    MemoryBuffer[i]) { (error line); Success = false; }], entered with
    [Success] true; [k] is the number of offsets from [i] to
    [ValueBytes], so [i++] does not wrap. *)
Fixpoint verify_loop (FileBuffer MemoryBuffer : list Z) (k : nat) (i : Z)
  : Verified :=
  match k with
  | O => {| verify_Success := true; verify_errors := []; verify_i := i |}
  | S k' =>
      if byte_at FileBuffer i =? byte_at MemoryBuffer i
      then verify_loop FileBuffer MemoryBuffer k' (i + 1)
      else {| verify_Success := false; verify_errors := [i];
              verify_i := i + 1 |}
  end.

(** The outcomes of the verify block of [main]. *)
Inductive VerifyResult : Type :=
  | VerifyOk                 (* ["Verified memory at ..."] *)
  | VerifyErrorAt (i : Z)    (* ["... error at offset %d!"] *)
  | VerifyRequiresN          (* ["*** Parameter '-v' requires '-n'!"] *).

(** The verify block of [main], entered with [Success] true. *)
Definition verify (ValueBytes : Z) (FileBuffer MemoryBuffer : list Z)
  : VerifyResult :=
  if ValueBytes =? 0 then VerifyRequiresN
  else
    let v := verify_loop FileBuffer MemoryBuffer (Z.to_nat ValueBytes) 0 in
    match verify_errors v with
    | i :: _ => VerifyErrorAt i
    | [] => VerifyOk
    end.

(** The characters of a C string: up to the first NUL. *)
Fixpoint c_str (l : list Z) : list Z :=
  match l with
  | c :: l' => if c =? 0 then [] else c :: c_str l'
  | [] => []
  end.

(** The inner [for] loop of the dump, [n] iterations of it at most:
    two digits at [j], a gap, and the character at [k]. *)
Fixpoint dump_fill (m : Memory) (n : nat) (j k : nat) (Offset : Z)
    (Template : list Z) : Z * list Z :=
  match n with
  | O => (Offset, Template)
  | S n' =>
      if Offset <? MemoryCount m then
        let Value := byte_at (MemoryBuffer m) Offset in
        let Temp := printf_X false 2 Value in
        let T1 := <[j := byte_at Temp 0]> Template in
        let T2 := <[S j := byte_at Temp 1]> T1 in
        let T3 :=
          <[k := if (0x1f <? Value) && (Value <? 0x7f) then Value
                 else 0x2e (* '.' *)]> T2 in
        dump_fill m n' (j + 3) (S k) (wrap32 (Offset + 1)) T3
      else (Offset, Template)
  end.

(** One line of the dump: ["$%6.6x  %s\n"] of [Address] and
    [Template]. *)
Definition dump_line (Address : Z) (Template : list Z) : list Z :=
  [0x24] ++ printf_X false 6 Address ++ [0x20; 0x20] ++ c_str Template
    ++ [0x0a].

(** The [while (Offset < MemoryCount)] loop of the dump. *)
Fixpoint dump_loop (fuel : nat) (m : Memory) (Address Offset : Z)
  : option (list (list Z)) :=
  if Offset <? MemoryCount m then
    match fuel with
    | O => None
    | S fuel' =>
        let Template0 := <[65%nat := 0]> (replicate 66 0x20) in
        let '(Offset', Template) := dump_fill m 16 0 49 Offset Template0 in
        match dump_loop fuel' m (wrap32 (Address + 16)) Offset' with
        | Some rows => Some (dump_line Address Template :: rows)
        | None => None
        end
    end
  else Some [].

(** The lines printed by the dump block of [main] once [FlagDump &&
    MemoryCount] holds, on [MemoryCount] units of fuel (enough, see
    [dump_is_dump_text]). *)
Definition dump (ValueAddrStart : Z) (m : Memory) : option (list (list Z)) :=
  dump_loop (Z.to_nat (MemoryCount m)) m ValueAddrStart 0.

(* ===================================================================== *)
(** * main *)
(* ===================================================================== *)

(** The lines that [main] and its callees print about the operations
    (progress lines, traces and banners are left out). *)
Inductive Message : Type :=
  | MsgPartId (PartId : Z)           (* ["PartId = $%8.8X"] *)
  | ErrCpu                           (* ["*** Failed to get cpu type ..."] *)
  | MsgLoaded (n : Z)                (* ["Loaded file ..."] *)
  | ErrLoadFile (e : LoadFileError)  (* ["*** Failed to load file ..."] *)
  | ErrRequiresF                     (* ["... '-s' and '-v' require '-f'!"] *)
  | MsgUploaded (n : Z)              (* ["Uploaded file ..."] *)
  | MsgDownloaded (n : Z)            (* ["Downloaded memory ..."] *)
  | ErrLoadMemory (e : LoadMemoryError) (* ["*** Failed to download ..."] *)
  | ErrDumpRequiresN                 (* ["*** Parameter '-d' requires '-n'!"] *)
  | MsgVerified                      (* ["Verified memory ..."] *)
  | ErrVerify (i : Z)                (* ["*** Verify memory ... error at offset"] *)
  | ErrVerifyRequiresN               (* ["*** Parameter '-v' requires '-n'!"] *)
  | MsgWrote (n : Z)                 (* ["Wrote %d bytes to file ..."] *)
  | ErrWrite                         (* ["*** Error writing ..."] *)
  | ErrOpenWrite                     (* ["*** Unable to open file ... for write!"] *)
  | MsgDump (line : list Z)          (* one line of the dump *)
  | MsgGo (a : Z)                    (* ["G%X#"] *).

(** The command line after [ParseParameters]: the flags and the values
    that [main] only reads.  [AddrGo] is [Some ValueAddrGo] when
    [ParamAddrGo] is set. *)
Record Params : Type := {
  ParamFileName : option string;
  AddrGo : option Z;
  ValueAddrStart : Z;
  FlagReceive : bool;
  FlagDump : bool;
  FlagSend : bool;
  FlagCpu : bool;
  FlagVerify : bool;
  FlagQuiet : bool;
  FlagInteractive : bool
}.

(** What the host gives: the content of the file named by [-f] ([None]:
    it cannot be opened), whether the two [calloc] calls return a block,
    and whether the output file opens and takes the bytes. *)
Record Env : Type := {
  file_in : option (list Z);
  calloc_file : bool;
  calloc_memory : bool;
  fopen_wb : bool;
  fwrite_ok : bool
}.

(** The variables that [main] changes: [Success], the globals
    [ValueBytes], [FileBuffer], [MemoryCount] and [MemoryBuffer], the
    transport, the lines printed so far and the file written by [-r]. *)
Record Run (T : Type) : Type := {
  run_Success : bool;
  run_ValueBytes : Z;
  run_FileBuffer : list Z;
  run_Memory : Memory;
  run_line : T;
  run_out : list Message;
  run_saved : option (list Z)
}.

Arguments run_Success {T} _.
Arguments run_ValueBytes {T} _.
Arguments run_FileBuffer {T} _.
Arguments run_Memory {T} _.
Arguments run_line {T} _.
Arguments run_out {T} _.
Arguments run_saved {T} _.

Section Main.

Context {T : Type} `{Transport T}.

Definition say (msg : list Message) (r : Run T) : Run T :=
  {| run_Success := run_Success r; run_ValueBytes := run_ValueBytes r;
     run_FileBuffer := run_FileBuffer r; run_Memory := run_Memory r;
     run_line := run_line r; run_out := run_out r ++ msg;
     run_saved := run_saved r |}.

Definition fail (r : Run T) : Run T :=
  {| run_Success := false; run_ValueBytes := run_ValueBytes r;
     run_FileBuffer := run_FileBuffer r; run_Memory := run_Memory r;
     run_line := run_line r; run_out := run_out r;
     run_saved := run_saved r |}.

Definition set_line (t : T) (r : Run T) : Run T :=
  {| run_Success := run_Success r; run_ValueBytes := run_ValueBytes r;
     run_FileBuffer := run_FileBuffer r; run_Memory := run_Memory r;
     run_line := t; run_out := run_out r; run_saved := run_saved r |}.

Definition set_file (n : Z) (buffer : list Z) (r : Run T) : Run T :=
  {| run_Success := run_Success r; run_ValueBytes := n;
     run_FileBuffer := buffer; run_Memory := run_Memory r;
     run_line := run_line r; run_out := run_out r;
     run_saved := run_saved r |}.

Definition set_memory (m : Memory) (r : Run T) : Run T :=
  {| run_Success := run_Success r; run_ValueBytes := run_ValueBytes r;
     run_FileBuffer := run_FileBuffer r; run_Memory := m;
     run_line := run_line r; run_out := run_out r;
     run_saved := run_saved r |}.

Definition set_saved (bytes : list Z) (r : Run T) : Run T :=
  {| run_Success := run_Success r; run_ValueBytes := run_ValueBytes r;
     run_FileBuffer := run_FileBuffer r; run_Memory := run_Memory r;
     run_line := run_line r; run_out := run_out r;
     run_saved := Some bytes |}.

(** The state in which [main] starts once the port is open. *)
Definition main_init (ValueBytes : Z) (t : T) : Run T :=
  {| run_Success := true; run_ValueBytes := ValueBytes;
     run_FileBuffer := [];
     run_Memory := {| MemoryCount := 0; MemoryBuffer := [] |};
     run_line := t; run_out := []; run_saved := None |}.

(** ["#\n"], and ["V#\n"] unless quiet, each with its response. *)
Definition main_handshake (p : Params) (r : Run T) : Run T :=
  let t1 := fprintf CmdSync (run_line r) in
  let '(_, t2) := GetResponse FileNumberSam9 t1 in
  if FlagQuiet p then set_line t2 r
  else
    let t3 := fprintf CmdVersion t2 in
    let '(_, t4) := GetResponse FileNumberSam9 t3 in
    set_line t4 r.

(** The cpu block, and the [GetResponse] that follows it. *)
Definition main_cpu (p : Params) (r : Run T) : Run T :=
  let r1 :=
    if FlagCpu p then
      let t1 := fprintf (CmdReadWord 0xfffff240) (run_line r) in
      let '(resp, t2) := GetResponse FileNumberSam9 t1 in
      if ResponseCount resp =? 0
      then fail (say [ErrCpu] (set_line t2 r))
      else say [MsgPartId (Value resp)] (set_line t2 r)
    else r in
  let '(_, t3) := GetResponse FileNumberSam9 (run_line r1) in
  set_line t3 r1.

(** send/verify - load file image. *)
Definition main_load (p : Params) (e : Env) (r : Run T) : Run T :=
  if run_Success r && (FlagSend p || FlagVerify p) then
    match ParamFileName p with
    | Some _ =>
        let '(err, n, buffer) :=
          LoadFile (file_in e) (calloc_file e) (run_ValueBytes r)
            (run_FileBuffer r) in
        match err with
        | None => say [MsgLoaded n] (set_file n buffer r)
        | Some x => fail (say [ErrLoadFile x] (set_file n buffer r))
        end
    | None => fail (say [ErrRequiresF] r)
    end
  else r.

(** send. *)
Definition main_send (p : Params) (r : Run T) : option (Run T) :=
  if run_Success r && FlagSend p then
    match send (ValueAddrStart p) (run_ValueBytes r) (run_FileBuffer r)
            (run_line r) with
    | Some (c, t) => Some (say [MsgUploaded (Length c)] (set_line t r))
    | None => None
    end
  else Some r.

(** verify/recv/dump - load image buffer. *)
Definition main_download (p : Params) (e : Env) (r : Run T)
  : option (Run T) :=
  if run_Success r && (FlagVerify p || FlagReceive p || FlagDump p) then
    if run_ValueBytes r =? 0 then Some (fail (say [ErrDumpRequiresN] r))
    else
      match LoadMemory (run_ValueBytes r) (run_Memory r) (calloc_memory e)
              (ValueAddrStart p) (run_ValueBytes r) (run_line r) with
      | Some (None, m, t) =>
          Some (say [MsgDownloaded (run_ValueBytes r)]
                  (set_memory m (set_line t r)))
      | Some (Some err, m, t) =>
          Some (fail (say [ErrLoadMemory err] (set_memory m (set_line t r))))
      | None => None
      end
  else Some r.

(** verify data in image buffer. *)
Definition main_verify (p : Params) (r : Run T) : Run T :=
  if run_Success r && FlagVerify p then
    match verify (run_ValueBytes r) (run_FileBuffer r)
            (MemoryBuffer (run_Memory r)) with
    | VerifyOk => say [MsgVerified] r
    | VerifyErrorAt i => fail (say [ErrVerify i] r)
    | VerifyRequiresN => fail (say [ErrVerifyRequiresN] r)
    end
  else r.

(** recv data in image buffer. *)
Definition main_receive (p : Params) (e : Env) (r : Run T) : Run T :=
  let m := run_Memory r in
  if run_Success r && FlagReceive p && negb (MemoryCount m =? 0) then
    if fopen_wb e then
      if fwrite_ok e then
        say [MsgWrote (MemoryCount m)]
          (set_saved (take (Z.to_nat (MemoryCount m)) (MemoryBuffer m)) r)
      else fail (say [ErrWrite] r)
    else fail (say [ErrOpenWrite] r)
  else r.

(** dump data in image buffer. *)
Definition main_dump (p : Params) (r : Run T) : option (Run T) :=
  let m := run_Memory r in
  if FlagDump p && negb (MemoryCount m =? 0) then
    match dump (ValueAddrStart p) m with
    | Some rows => Some (say (map MsgDump rows) r)
    | None => None
    end
  else Some r.

(** interactive terminal mode w/optional 'go'. *)
Definition main_go (p : Params) (cycles fuel : nat) (r : Run T)
  : option (Run T) :=
  if FlagInteractive p then
    match TerminalEmulator (AddrGo p) cycles fuel (run_line r) with
    | Some (_, t) => Some (set_line t r)
    | None => None
    end
  else
    match AddrGo p with
    | Some a =>
        if run_Success r then
          let t1 := fprintf (CmdGo a) (run_line r) in
          let '(_, t2) := GetResponse FileNumberSam9 t1 in
          Some (say [MsgGo a] (set_line t2 r))
        else Some r
    | None => Some r
    end.

(** The operations of [main] from the handshake to the dump, in the
    order of the source. *)
Definition main_transfer (p : Params) (e : Env) (r0 : Run T)
  : option (Run T) :=
  let r1 := main_handshake p r0 in
  let r2 := main_cpu p r1 in
  let r3 := main_load p e r2 in
  r4 ← main_send p r3;
  r5 ← main_download p e r4;
  let r6 := main_verify p r5 in
  let r7 := main_receive p e r6 in
  main_dump p r7.

(** [main] once the port is open; the exit code is 0 when [Success]
    holds at the end and 1 otherwise. *)
Definition main (p : Params) (e : Env) (cycles fuel : nat)
    (ValueBytes : Z) (t : T) : option (Z * Run T) :=
  r ← main_transfer p e (main_init ValueBytes t);
  r' ← main_go p cycles fuel r;
  Some (if run_Success r' then 0 else 1, r').

End Main.

(* ===================================================================== *)
(** * A simulated target *)
(* ===================================================================== *)

(** A target that stores the register value of each write command under
    its address and answers a read command with the value stored there,
    printed as [0x] and hexadecimal digits and followed by the prompt
    (0 where nothing was written).
    Reads of the addresses in [mute] are not answered.  The bytes it
    sends wait in [to_host] until the host reads them; [keys] are the
    bytes typed on the console, [screen] the bytes written to it,
    [from_host] the bytes written to the serial line by [write] and
    [commands] the commands received. *)
Record Sim : Type := {
  regs : gmap Z Z;
  mute : list Z;
  to_host : list Z;
  keys : list Z;
  screen : list Z;
  from_host : list Z;
  commands : list Command
}.

Definition prompt : list Z := [0x0a; 0x0d; 0x3e].

Definition Sim_reply (s : Sim) (c : Command) : list Z :=
  match c with
  | CmdSync | CmdVersion | CmdWriteByte _ _ | CmdWriteWord _ _ => prompt
  | CmdReadByte a =>
      if bool_decide (a ∈ mute s) then []
      else [0x30; 0x78] ++ printf_X true 2 (default 0 (regs s !! a)) ++ prompt
  | CmdReadWord a =>
      if bool_decide (a ∈ mute s) then []
      else [0x30; 0x78] ++ printf_X true 8 (default 0 (regs s !! a)) ++ prompt
  | CmdGo _ => []
  end.

Definition Sim_store (s : Sim) (c : Command) : gmap Z Z :=
  match c with
  | CmdWriteByte a v | CmdWriteWord a v => <[a := v]> (regs s)
  | _ => regs s
  end.

Definition Sim_fprintf (c : Command) (s : Sim) : Sim :=
  {| regs := Sim_store s c; mute := mute s;
     to_host := to_host s ++ Sim_reply s c;
     keys := keys s; screen := screen s; from_host := from_host s;
     commands := commands s ++ [c] |}.

(** The target with other bytes under way to the host. *)
Definition Sim_set_to_host (l : list Z) (s : Sim) : Sim :=
  {| regs := regs s; mute := mute s; to_host := l;
     keys := keys s; screen := screen s; from_host := from_host s;
     commands := commands s |}.

Definition Sim_select (fd : FileNumber) (s : Sim) : Z * Sim :=
  match fd with
  | FileNumberConsole => (match keys s with [] => 0 | _ => 1 end, s)
  | FileNumberSam9 => (match to_host s with [] => 0 | _ => 1 end, s)
  end.

Definition Sim_read (fd : FileNumber) (s : Sim) : option Z * Sim :=
  match fd with
  | FileNumberConsole =>
      match keys s with
      | [] => (None, s)
      | c :: rest =>
          (Some c,
           {| regs := regs s; mute := mute s; to_host := to_host s;
              keys := rest; screen := screen s; from_host := from_host s;
              commands := commands s |})
      end
  | FileNumberSam9 =>
      match to_host s with
      | [] => (None, s)
      | c :: rest => (Some c, Sim_set_to_host rest s)
      end
  end.

Definition Sim_write (fd : FileNumber) (b : Z) (s : Sim) : Sim :=
  match fd with
  | FileNumberConsole =>
      {| regs := regs s; mute := mute s; to_host := to_host s;
         keys := keys s; screen := screen s ++ [b];
         from_host := from_host s; commands := commands s |}
  | FileNumberSam9 =>
      {| regs := regs s; mute := mute s; to_host := to_host s;
         keys := keys s; screen := screen s;
         from_host := from_host s ++ [b]; commands := commands s |}
  end.

#[export] Instance Sim_transport : Transport Sim := {|
  sys_select := Sim_select;
  sys_read := Sim_read;
  sys_write := Sim_write;
  fprintf := Sim_fprintf
|}.

(** A target at rest: nothing stored, nothing under way. *)
Definition Sim_idle : Sim :=
  {| regs := ∅; mute := []; to_host := []; keys := []; screen := [];
     from_host := []; commands := [] |}.

(** The same with bytes under way to the host and keys typed. *)
Definition Sim_with (incoming typed : list Z) : Sim :=
  {| regs := ∅; mute := []; to_host := incoming; keys := typed;
     screen := []; from_host := []; commands := [] |}.

(** A target that answers every command but the reads of the addresses
    in [silent]. *)
Definition Sim_silent_at (silent : list Z) : Sim :=
  {| regs := ∅; mute := silent; to_host := []; keys := []; screen := [];
     from_host := []; commands := [] |}.

(** A target that answers nothing at all. *)
Inductive Dead : Type := dead.

#[export] Instance Dead_transport : Transport Dead := {|
  sys_select := fun _ d => (0, d);
  sys_read := fun _ d => (None, d);
  sys_write := fun _ _ d => d;
  fprintf := fun _ d => d
|}.

(* ===================================================================== *)
(** * Counting the polls *)
(* ===================================================================== *)

(** Any transport, with a count of the calls of [select] on it. *)
Record Counted (T : Type) : Type := {
  counted : T;
  polls : nat
}.

Arguments counted {T} _.
Arguments polls {T} _.
Arguments Build_Counted {T} _ _.

#[export] Instance Counted_transport {T : Type} `{Transport T}
  : Transport (Counted T) := {|
  sys_select := fun fd s =>
    let '(r, t) := sys_select fd (counted s) in
    (r, Build_Counted t (S (polls s)));
  sys_read := fun fd s =>
    let '(r, t) := sys_read fd (counted s) in
    (r, Build_Counted t (polls s));
  sys_write := fun fd b s =>
    Build_Counted (sys_write fd b (counted s)) (polls s);
  fprintf := fun c s => Build_Counted (fprintf c (counted s)) (polls s)
|}.

(* ===================================================================== *)
(** * Notions used by the statements *)
(* ===================================================================== *)

(** The chunk policy at a cursor of a transfer of [n] bytes: the width
    is 4 while four bytes or more remain and 1 for the last three, and
    the length does not pass [n]. *)
Definition chunk_policy (n : Z) (c : Cursor) : Prop :=
  0 <= Length c <= n /\
  (4 <= n - Length c -> Chunk c = 4) /\
  (n - Length c < 4 -> Chunk c = 1).

(** The image that a download leaves, complete or not: [MemoryCount]
    bytes received, inside the block, and every element a byte. *)
Definition image_ok (Count : Z) (c : Cursor) (m : Memory) : Prop :=
  chunk_policy Count c /\ MemoryCount m = Length c /\
  length (MemoryBuffer m) = Z.to_nat Count /\
  Forall is_byte (MemoryBuffer m).

(** The burst holds the marker: a ['0'] with an ['x'] right after it. *)
Fixpoint has_marker (l : list Z) : bool :=
  match l with
  | c :: l' =>
      match l' with
      | d :: _ => ((c =? 0x30) && (d =? 0x78)) || has_marker l'
      | [] => false
      end
  | [] => false
  end.

(** The dump written out, to compare [dump] with.  One line shows the
    bytes of [row], sixteen at most: the label, two blanks, each byte as
    two lower-case digits and a blank, blanks for the columns that have
    no byte, one more blank, then the characters (a dot for a byte that
    is not above 0x1f and below 0x7f) and blanks up to sixteen. *)
Definition dump_row_text (Address : Z) (row : list Z) : list Z :=
  [0x24] ++ printf_X false 6 Address ++ [0x20; 0x20]
    ++ concat (map (fun b => [hexdigit false (b / 16);
                               hexdigit false (b mod 16); 0x20]) row)
    ++ replicate (3 * (16 - length row)) 0x20
    ++ [0x20]
    ++ map (fun b => if (0x1f <? b) && (b <? 0x7f) then b else 0x2e) row
    ++ replicate (16 - length row) 0x20
    ++ [0x0a].

(** [rows] lines, sixteen bytes of [bytes] to a line, the label going up
    by 16 from one line to the next. *)
Fixpoint dump_text (rows : nat) (Address : Z) (bytes : list Z)
  : list (list Z) :=
  match rows with
  | O => []
  | S rows' =>
      dump_row_text Address (take 16 bytes)
        :: dump_text rows' (wrap32 (Address + 16)) (drop 16 bytes)
  end.

(** The cursors that a transfer of [n] bytes goes through from [c]. *)
Fixpoint chunks (fuel : nat) (n : Z) (c : Cursor) : list Cursor :=
  match fuel with
  | O => []
  | S fuel' =>
      if Length c <? n then c :: chunks fuel' n (LoadMemory_advance n c)
      else []
  end.

(** The register value that the send loop writes for the chunk at [c]. *)
Definition chunk_value (FileBuffer : list Z) (c : Cursor) : Z :=
  (send_pack FileBuffer (Z.to_nat (Chunk c)) 0 (Length c) 0).1.

(** The four bytes of a chunk as one value, the first byte lowest. *)
Definition word_of (b0 b1 b2 b3 : Z) : Z :=
  b0 + 256 * b1 + 65536 * b2 + 16777216 * b3.

(** What makes the loop of [LoadMemory] advance whatever [ValueBytes]
    is: a width of 1, or a width of 4 that was either just chosen or
    checked against the bytes that remain. *)
Definition LoadMemory_progress (Count : Z) (c : Cursor) : Prop :=
  0 <= Length c < 2 ^ 32 /\
  (Length c < Count ->
   Chunk c = 1 \/ (Chunk c = 4 /\ (Length c = 0 \/ Length c + 4 <= Count))).

(** The [Template] of the dump after the bytes [done] of a line went
    in. *)
Definition dump_template (done : list Z) : list Z :=
  concat (map (fun b => [hexdigit false (b / 16);
                          hexdigit false (b mod 16); 0x20]) done)
    ++ replicate (3 * (16 - length done)) 0x20
    ++ [0x20]
    ++ map (fun b => if (0x1f <? b) && (b <? 0x7f) then b else 0x2e) done
    ++ replicate (16 - length done) 0x20
    ++ [0].

(* ===================================================================== *)
(** * Inputs of the examples *)
(* ===================================================================== *)

(** Seventeen bytes, the letters from [A] on. *)
Definition image17 : Memory :=
  {| MemoryCount := 17; MemoryBuffer := map Z.of_nat (seq 0x41 17) |}.

(** Sixteen of them. *)
Definition image16 : Memory :=
  {| MemoryCount := 16; MemoryBuffer := map Z.of_nat (seq 0x41 16) |}.

(** The command line [-q -c -d -n=4]. *)
Definition params_cpu_dump : Params :=
  {| ParamFileName := None; AddrGo := None; ValueAddrStart := 0x300000;
     FlagReceive := false; FlagDump := true; FlagSend := false;
     FlagCpu := true; FlagVerify := false; FlagQuiet := true;
     FlagInteractive := false |}.

(** The command line [-q -d -n=4]. *)
Definition params_dump : Params :=
  {| ParamFileName := None; AddrGo := None; ValueAddrStart := 0x300000;
     FlagReceive := false; FlagDump := true; FlagSend := false;
     FlagCpu := false; FlagVerify := false; FlagQuiet := true;
     FlagInteractive := false |}.

(** The command line [-q -f=image -v -d]. *)
Definition params_verify_dump : Params :=
  {| ParamFileName := Some "image"%string; AddrGo := None;
     ValueAddrStart := 0x300000;
     FlagReceive := false; FlagDump := true; FlagSend := false;
     FlagCpu := false; FlagVerify := true; FlagQuiet := true;
     FlagInteractive := false |}.

(** A host on which every allocation and every file operation
    succeeds; [file] is the content of the file named by [-f]. *)
Definition env_with (file : option (list Z)) : Env :=
  {| file_in := file; calloc_file := true; calloc_memory := true;
     fopen_wb := true; fwrite_ok := true |}.

(* ===================================================================== *)
(** * The command line *)
(* ===================================================================== *)

(** A [ccptr] argument is given as the bytes from the pointer on: the
    string ends at the first 0, and [String + k] is [drop k] of it.  The
    bytes after the terminator are part of the list because
    [NumericValue] can reach them; beyond the list every byte reads 0. *)

Definition isdigit (c : Z) : bool := (0x30 <=? c) && (c <=? 0x39).

(** The run of decimal digits at the head of [s], read as a number that
    continues [acc]. *)
Fixpoint dec_accum (acc : Z) (s : list Z) : Z :=
  match s with
  | c :: s' =>
      if isdigit c then dec_accum (acc * 10 + (c - 0x30)) s'
      else acc
  | [] => acc
  end.

(** What [scanf] stores in an [int] for digits that write the number
    [v], behind a [-] when [neg]: [strtol] converts them into a [long]
    of 64 bits, where a number that does not fit becomes [LONG_MAX] or,
    behind a [-], [LONG_MIN].  The low 32 bits are stored. *)
Definition scanf_int (neg : bool) (v : Z) : Z :=
  wrap32 (if neg then (if 2 ^ 63 <? v then - 2 ^ 63 else - v)
          else (if 2 ^ 63 <=? v then 2 ^ 63 - 1 else v)).

(** [sscanf (s, "%d", &Value)] into a [bit32]: white space is skipped,
    a sign is optional, then decimal digits.  When nothing matches,
    [Value] keeps what it held. *)
Definition sscanf_d (s : list Z) (Value : Z) : Z :=
  let s1 := skip_space s in
  let '(neg, s2) :=
    match s1 with
    | c :: r =>
        if c =? 0x2d then (true, r)
        else if c =? 0x2b then (false, r)
        else (false, s1)
    | [] => (false, s1)
    end in
  match s2 with
  | c :: _ =>
      if isdigit c
      then scanf_int neg (dec_accum 0 s2)
      else Value
  | [] => Value
  end.

(** The [while] loop that steps [String] over the blanks in front. *)
Fixpoint skip_blanks (String : list Z) : list Z :=
  match String with
  | c :: rest => if c =? 0x20 then skip_blanks rest else String
  | [] => []
  end.

(** [strchr ("Xx", c)] is not [NULL]: the terminating NUL of the string
    that is searched counts as one of its characters, so [c = 0] is
    found too. *)
Definition strchr_Xx (c : Z) : bool :=
  (c =? 0x58) || (c =? 0x78) || (c =? 0).

(** [NumericValue (String)]; [None] is the [NULL] pointer.  [sscanf]
    with ["%x"] reads as it does with ["%X"]. *)
Definition NumericValue (String : option (list Z)) : Z :=
  match String with
  | None => 0
  | Some s0 =>
      let s := skip_blanks s0 in
      if byte_at s 0 =? 0x24 (* '$' *) then sscanf_X (drop 1 s) 0
      else if (byte_at s 0 =? 0x30) && strchr_Xx (byte_at s 1)
      then sscanf_X (drop 2 s) 0
      else sscanf_d s 0
  end.

Module CommandLine.

(** The five [ccptr] globals that [ParseParameters] assigns. *)
Record Strings : Type := {
  ParamPort : list Z;
  ParamFileName : option (list Z);
  ParamAddrStart : option (list Z);
  ParamAddrGo : option (list Z);
  ParamBytes : option (list Z)
}.

(** The eight [bool] globals. *)
Record Flags : Type := {
  FlagReceive : bool;
  FlagDump : bool;
  FlagSend : bool;
  FlagCpu : bool;
  FlagVerify : bool;
  FlagQuiet : bool;
  FlagTrace : bool;
  FlagInteractive : bool
}.

(** The command-line parameter values of the program. *)
Record Globals : Type := {
  strings : Strings;
  flags : Flags;
  ValueAddrGo : Z;
  ValueAddrStart : Z;
  ValueBytes : Z
}.

(** The initializers of the globals. *)
Definition defaults : Globals :=
  {| strings :=
       {| ParamPort := bytes_of_string "/dev/ttyUSB0";
          ParamFileName := None;
          ParamAddrStart := Some (bytes_of_string "$300000");
          ParamAddrGo := None;
          ParamBytes := None |};
     flags :=
       {| FlagReceive := false; FlagDump := false; FlagSend := false;
          FlagCpu := false; FlagVerify := false; FlagQuiet := false;
          FlagTrace := false; FlagInteractive := false |};
     ValueAddrGo := 0; ValueAddrStart := 0; ValueBytes := 0 |}.

Definition strlen (x : list Z) : Z := Z.of_nat (length (c_str x)).

(** [case 'p': case 'f': case 'a': case 'n': case 'g':] *)
Definition takes_argument (c : Z) : bool :=
  (c =? 0x70) || (c =? 0x66) || (c =? 0x61) || (c =? 0x6e) || (c =? 0x67).

(** The inner [switch] of the parameters with arguments: [v] is
    [x + 3]. *)
Definition set_param (c : Z) (v : list Z) (s : Strings) : Strings :=
  if c =? 0x70 (* 'p' *) then
    {| ParamPort := v; ParamFileName := ParamFileName s;
       ParamAddrStart := ParamAddrStart s; ParamAddrGo := ParamAddrGo s;
       ParamBytes := ParamBytes s |}
  else if c =? 0x66 (* 'f' *) then
    {| ParamPort := ParamPort s; ParamFileName := Some v;
       ParamAddrStart := ParamAddrStart s; ParamAddrGo := ParamAddrGo s;
       ParamBytes := ParamBytes s |}
  else if c =? 0x61 (* 'a' *) then
    {| ParamPort := ParamPort s; ParamFileName := ParamFileName s;
       ParamAddrStart := Some v; ParamAddrGo := ParamAddrGo s;
       ParamBytes := ParamBytes s |}
  else if c =? 0x6e (* 'n' *) then
    {| ParamPort := ParamPort s; ParamFileName := ParamFileName s;
       ParamAddrStart := ParamAddrStart s; ParamAddrGo := ParamAddrGo s;
       ParamBytes := Some v |}
  else if c =? 0x67 (* 'g' *) then
    {| ParamPort := ParamPort s; ParamFileName := ParamFileName s;
       ParamAddrStart := ParamAddrStart s; ParamAddrGo := Some v;
       ParamBytes := ParamBytes s |}
  else s.

(** [ParamAddrGo = ParamAddrStart], for [-g] alone. *)
Definition set_go_from_start (s : Strings) : Strings :=
  {| ParamPort := ParamPort s; ParamFileName := ParamFileName s;
     ParamAddrStart := ParamAddrStart s; ParamAddrGo := ParamAddrStart s;
     ParamBytes := ParamBytes s |}.

(** The inner [switch] of the simple switch parameters; [None] is its
    [default], which makes the parameter invalid. *)
Definition set_switch (c : Z) (f : Flags) : option Flags :=
  if c =? 0x72 (* 'r' *) then
    Some {| FlagReceive := true; FlagDump := FlagDump f;
            FlagSend := FlagSend f; FlagCpu := FlagCpu f;
            FlagVerify := FlagVerify f; FlagQuiet := FlagQuiet f;
            FlagTrace := FlagTrace f; FlagInteractive := FlagInteractive f |}
  else if c =? 0x64 (* 'd' *) then
    Some {| FlagReceive := FlagReceive f; FlagDump := true;
            FlagSend := FlagSend f; FlagCpu := FlagCpu f;
            FlagVerify := FlagVerify f; FlagQuiet := FlagQuiet f;
            FlagTrace := FlagTrace f; FlagInteractive := FlagInteractive f |}
  else if c =? 0x73 (* 's' *) then
    Some {| FlagReceive := FlagReceive f; FlagDump := FlagDump f;
            FlagSend := true; FlagCpu := FlagCpu f;
            FlagVerify := FlagVerify f; FlagQuiet := FlagQuiet f;
            FlagTrace := FlagTrace f; FlagInteractive := FlagInteractive f |}
  else if c =? 0x63 (* 'c' *) then
    Some {| FlagReceive := FlagReceive f; FlagDump := FlagDump f;
            FlagSend := FlagSend f; FlagCpu := true;
            FlagVerify := FlagVerify f; FlagQuiet := FlagQuiet f;
            FlagTrace := FlagTrace f; FlagInteractive := FlagInteractive f |}
  else if c =? 0x76 (* 'v' *) then
    Some {| FlagReceive := FlagReceive f; FlagDump := FlagDump f;
            FlagSend := FlagSend f; FlagCpu := FlagCpu f;
            FlagVerify := true; FlagQuiet := FlagQuiet f;
            FlagTrace := FlagTrace f; FlagInteractive := FlagInteractive f |}
  else if c =? 0x71 (* 'q' *) then
    Some {| FlagReceive := FlagReceive f; FlagDump := FlagDump f;
            FlagSend := FlagSend f; FlagCpu := FlagCpu f;
            FlagVerify := FlagVerify f; FlagQuiet := true;
            FlagTrace := FlagTrace f; FlagInteractive := FlagInteractive f |}
  else if c =? 0x74 (* 't' *) then
    Some {| FlagReceive := FlagReceive f; FlagDump := FlagDump f;
            FlagSend := FlagSend f; FlagCpu := FlagCpu f;
            FlagVerify := FlagVerify f; FlagQuiet := FlagQuiet f;
            FlagTrace := true; FlagInteractive := FlagInteractive f |}
  else if c =? 0x69 (* 'i' *) then
    Some {| FlagReceive := FlagReceive f; FlagDump := FlagDump f;
            FlagSend := FlagSend f; FlagCpu := FlagCpu f;
            FlagVerify := FlagVerify f; FlagQuiet := FlagQuiet f;
            FlagTrace := FlagTrace f; FlagInteractive := true |}
  else None.

(** The body of the [for] loop for one argument [x]; [None] when
    [Success] is false at its end. *)
Definition ParseParameters_argument (x : list Z) (g : Strings * Flags)
  : option (Strings * Flags) :=
  let '(s, f) := g in
  if negb (byte_at x 0 =? 0x2d (* '-' *)) then None
  else
    let c := byte_at x 1 in
    if takes_argument c then
      if 3 <? strlen x then
        if byte_at x 2 =? 0x3d (* '=' *)
        then Some (set_param c (drop 3 x) s, f)
        else None
      else
        if (c =? 0x67) && (strlen x =? 2)
        then Some (set_go_from_start s, f)
        else None
    else
      match set_switch c f with
      | Some f' => Some (s, f')
      | None => None
      end.

(** The [for] loop over [argv[1]] to [argv[argc - 1]]: the globals it
    leaves, and the argument at which it returned [false], if any. *)
Fixpoint ParseParameters_loop (args : list (list Z)) (g : Strings * Flags)
  : Strings * Flags * option (list Z) :=
  match args with
  | [] => (g, None)
  | x :: rest =>
      match ParseParameters_argument x g with
      | Some g' => ParseParameters_loop rest g'
      | None => (g, Some x)
      end
  end.

(** The lines that [ParseParameters] prints. *)
Inductive Diagnostic : Type :=
  | InvalidParameter (x : list Z)  (* ["*** Invalid parameter: '%s'"] *)
  | InvalidPort                    (* ["*** Invalid parameter: '-p=%s'"] *)
  | RequireF                       (* ["... '-r' and '-s' require '-f'!"] *)
  | RequireN                       (* ["... '-r' and '-d' require '-n'!"] *)
  | Exclusive                      (* ["... may not both be specified!"] *)
  | InvalidBytes                   (* ["*** Invalid parameter: '-n=%s'"] *).

Definition with_options (s : Strings) (f : Flags) (g : Globals) : Globals :=
  {| strings := s; flags := f; ValueAddrGo := ValueAddrGo g;
     ValueAddrStart := ValueAddrStart g; ValueBytes := ValueBytes g |}.

(** [strncmp (ParamPort, "/dev/", 5)] is 0. *)
Definition is_device (port : list Z) : bool :=
  bool_decide (take 5 (c_str port) = [0x2f; 0x64; 0x65; 0x76; 0x2f]).

Definition is_NULL (p : option (list Z)) : bool :=
  match p with Some _ => false | None => true end.

(** [ParseParameters (argc, argv)] with [argc] the length of [argv]:
    the value returned, the globals after the call and the lines
    printed. *)
Definition ParseParameters (argv : list (list Z)) (g : Globals)
  : bool * Globals * list Diagnostic :=
  let '(s, f, bad) := ParseParameters_loop (drop 1 argv) (strings g, flags g) in
  let g1 := with_options s f g in
  match bad with
  | Some x => (false, g1, [InvalidParameter x])
  | None =>
      if negb (is_device (ParamPort s)) then (false, g1, [InvalidPort])
      else if (FlagReceive f || FlagSend f) && is_NULL (ParamFileName s)
      then (false, g1, [RequireF])
      else
        let warned :=
          if (FlagReceive f || FlagDump f) && is_NULL (ParamBytes s)
          then [RequireN] else [] in
        if FlagReceive f && FlagSend f then (false, g1, warned ++ [Exclusive])
        else
          let start :=
            if is_NULL (ParamAddrStart s) then ValueAddrStart g
            else NumericValue (ParamAddrStart s) in
          let go :=
            if is_NULL (ParamAddrGo s) then ValueAddrGo g
            else NumericValue (ParamAddrGo s) in
          if is_NULL (ParamBytes s) then
            (true,
             {| strings := s; flags := f; ValueAddrGo := go;
                ValueAddrStart := start; ValueBytes := ValueBytes g |},
             warned)
          else
            let n := NumericValue (ParamBytes s) in
            (negb (n =? 0),
             {| strings := s; flags := f; ValueAddrGo := go;
                ValueAddrStart := start; ValueBytes := n |},
             if n =? 0 then warned ++ [InvalidBytes] else warned)
  end.

End CommandLine.

(** The characters of a C string as a [string]. *)
Definition string_of_chars (l : list Z) : string :=
  string_of_list_ascii (map (fun c => ascii_of_N (Z.to_N c)) (c_str l)).

(** What [main] reads of the globals after [ParseParameters]. *)
Definition Params_of (g : CommandLine.Globals) : Params :=
  let s := CommandLine.strings g in
  let f := CommandLine.flags g in
  {| ParamFileName := option_map string_of_chars (CommandLine.ParamFileName s);
     AddrGo :=
       match CommandLine.ParamAddrGo s with
       | Some _ => Some (CommandLine.ValueAddrGo g)
       | None => None
       end;
     ValueAddrStart := CommandLine.ValueAddrStart g;
     FlagReceive := CommandLine.FlagReceive f;
     FlagDump := CommandLine.FlagDump f;
     FlagSend := CommandLine.FlagSend f;
     FlagCpu := CommandLine.FlagCpu f;
     FlagVerify := CommandLine.FlagVerify f;
     FlagQuiet := CommandLine.FlagQuiet f;
     FlagInteractive := CommandLine.FlagInteractive f |}.

(** [main (argc, argv)] with [argc] the length of [argv].  [port] is
    what [fopen (ParamPort, "a+b")] gives ([None]: it fails).  The
    result is the exit code and, when the port was opened, the run.
    [Success] is only cleared by the operations on the open port. *)
Definition main_argv {T : Type} `{Transport T} (argv : list (list Z))
    (port : option T) (e : Env) (cycles fuel : nat)
  : option (Z * option (Run T)) :=
  if 1 <? Z.of_nat (length argv) then
    let '(ok, g, _) := CommandLine.ParseParameters argv CommandLine.defaults in
    if ok then
      match port with
      | Some t =>
          match main (Params_of g) e cycles fuel (CommandLine.ValueBytes g) t with
          | Some (code, r) => Some (code, Some r)
          | None => None
          end
      | None => Some (0, None)
      end
    else Some (0, None)
  else Some (0, None).

(* ===================================================================== *)
(** * Notions used by the further statements *)
(* ===================================================================== *)

(** The decimal numeral of [v], without leading zeros. *)
Fixpoint dec_rev (fuel : nat) (v : Z) : list Z :=
  match fuel with
  | O => []
  | S f => if v =? 0 then [] else (0x30 + v mod 10) :: dec_rev f (v / 10)
  end.

Definition decimal (v : Z) : list Z :=
  if v =? 0 then [0x30] else rev (dec_rev 10 v).

(** A numeral has ended: the string is over, or goes on with a
    character that is neither a hexadecimal digit nor an [x]. *)
Definition numeral_ends (rest : list Z) : Prop :=
  match rest with
  | [] => True
  | c :: _ => is_hex c = false /\ c <> 0x78 /\ c <> 0x58
  end.

(** An argument of the command line: the characters and the
    terminator. *)
Definition arg (s : string) : list Z := bytes_of_string s ++ [0].

(** The argument [x] starts with [-] and the letter [c]. *)
Definition names (c : Z) (x : list Z) : bool :=
  (byte_at x 0 =? 0x2d) && (byte_at x 1 =? c).

(** Some argument of [argv] after the program name does. *)
Definition has_option (c : Z) (argv : list (list Z)) : bool :=
  existsb (names c) (drop 1 argv).

(** The letters of the simple switches. *)
Definition is_switch (c : Z) : bool :=
  (c =? 0x72) || (c =? 0x64) || (c =? 0x73) || (c =? 0x63) ||
  (c =? 0x76) || (c =? 0x71) || (c =? 0x74) || (c =? 0x69).

(** The flag of a switch letter. *)
Definition flag_of (c : Z) (f : CommandLine.Flags) : bool :=
  if c =? 0x72 then CommandLine.FlagReceive f
  else if c =? 0x64 then CommandLine.FlagDump f
  else if c =? 0x73 then CommandLine.FlagSend f
  else if c =? 0x63 then CommandLine.FlagCpu f
  else if c =? 0x76 then CommandLine.FlagVerify f
  else if c =? 0x71 then CommandLine.FlagQuiet f
  else if c =? 0x74 then CommandLine.FlagTrace f
  else if c =? 0x69 then CommandLine.FlagInteractive f
  else false.

(** The argument is [-g] and nothing more. *)
Definition bare_go (x : list Z) : bool :=
  names 0x67 x && (CommandLine.strlen x =? 2).

(** The forms of argument that the usage text describes, read
    generously: a switch letter after the [-] (whatever follows the
    letter), one of [p f a n g] with [=] and a value of one character
    at least, and [-g] alone. *)
Definition well_formed (x : list Z) : bool :=
  (byte_at x 0 =? 0x2d) &&
  (if CommandLine.takes_argument (byte_at x 1)
   then ((3 <? CommandLine.strlen x) && (byte_at x 2 =? 0x3d)) || bare_go x
   else is_switch (byte_at x 1)).

(** An argument in order: well formed, with a port under [/dev/] when
    it names [-p] and a byte count that [NumericValue] does not read as
    0 when it names [-n]. *)
Definition port_in_order (x : list Z) : bool :=
  negb (names 0x70 x) || CommandLine.is_device (drop 3 x).

Definition count_in_order (x : list Z) : bool :=
  negb (names 0x6e x) || negb (NumericValue (Some (drop 3 x)) =? 0).

Definition in_order (x : list Z) : bool :=
  well_formed x && port_in_order x && count_in_order x.

(** The write commands of an upload of [bytes] to [a]: a word for each
    four bytes, the first byte lowest, then a byte command for each of
    the one to three bytes that are left. *)
Fixpoint byte_writes (a : Z) (bytes : list Z) : list Command :=
  match bytes with
  | b :: rest => CmdWriteByte a b :: byte_writes (wrap32 (a + 1)) rest
  | [] => []
  end.

Fixpoint send_commands (a : Z) (bytes : list Z) : list Command :=
  match bytes with
  | b0 :: b1 :: b2 :: b3 :: rest =>
      CmdWriteWord a (word_of b0 b1 b2 b3) :: send_commands (wrap32 (a + 4)) rest
  | _ => byte_writes a bytes
  end.

(** The read commands of a download of [n] bytes from [a]. *)
Fixpoint byte_reads (k : nat) (a : Z) : list Command :=
  match k with
  | O => []
  | S k' => CmdReadByte a :: byte_reads k' (wrap32 (a + 1))
  end.

Fixpoint read_commands (fuel : nat) (a : Z) (n : Z) : list Command :=
  match fuel with
  | O => []
  | S fuel' =>
      if 4 <=? n then CmdReadWord a :: read_commands fuel' (wrap32 (a + 4)) (n - 4)
      else byte_reads (Z.to_nat n) a
  end.

(** The commands that the two loops print for the chunk at [c], of
    width 1 or 4. *)
Definition write_command (FileBuffer : list Z) (c : Cursor) : Command :=
  if Chunk c =? 1 then CmdWriteByte (Address c) (chunk_value FileBuffer c)
  else CmdWriteWord (Address c) (chunk_value FileBuffer c).

Definition read_command (c : Cursor) : Command :=
  if Chunk c =? 1 then CmdReadByte (Address c) else CmdReadWord (Address c).

(** The key that the terminal forwards for the console byte [k]. *)
Definition forwarded (k : Z) : Z := if k =? 0x0d then 0x23 else k.

(** The keys that the terminal echoes on the console. *)
Definition printable (k : Z) : bool := (0x1f <? k) && (k <? 0x7f).

(** The simulated target after the terminal took the key [k] from the
    console, with [rest] still to be typed. *)
Definition Sim_typed (k : Z) (rest : list Z) (s : Sim) : Sim :=
  {| regs := regs s; mute := mute s; to_host := to_host s; keys := rest;
     screen :=
       screen s ++ (if printable (forwarded k) then [forwarded k] else []);
     from_host := from_host s ++ [forwarded k]; commands := commands s |}.

(* ===================================================================== *)
(** * Inputs of the further examples *)
(* ===================================================================== *)

(** The command line [-f=image -s]. *)
Definition params_send : Params :=
  {| ParamFileName := Some "image"%string; AddrGo := None;
     ValueAddrStart := 0x300000;
     FlagReceive := false; FlagDump := false; FlagSend := true;
     FlagCpu := false; FlagVerify := false; FlagQuiet := false;
     FlagInteractive := false |}.

(** The command line [-f=image -s -v]. *)
Definition params_send_verify : Params :=
  {| ParamFileName := Some "image"%string; AddrGo := None;
     ValueAddrStart := 0x300000;
     FlagReceive := false; FlagDump := false; FlagSend := true;
     FlagCpu := false; FlagVerify := true; FlagQuiet := false;
     FlagInteractive := false |}.

(** The command line [-f=copy -r -n=6]. *)
Definition params_receive : Params :=
  {| ParamFileName := Some "copy"%string; AddrGo := None;
     ValueAddrStart := 0x300000;
     FlagReceive := true; FlagDump := false; FlagSend := false;
     FlagCpu := false; FlagVerify := false; FlagQuiet := false;
     FlagInteractive := false |}.

(** A target at rest that holds [v] at the address [a]. *)
Definition Sim_holding (a v : Z) : Sim :=
  {| regs := {[a := v]}; mute := []; to_host := []; keys := []; screen := [];
     from_host := []; commands := [] |}.

(* ===================================================================== *)
(** * Properties *)
(* ===================================================================== *)

(** ** Machine integers *)

Lemma wrap32_small (x : Z) : 0 <= x < 2 ^ 32 -> wrap32 x = x.
Proof. intros Hx. unfold wrap32. apply Z.mod_small. exact Hx. Qed.

(** ** The response scanner *)

Section ScannerFacts.
Context {T : Type} `{Transport T}.

Lemma GetResponse_capture_length (fd : FileNumber) (room : nat) :
  forall (acc : list Z) (t : T),
    (length (GetResponse_capture fd room acc t).1 <= length acc + room)%nat.
Proof.
  induction room as [|room IH]; intros acc t; simpl.
  - destruct (FileInputAvailable fd t) as [avail t1].
    destruct (avail =? 0); simpl; lia.
  - destruct (FileInputAvailable fd t) as [avail t1].
    destruct (avail =? 0); simpl; [lia|].
    destruct (FileGetCharacter fd t1) as [c t2].
    specialize (IH (acc ++ [c]) t2). rewrite length_app in IH. simpl in IH. lia.
Qed.

End ScannerFacts.

Lemma has_marker_cons (c : Z) (l : list Z) :
  has_marker (c :: l) = false ->
  has_marker l = false /\ (c = 0x30 -> head l <> Some 0x78).
Proof.
  destruct l as [|d l]; simpl.
  - intros _. split; [reflexivity | intros _; discriminate].
  - intros Hm. apply orb_false_iff in Hm as [Hcd Hl]. split; [exact Hl|].
    intros -> [= ->]. discriminate.
Qed.

Lemma has_marker_unfold (c d : Z) (l : list Z) :
  has_marker (c :: d :: l) = ((c =? 0x30) && (d =? 0x78)) || has_marker (d :: l).
Proof. reflexivity. Qed.

Lemma has_marker_spec (l : list Z) :
  has_marker l = true <-> exists pre post, l = pre ++ [0x30; 0x78] ++ post.
Proof.
  induction l as [|c l IH].
  - split; [discriminate|]. intros (pre & post & E). destruct pre; discriminate.
  - split.
    + destruct l as [|d l]; [discriminate|].
      rewrite has_marker_unfold. intros Hm. apply orb_true_iff in Hm as [Hcd|Hl].
      * apply andb_true_iff in Hcd as [Hc Hd].
        apply Z.eqb_eq in Hc, Hd. subst. exists [], l. reflexivity.
      * apply IH in Hl as (pre & post & E). exists (c :: pre), post.
        simpl. f_equal. exact E.
    + intros (pre & post & E). destruct pre as [|p pre].
      * simpl in E. injection E as -> ->. reflexivity.
      * simpl in E. injection E as -> E.
        assert (Hl : has_marker l = true) by (apply IH; exists pre, post; exact E).
        destruct l as [|d l]; [discriminate|].
        rewrite has_marker_unfold, Hl. apply orb_true_r.
Qed.

Lemma GetResponse_scan_no_marker (l : list Z) :
  forall V, has_marker l = false ->
    GetResponse_scan 0 V l = V /\
    (head l <> Some 0x78 -> GetResponse_scan 1 V l = V).
Proof.
  induction l as [|c l IH]; intros V Hm; [split; reflexivity|].
  apply has_marker_cons in Hm as [Hl Hx].
  destruct (IH V Hl) as [IH0 IH1].
  split.
  - simpl. destruct (Z.eqb_spec c 0x30) as [->|_]; [|exact IH0].
    apply IH1, Hx. reflexivity.
  - simpl. intros Hc. destruct (Z.eqb_spec c 0x78) as [->|_]; [|exact IH0].
    exfalso. apply Hc. reflexivity.
Qed.

Lemma Sim_set_to_host_id (s : Sim) : Sim_set_to_host (to_host s) s = s.
Proof. destruct s; reflexivity. Qed.

Lemma Sim_set_to_host_twice (l l' : list Z) (s : Sim) :
  Sim_set_to_host l (Sim_set_to_host l' s) = Sim_set_to_host l s.
Proof. reflexivity. Qed.

Lemma Sim_capture (room : nat) :
  forall (acc : list Z) (s : Sim),
    GetResponse_capture FileNumberSam9 room acc s =
    (acc ++ map wrap8 (take room (to_host s)),
     Sim_set_to_host (drop room (to_host s)) s).
Proof.
  induction room as [|room IH]; intros acc s.
  - simpl. rewrite drop_0, Sim_set_to_host_id, app_nil_r.
    destruct (to_host s); reflexivity.
  - cbn [GetResponse_capture]. unfold FileInputAvailable, FileGetCharacter.
    cbn [sys_select sys_read Sim_transport Sim_select Sim_read].
    destruct (to_host s) as [|c rest] eqn:E.
    + cbn. rewrite app_nil_r. f_equal. rewrite <- E. symmetry. apply Sim_set_to_host_id.
    + cbn [Z.eqb]. rewrite IH. cbn. rewrite <- app_assoc. reflexivity.
Qed.

(** C10.  One call of [GetResponse] captures at most 30 bytes whatever
    the stream offers (so the terminating NUL stays inside the 32 bytes
    of [Response]), [ResponseCount] is the number of bytes captured, and
    the value is 0 when the captured burst holds no [0x] marker.  On a
    stream that holds more bytes the call takes the first 30 and leaves
    the others for the calls that follow. *)
Theorem GetResponse_burst_bound :
  (forall (T : Type) (H : Transport T) (fd : FileNumber) (t : T),
     let r := (GetResponse fd t).1 in
     (length (Captured r) <= 30)%nat /\
     ResponseCount r = Z.of_nat (length (Captured r)) /\
     (has_marker (Captured r) = false -> Value r = 0)) /\
  (forall s : Sim,
     Captured (GetResponse FileNumberSam9 s).1 =
       map wrap8 (take 30 (to_host s)) /\
     (GetResponse FileNumberSam9 s).2 =
       Sim_set_to_host (drop 30 (to_host s)) s).
Proof.
  split.
  - intros T H fd t. unfold GetResponse.
    pose proof (GetResponse_capture_length fd 30 [] t) as Hlen.
    destruct (GetResponse_capture fd 30 [] t) as [burst t']. simpl in *.
    split; [exact Hlen|]. split; [reflexivity|].
    intros Hm. apply (GetResponse_scan_no_marker burst 0 Hm).
  - intros s. unfold GetResponse. rewrite Sim_capture. split; reflexivity.
Qed.

Lemma GetResponse_burst_bound_witness :
  Value (GetResponse FileNumberSam9
           (Sim_with (bytes_of_string "RomBOOT"%string) [])).1 = 0.
Proof.
  apply (proj1 GetResponse_burst_bound Sim Sim_transport FileNumberSam9).
  reflexivity.
Defined.

(** C5.  What [GetResponse] does with a marker that follows a ['0']: in
    state 1 a character other than ['x'] sends the matcher back to state
    0 and is consumed, so the scan goes on behind [00x] as if nothing had
    been seen.  The burst [00x1A] gives the value 0; the burst [0x1A]
    gives 0x1A. *)
Theorem GetResponse_marker_after_zero :
  (forall (rest : list Z) (V : Z),
     GetResponse_scan 0 V ([0x30; 0x30; 0x78] ++ rest) =
     GetResponse_scan 0 V rest) /\
  Value (GetResponse FileNumberSam9
           (Sim_with (bytes_of_string "00x1A"%string) [])).1 = 0 /\
  Value (GetResponse FileNumberSam9
           (Sim_with (bytes_of_string "0x1A"%string) [])).1 = 0x1A.
Proof.
  split; [intros rest V; reflexivity|]. split; vm_compute; reflexivity.
Qed.

(** A value in the middle of other text is found. *)
Example GetResponse_finds_value :
  let r := (GetResponse FileNumberSam9
              (Sim_with (bytes_of_string "some text 0x1A2B more"%string)
                 [])).1 in
  Value r = 0x1A2B /\ ResponseCount r = 21.
Proof. split; vm_compute; reflexivity. Qed.

(** ** Printing a value in hexadecimal and reading it back *)

Lemma hexval_hexdigit (u : bool) (d : Z) :
  0 <= d < 16 -> hexval (hexdigit u d) = Some d.
Proof.
  intros Hd.
  assert (Hall : forallb (fun d => bool_decide
            (hexval (hexdigit u d) = Some d)) (seqZ 0 16) = true)
    by (destruct u; vm_compute; reflexivity).
  rewrite forallb_forall in Hall. specialize (Hall d).
  rewrite bool_decide_eq_true in Hall. apply Hall.
  apply list_elem_of_In, elem_of_seqZ. lia.
Qed.

Lemma is_hex_hexdigit (u : bool) (d : Z) :
  0 <= d < 16 -> is_hex (hexdigit u d) = true.
Proof. intros Hd. unfold is_hex. rewrite hexval_hexdigit by exact Hd. reflexivity. Qed.

Lemma hex_rev_length (u : bool) (fuel : nat) :
  forall v, (length (hex_rev u fuel v) <= fuel)%nat.
Proof.
  induction fuel as [|fuel IH]; intros v; cbn [hex_rev]; [reflexivity|].
  destruct (v =? 0); cbn [length]; [lia|]. specialize (IH (v / 16)). lia.
Qed.

Lemma hex_rev_is_hex (u : bool) (fuel : nat) :
  forall v, 0 <= v -> Forall (fun c => is_hex c = true) (hex_rev u fuel v).
Proof.
  induction fuel as [|fuel IH]; intros v Hv; cbn [hex_rev]; [constructor|].
  destruct (v =? 0); constructor.
  - apply is_hex_hexdigit, Z.mod_pos_bound. lia.
  - apply IH, Z.div_pos; lia.
Qed.

Lemma hex_accum_digits (u : bool) (fuel : nat) :
  forall (v acc : Z) (r : list Z),
    0 <= v < 16 ^ Z.of_nat fuel ->
    hex_accum acc (rev (hex_rev u fuel v) ++ r) =
    hex_accum (acc * 16 ^ Z.of_nat (length (hex_rev u fuel v)) + v) r.
Proof.
  induction fuel as [|fuel IH]; intros v acc r Hv.
  - cbn [hex_rev rev app length]. change (16 ^ Z.of_nat 0) with 1 in *.
    replace v with 0 by lia. rewrite Z.mul_1_r, Z.add_0_r. reflexivity.
  - cbn [hex_rev]. destruct (Z.eqb_spec v 0) as [->|Hne].
    + cbn [rev app length]. change (16 ^ Z.of_nat 0) with 1.
      rewrite Z.mul_1_r, Z.add_0_r. reflexivity.
    + cbn [rev length]. rewrite <- app_assoc. cbn [app].
      assert (Hq : 0 <= v / 16 < 16 ^ Z.of_nat fuel).
      { split; [apply Z.div_pos; lia|].
        apply Z.div_lt_upper_bound; [lia|].
        rewrite Nat2Z.inj_succ, Z.pow_succ_r in Hv by lia. lia. }
      rewrite IH by assumption. cbn [hex_accum].
      rewrite hexval_hexdigit by (apply Z.mod_pos_bound; lia).
      f_equal.
      rewrite Nat2Z.inj_succ, Z.pow_succ_r by lia.
      pose proof (Z.div_mod v 16 ltac:(lia)). lia.
Qed.

Lemma hex_accum_zeros (k : nat) (r : list Z) :
  hex_accum 0 (replicate k 0x30 ++ r) = hex_accum 0 r.
Proof. induction k as [|k IH]; [reflexivity|]. cbn. exact IH. Qed.

Lemma hex_accum_printf_X (u : bool) (p : nat) (v : Z) (c : Z) (r : list Z) :
  0 <= v < 2 ^ 32 -> hexval c = None ->
  hex_accum 0 (printf_X u p v ++ c :: r) = v.
Proof.
  intros Hv Hc. unfold printf_X. rewrite <- app_assoc, hex_accum_zeros.
  rewrite hex_accum_digits by (change (16 ^ Z.of_nat 8) with (2 ^ 32); lia).
  cbn [hex_accum]. rewrite Hc. rewrite Z.mul_0_l, Z.add_0_l. reflexivity.
Qed.

Lemma printf_X_is_hex (u : bool) (p : nat) (v : Z) :
  0 <= v -> Forall (fun c => is_hex c = true) (printf_X u p v).
Proof.
  intros Hv. unfold printf_X. apply Forall_app_2.
  - apply Forall_replicate. reflexivity.
  - apply Forall_rev, hex_rev_is_hex, Hv.
Qed.

Lemma printf_X_length (u : bool) (p : nat) (v : Z) :
  (p <= length (printf_X u p v) <= p `max` 8)%nat.
Proof.
  unfold printf_X. rewrite length_app, length_replicate, length_rev.
  pose proof (hex_rev_length u 8 v). lia.
Qed.

Lemma is_hex_range (c : Z) :
  is_hex c = true ->
  0x30 <= c <= 0x39 \/ 0x61 <= c <= 0x66 \/ 0x41 <= c <= 0x46.
Proof.
  unfold is_hex, hexval.
  destruct (Z.leb_spec 0x30 c), (Z.leb_spec c 0x39); cbn; try lia;
  destruct (Z.leb_spec 0x61 c), (Z.leb_spec c 0x66); cbn; try lia;
  destruct (Z.leb_spec 0x41 c), (Z.leb_spec c 0x46); cbn; try lia;
  discriminate.
Qed.

(** A number that fits the [unsigned int] is stored as it is. *)
Lemma scanf_unsigned_small (v : Z) :
  0 <= v < 2 ^ 32 -> scanf_unsigned false v = v.
Proof.
  intros Hv. unfold scanf_unsigned.
  destruct (Z.leb_spec (2 ^ 64) v); [lia|]. apply wrap32_small, Hv.
Qed.

Lemma sscanf_X_digits (c0 c1 : Z) (r : list Z) (V : Z) :
  is_hex c0 = true -> c1 <> 0x78 -> c1 <> 0x58 ->
  sscanf_X (c0 :: c1 :: r) V =
  scanf_unsigned false (hex_accum 0 (c0 :: c1 :: r)).
Proof.
  intros H0 Hx HX. pose proof (is_hex_range c0 H0) as Hr.
  unfold sscanf_X. cbn [skip_space].
  assert (Hsp : isspace c0 = false).
  { unfold isspace. destruct (Z.eqb_spec c0 0x20); [lia|].
    destruct (Z.leb_spec 9 c0), (Z.leb_spec c0 13); cbn; try reflexivity; lia. }
  rewrite Hsp.
  destruct (Z.eqb_spec c0 0x2d); [lia|]. destruct (Z.eqb_spec c0 0x2b); [lia|].
  destruct (Z.eqb_spec c1 0x78); [contradiction|].
  destruct (Z.eqb_spec c1 0x58); [contradiction|].
  rewrite andb_false_r, H0. reflexivity.
Qed.

Lemma GetResponse_scan_done (Value : Z) (l : list Z) :
  GetResponse_scan 3 Value l = Value.
Proof. induction l as [|c l IH]; [reflexivity|]. cbn. exact IH. Qed.

(** The answer to a read command carries the value. *)
Lemma GetResponse_scan_reply (p : nat) (v : Z) :
  (2 <= p)%nat -> 0 <= v < 2 ^ 32 ->
  GetResponse_scan 0 0 ([0x30; 0x78] ++ printf_X true p v ++ prompt) = v.
Proof.
  intros Hp Hv.
  pose proof (printf_X_is_hex true p v (proj1 Hv)) as Hhex.
  pose proof (printf_X_length true p v) as Hlen.
  pose proof (hex_accum_printf_X true p v 0x0a [0x0d; 0x3e] Hv eq_refl) as Hacc.
  unfold prompt. destruct (printf_X true p v) as [|c0 [|c1 ds]];
    cbn [length] in Hlen; try lia.
  apply Forall_cons in Hhex as [Hc0 Hhex]. apply Forall_cons in Hhex as [Hc1 _].
  pose proof (is_hex_range c1 Hc1).
  cbn [app GetResponse_scan Z.eqb Pos.eqb].
  rewrite GetResponse_scan_done.
  rewrite sscanf_X_digits by (assumption || lia). cbn [app] in Hacc.
  rewrite Hacc. apply scanf_unsigned_small, Hv.
Qed.

(** ** The chunk policy *)

Lemma first_chunk_policy (n StartAddress : Z) :
  0 <= n ->
  chunk_policy n {| Address := StartAddress; Length := 0;
                    Chunk := first_chunk n |}.
Proof.
  intros Hn. unfold chunk_policy, first_chunk. cbn.
  destruct (Z.ltb_spec 3 n); lia.
Qed.

Lemma chunk_policy_width (n : Z) (c : Cursor) :
  chunk_policy n c -> Chunk c = 1 \/ Chunk c = 4.
Proof.
  intros (_ & H4 & H1). destruct (Z.lt_ge_cases (n - Length c) 4); auto.
Qed.

Lemma LoadMemory_advance_policy (n : Z) (c : Cursor) :
  n < 2 ^ 32 -> chunk_policy n c -> Length c < n ->
  Length (LoadMemory_advance n c) = Length c + Chunk c /\
  chunk_policy n (LoadMemory_advance n c).
Proof.
  intros Hn (Hrange & H4 & H1) Hlt. unfold LoadMemory_advance, chunk_policy.
  cbn [Length Chunk].
  assert (Hstep : 0 <= Length c + Chunk c <= n)
    by (destruct (Z.lt_ge_cases (n - Length c) 4); lia).
  rewrite (wrap32_small (Length c + Chunk c)) by lia.
  rewrite (wrap32_small (n - (Length c + Chunk c))) by lia.
  split; [reflexivity|]. split; [exact Hstep|].
  destruct (Z.ltb_spec (n - (Length c + Chunk c)) 4); split; intros; lia.
Qed.

Lemma LoadMemory_store_count (k : nat) :
  forall (V : Z) (m : Memory),
    0 <= MemoryCount m -> MemoryCount m + Z.of_nat k < 2 ^ 32 ->
    MemoryCount (LoadMemory_store k V m) = MemoryCount m + Z.of_nat k.
Proof.
  induction k as [|k IH]; intros V m H0 Hk; cbn [LoadMemory_store].
  - lia.
  - rewrite IH; cbn [MemoryCount]; rewrite wrap32_small; lia.
Qed.

Lemma send_pack_Length (FileBuffer : list Z) (k : nat) :
  forall (i L V : Z),
    0 <= L -> L + Z.of_nat k < 2 ^ 32 ->
    (send_pack FileBuffer k i L V).2 = L + Z.of_nat k.
Proof.
  induction k as [|k IH]; intros i L V H0 Hk; cbn [send_pack].
  - cbn. lia.
  - rewrite IH; rewrite wrap32_small; lia.
Qed.

Section TransferFacts.

Context {T : Type} `{Transport T}.

Lemma send_iter_cursor (n : Z) (FileBuffer : list Z) (c : Cursor) (t : T) :
  n < 2 ^ 32 -> chunk_policy n c -> Length c < n ->
  (send_iter n FileBuffer (c, t)).1 = LoadMemory_advance n c.
Proof.
  intros Hn Hpol Hlt. unfold send_iter.
  pose proof (send_pack_Length FileBuffer (Z.to_nat (Chunk c)) 0 (Length c) 0)
    as HL.
  destruct (send_pack FileBuffer (Z.to_nat (Chunk c)) 0 (Length c) 0)
    as [V L'].
  destruct (GetResponse FileNumberSam9 _) as [r t2].
  cbn [fst snd] in *. unfold LoadMemory_advance.
  pose proof (chunk_policy_width n c Hpol) as Hw.
  destruct Hpol as (Hrange & H4 & H1).
  assert (Hstep : 0 <= Length c + Chunk c <= n)
    by (destruct (Z.lt_ge_cases (n - Length c) 4); lia).
  rewrite HL by lia. rewrite Z2Nat.id by lia.
  rewrite (wrap32_small (Length c + Chunk c)) by lia. reflexivity.
Qed.

Lemma LoadMemory_step_inv (n : Z) (s s' : Cursor * Memory * T) :
  LoadMemory_step n s s' ->
  s'.1.1 = LoadMemory_advance n s.1.1 /\
  exists V, s'.1.2 = LoadMemory_store (Z.to_nat (Chunk s.1.1)) V s.1.2.
Proof.
  destruct s as [[c m] t]. intros [_ Hiter]. unfold LoadMemory_iter in Hiter.
  destruct (LoadMemory_exchange c t) as [r t'].
  destruct (ResponseCount r =? 0); [discriminate|].
  injection Hiter as <-. cbn. eauto.
Qed.

(** C2.  The chunk width in the two transfer loops.  In every state
    that the loop of [LoadMemory] reaches (called as [main] calls it,
    with [Count = ValueBytes] and [MemoryCount = 0]) and in every state
    that the send loop reaches, the width is 4 when four bytes or more
    remain and 1 when fewer remain; a responsive iteration adds exactly
    the width to the accumulated length, and the length never passes the
    count. *)
Theorem chunk_width_invariant (ValueBytes : Z) :
  0 <= ValueBytes < 2 ^ 32 ->
  (forall (m : Memory) (StartAddress : Z) (t : T) (s : Cursor * Memory * T),
     MemoryCount m = 0 ->
     rtc (LoadMemory_step ValueBytes)
       (LoadMemory_start ValueBytes m StartAddress ValueBytes t) s ->
     chunk_policy ValueBytes s.1.1 /\
     MemoryCount s.1.2 = Length s.1.1 /\
     forall s' : Cursor * Memory * T,
       LoadMemory_step ValueBytes s s' ->
       MemoryCount s'.1.2 = MemoryCount s.1.2 + Chunk s.1.1 /\
       MemoryCount s'.1.2 <= ValueBytes) /\
  (forall (FileBuffer : list Z) (ValueAddrStart : Z) (t : T) (s : Cursor * T),
     rtc (send_step ValueBytes FileBuffer)
       (send_start ValueAddrStart ValueBytes t) s ->
     chunk_policy ValueBytes s.1 /\
     forall s' : Cursor * T,
       send_step ValueBytes FileBuffer s s' ->
       Length s'.1 = Length s.1 + Chunk s.1 /\ Length s'.1 <= ValueBytes).
Proof.
  intros Hn.
  assert (Hkeep : forall s s' : Cursor * Memory * T,
            chunk_policy ValueBytes s.1.1 ->
            MemoryCount s.1.2 = Length s.1.1 ->
            LoadMemory_step ValueBytes s s' ->
            chunk_policy ValueBytes s'.1.1 /\
            MemoryCount s'.1.2 = Length s'.1.1 /\
            MemoryCount s'.1.2 = MemoryCount s.1.2 + Chunk s.1.1).
  { intros s s' Hpol Hcount Hstep.
    destruct (LoadMemory_step_inv _ _ _ Hstep) as (Hc & V & Hm).
    destruct Hstep as [Hlt _].
    destruct (LoadMemory_advance_policy ValueBytes s.1.1) as [HL Hpol'];
      [lia | exact Hpol | exact Hlt |].
    pose proof (chunk_policy_width _ _ Hpol) as Hw.
    destruct Hpol as (Hrange & H4 & H1).
    rewrite Hc, Hm, HL. split; [exact Hpol'|].
    rewrite LoadMemory_store_count by lia.
    rewrite Z2Nat.id by lia. lia. }
  split.
  - intros m StartAddress t s Hm Hreach.
    assert (Hinv : chunk_policy ValueBytes s.1.1 /\
                   MemoryCount s.1.2 = Length s.1.1).
    { revert s Hreach. apply rtc_ind_r.
      - split; [apply first_chunk_policy; lia | exact Hm].
      - intros y z _ Hstep [Hpol Hcount].
        destruct (Hkeep y z Hpol Hcount Hstep) as (? & ? & _). split; assumption. }
    destruct Hinv as [Hpol Hcount]. split; [exact Hpol|]. split; [exact Hcount|].
    intros s' Hstep.
    destruct (Hkeep s s' Hpol Hcount Hstep) as ((Hrange & _) & Heq & Hadd).
    split; [exact Hadd | lia].
  - intros FileBuffer ValueAddrStart t s Hreach.
    assert (Hstepc : forall s s' : Cursor * T,
              chunk_policy ValueBytes s.1 ->
              send_step ValueBytes FileBuffer s s' ->
              chunk_policy ValueBytes s'.1 /\
              Length s'.1 = Length s.1 + Chunk s.1).
    { intros [c u] s' Hpol [Hlt <-]. cbn [fst] in *.
      rewrite send_iter_cursor by (lia || assumption).
      destruct (LoadMemory_advance_policy ValueBytes c) as [HL Hpol'];
        [lia | exact Hpol | exact Hlt |]. split; assumption. }
    assert (Hpol : chunk_policy ValueBytes s.1).
    { revert s Hreach. apply rtc_ind_r.
      - apply first_chunk_policy. lia.
      - intros y z _ Hstep IH. apply (Hstepc y z IH Hstep). }
    split; [exact Hpol|]. intros s' Hstep.
    destruct (Hstepc s s' Hpol Hstep) as [(Hrange & _) HL].
    split; [exact HL | lia].
Qed.

End TransferFacts.

Lemma chunk_width_invariant_witness :
  chunk_policy 6
    (send_iter 6 [0x01; 0x02; 0x03; 0x80; 0xfe; 0xff]
       (send_start 0x300000 6 Sim_idle)).1.
Proof.
  apply (proj2 (chunk_width_invariant (T := Sim) 6 ltac:(lia))
           [0x01; 0x02; 0x03; 0x80; 0xfe; 0xff] 0x300000 Sim_idle).
  apply rtc_once. split; [cbn; lia | reflexivity].
Defined.


Section LoopFacts.

Context {T : Type} `{Transport T}.

(** The send loop ends on the fuel that [send] gives it. *)
Lemma send_loop_total (n : Z) (FileBuffer : list Z) (fuel : nat) :
  n < 2 ^ 32 ->
  forall s : Cursor * T,
    chunk_policy n s.1 -> n - Length s.1 <= Z.of_nat fuel ->
    exists s', send_loop fuel n FileBuffer s = Some s' /\ Length s'.1 = n.
Proof.
  intros Hn. induction fuel as [|fuel IH]; intros [c t] Hpol Hfuel;
    cbn [fst] in *; cbn [send_loop fst].
  - destruct (Z.ltb_spec (Length c) n); [lia|].
    eexists. split; [reflexivity|]. destruct Hpol as ((? & ?) & _). cbn. lia.
  - destruct (Z.ltb_spec (Length c) n) as [Hlt|Hge].
    2:{ eexists. split; [reflexivity|]. destruct Hpol as ((? & ?) & _).
        cbn. lia. }
    pose proof (send_iter_cursor n FileBuffer c t Hn Hpol Hlt) as Hc.
    destruct (LoadMemory_advance_policy n c Hn Hpol Hlt) as [HL Hpol'].
    pose proof (chunk_policy_width n c Hpol) as Hw.
    apply IH; rewrite Hc; [exact Hpol' | lia].
Qed.

Lemma send_total (ValueAddrStart ValueBytes : Z) (FileBuffer : list Z) (t : T) :
  0 <= ValueBytes < 2 ^ 32 ->
  exists s', send ValueAddrStart ValueBytes FileBuffer t = Some s' /\
             Length s'.1 = ValueBytes.
Proof.
  intros Hn. unfold send, send_start.
  apply send_loop_total; cbn [fst Length]; [lia | | lia].
  apply first_chunk_policy. lia.
Qed.

(** Counting the polls changes nothing else. *)
Lemma Counted_capture (fd : FileNumber) (room : nat) :
  forall (acc : list Z) (t : Counted T),
    let r := GetResponse_capture fd room acc t in
    GetResponse_capture fd room acc (counted t) = (r.1, counted r.2).
Proof.
  induction room as [|room IH]; intros acc [t k]; cbn [GetResponse_capture];
    unfold FileInputAvailable, FileGetCharacter;
    cbn [sys_select sys_read Counted_transport counted polls].
  - destruct (sys_select fd t) as [avail t1].
    destruct (avail =? 0); reflexivity.
  - destruct (sys_select fd t) as [avail t1].
    destruct (avail =? 0); [reflexivity|].
    cbn [counted polls]. destruct (sys_read fd t1) as [c t2].
    apply (IH _ (Build_Counted t2 (S k))).
Qed.

Lemma Counted_exchange (c : Cursor) (t : Counted T) :
  let r := LoadMemory_exchange c t in
  LoadMemory_exchange c (counted t) = (r.1, counted r.2).
Proof.
  unfold LoadMemory_exchange, GetResponse.
  set (t1 := if Chunk c =? 1 then _ else _).
  set (u1 := if Chunk c =? 1 then _ else _).
  assert (E : t1 = counted u1)
    by (subst t1 u1; destruct (Chunk c =? 1), (Chunk c =? 4); reflexivity).
  cbv zeta. rewrite E.
  pose proof (Counted_capture FileNumberSam9 30 [] u1) as Hc. cbv zeta in Hc.
  rewrite Hc. destruct (GetResponse_capture FileNumberSam9 30 [] u1).
  reflexivity.
Qed.

Lemma Counted_loop (Count : Z) (fuel : nat) :
  forall (c : Cursor) (m : Memory) (t : Counted T),
    LoadMemory_loop fuel Count (c, m, counted t) =
    option_map (fun r => (r.1.1, r.1.2, counted r.2))
      (LoadMemory_loop fuel Count (c, m, t)).
Proof.
  induction fuel as [|fuel IH]; intros c m t; cbn [LoadMemory_loop fst snd].
  - destruct (Length c <? Count); reflexivity.
  - destruct (Length c <? Count); [|reflexivity].
    unfold LoadMemory_iter.
    pose proof (Counted_exchange c t) as Hex. cbv zeta in Hex. rewrite Hex.
    destruct (LoadMemory_exchange c t) as [r t']. cbn [fst snd].
    destruct (ResponseCount r =? 0); [reflexivity|]. apply IH.
Qed.

(** What [LoadMemory] does to a counted transport is what it does to the
    transport under the count. *)
Lemma Counted_LoadMemory (ValueBytes : Z) (m : Memory) (calloc_ok : bool)
    (StartAddress Count : Z) (t : Counted T) :
  LoadMemory ValueBytes m calloc_ok StartAddress Count (counted t) =
  option_map (fun r => (r.1.1, r.1.2, counted r.2))
    (LoadMemory ValueBytes m calloc_ok StartAddress Count t).
Proof.
  unfold LoadMemory, LoadMemory_start. destruct calloc_ok; [|reflexivity].
  rewrite Counted_loop.
  destruct (LoadMemory_loop _ _ _) as [[[ex m'] t']|]; [|reflexivity].
  cbn [option_map fst snd]. destruct ex; [|reflexivity].
  destruct (MemoryCount m' =? Count); reflexivity.
Qed.

End LoopFacts.

(** ** LoadMemory: termination and errors *)

Lemma first_chunk_progress (ValueBytes Count StartAddress : Z) :
  LoadMemory_progress Count
    {| Address := StartAddress; Length := 0; Chunk := first_chunk ValueBytes |}.
Proof.
  unfold LoadMemory_progress, first_chunk. cbn.
  split; [lia|]. intros _. destruct (3 <? ValueBytes); auto.
Qed.

Lemma LoadMemory_advance_progress (Count : Z) (c : Cursor) :
  Count < 2 ^ 32 -> LoadMemory_progress Count c -> Length c < Count ->
  LoadMemory_progress Count (LoadMemory_advance Count c) /\
  Length c < Length (LoadMemory_advance Count c).
Proof.
  intros HC [Hrange Hw] Hlt. specialize (Hw Hlt).
  unfold LoadMemory_advance, LoadMemory_progress. cbn [Length Chunk].
  assert (Hsum : 0 < Chunk c /\ 0 <= Length c + Chunk c < 2 ^ 32)
    by (destruct Hw as [->|[-> [->|?]]]; lia).
  destruct Hsum as [Hpos Hsum].
  rewrite (wrap32_small (Length c + Chunk c)) by exact Hsum.
  split; [|lia]. split; [exact Hsum|]. intros Hlt'.
  rewrite (wrap32_small (Count - (Length c + Chunk c))) by lia.
  destruct (Z.ltb_spec (Count - (Length c + Chunk c)) 4); [auto|].
  destruct Hw as [E|[E _]]; [auto|]. right. split; [exact E|]. lia.
Qed.

Section DownloadFacts.

Context {T : Type} `{Transport T}.

Lemma LoadMemory_iter_cursor (Count : Z) (c : Cursor) (m : Memory) (t : T)
    (s' : Cursor * Memory * T) :
  LoadMemory_iter Count (c, m, t) = inl s' ->
  s'.1.1 = LoadMemory_advance Count c.
Proof.
  unfold LoadMemory_iter. destruct (LoadMemory_exchange c t) as [r t'].
  destruct (ResponseCount r =? 0); [discriminate|]. intros [= <-]. reflexivity.
Qed.

(** The loop ends on the fuel that [LoadMemory] gives it. *)
Lemma LoadMemory_loop_total (Count : Z) (fuel : nat) :
  Count < 2 ^ 32 ->
  forall s : Cursor * Memory * T,
    LoadMemory_progress Count s.1.1 ->
    Count - Length s.1.1 <= Z.of_nat fuel ->
    exists r, LoadMemory_loop fuel Count s = Some r.
Proof.
  intros HC. induction fuel as [|fuel IH]; intros [[c m] t] Hprog Hfuel;
    cbn [fst snd] in *; cbn [LoadMemory_loop fst snd].
  - destruct (Z.ltb_spec (Length c) Count); [lia|]. eauto.
  - destruct (Z.ltb_spec (Length c) Count) as [Hlt|_]; [|eauto].
    destruct (LoadMemory_iter Count (c, m, t)) as [s'|[m' t']] eqn:Hiter;
      [|eauto].
    pose proof (LoadMemory_iter_cursor _ _ _ _ _ Hiter) as Hc.
    destruct (LoadMemory_advance_progress Count c HC Hprog Hlt) as [Hprog' Hup].
    apply IH; rewrite Hc; [exact Hprog' | lia].
Qed.

(** A state that the loop reaches gives the same result. *)
Lemma LoadMemory_loop_reach (Count : Z) (s0 s : Cursor * Memory * T) :
  rtc (LoadMemory_step Count) s0 s ->
  forall fuel r,
    LoadMemory_loop fuel Count s0 = Some r ->
    exists fuel', LoadMemory_loop fuel' Count s = Some r.
Proof.
  induction 1 as [s|s0 s1 s [Hlt Hiter] _ IH]; intros fuel r Hloop; [eauto|].
  destruct fuel as [|fuel]; cbn [LoadMemory_loop] in Hloop;
    destruct (Z.ltb_spec (Length s0.1.1) Count); try lia; [discriminate|].
  rewrite Hiter in Hloop. eapply IH, Hloop.
Qed.

Lemma LoadMemory_loop_unresponsive (Count : Z) (fuel : nat) :
  forall (s0 : Cursor * Memory * T) m' t',
    LoadMemory_loop fuel Count s0 = Some (LoopUnresponsive, m', t') ->
    exists s, rtc (LoadMemory_step Count) s0 s /\ Length s.1.1 < Count /\
              ResponseCount (LoadMemory_exchange s.1.1 s.2).1 = 0.
Proof.
  induction fuel as [|fuel IH]; intros s0 m' t' Hloop;
    cbn [LoadMemory_loop] in Hloop;
    destruct (Z.ltb_spec (Length s0.1.1) Count) as [Hlt|]; try discriminate.
  destruct (LoadMemory_iter Count s0) as [s1|[m1 t1]] eqn:Hiter.
  - destruct (IH s1 m' t' Hloop) as (s & Hreach & Hs).
    exists s. split; [|exact Hs]. eapply rtc_l; [|exact Hreach]. split; assumption.
  - exists s0. split; [apply rtc_refl|]. split; [exact Hlt|].
    destruct s0 as [[c m] t]. unfold LoadMemory_iter in Hiter. cbn [fst snd].
    destruct (LoadMemory_exchange c t) as [r t2]. cbn [fst].
    destruct (Z.eqb_spec (ResponseCount r) 0); [assumption | discriminate].
Qed.

Lemma LoadMemory_step_unresponsive (Count : Z) (s : Cursor * Memory * T)
    (fuel : nat) (r : LoopExit * Memory * T) :
  Length s.1.1 < Count ->
  ResponseCount (LoadMemory_exchange s.1.1 s.2).1 = 0 ->
  LoadMemory_loop fuel Count s = Some r -> r.1.1 = LoopUnresponsive.
Proof.
  intros Hlt Hzero Hloop. destruct fuel as [|fuel]; cbn [LoadMemory_loop] in Hloop;
    destruct (Z.ltb_spec (Length s.1.1) Count); try lia; [discriminate|].
  destruct s as [[c m] t]. unfold LoadMemory_iter in Hloop. cbn [fst snd] in *.
  destruct (LoadMemory_exchange c t) as [resp t2]. cbn [fst] in Hzero.
  rewrite Hzero in Hloop. cbn in Hloop. injection Hloop as <-. reflexivity.
Qed.

End DownloadFacts.

Section PollFacts.

Context {T : Type} `{Transport T}.

Lemma GetResponse_capture_polls (fd : FileNumber) (room : nat) :
  forall (acc : list Z) (t : Counted T),
    (polls (GetResponse_capture fd room acc t).2 <= polls t + S room)%nat.
Proof.
  induction room as [|room IH]; intros acc [t n]; cbn [GetResponse_capture];
    unfold FileInputAvailable, FileGetCharacter;
    cbn [sys_select sys_read Counted_transport counted polls].
  - destruct (sys_select fd t) as [avail t1].
    destruct (avail =? 0); cbn; lia.
  - destruct (sys_select fd t) as [avail t1].
    destruct (avail =? 0); [cbn; lia|].
    cbn [counted polls]. destruct (sys_read fd t1) as [r t2].
    etransitivity; [apply IH|]. cbn. lia.
Qed.

Lemma LoadMemory_exchange_polls (c : Cursor) (t : Counted T) :
  (polls (LoadMemory_exchange c t).2 <= polls t + 31)%nat.
Proof.
  unfold LoadMemory_exchange, GetResponse.
  set (t1 := if Chunk c =? 1 then _ else _).
  assert (Ht1 : polls t1 = polls t)
    by (subst t1; destruct (Chunk c =? 1), (Chunk c =? 4); reflexivity).
  pose proof (GetResponse_capture_polls FileNumberSam9 30 [] t1) as Hp.
  destruct (GetResponse_capture FileNumberSam9 30 [] t1) as [burst t2].
  cbn [fst snd] in *. lia.
Qed.

Lemma LoadMemory_loop_polls (Count : Z) (fuel : nat) :
  Count < 2 ^ 32 ->
  forall (s : Cursor * Memory * Counted T) (r : LoopExit * Memory * Counted T),
    LoadMemory_progress Count s.1.1 ->
    LoadMemory_loop fuel Count s = Some r ->
    (polls r.2 <= polls s.2 + 31 * Z.to_nat (Count - Length s.1.1))%nat.
Proof.
  intros HC. induction fuel as [|fuel IH]; intros [[c m] t] r Hprog Hloop;
    cbn [fst snd] in *; cbn [LoadMemory_loop fst snd] in Hloop;
    destruct (Z.ltb_spec (Length c) Count) as [Hlt|Hge]; try discriminate;
    try (injection Hloop as <-; cbn; lia).
  destruct (LoadMemory_advance_progress Count c HC Hprog Hlt) as [Hprog' Hup].
  pose proof (LoadMemory_exchange_polls c t) as Hex.
  unfold LoadMemory_iter in Hloop.
  destruct (LoadMemory_exchange c t) as [resp t'].
  cbn [snd] in Hex.
  destruct (ResponseCount resp =? 0).
  - injection Hloop as <-. cbn [snd]. lia.
  - apply IH in Hloop; [|exact Hprog']. cbn [fst snd] in Hloop. lia.
Qed.

End PollFacts.

(** C3.  Error handling of [LoadMemory], for every transport.  The
    call returns; it returns [true] only with [MemoryCount = Count]; it
    fails as unresponsive exactly when an exchange that the loop reaches
    captures no byte; it fails with the length diagnostic exactly when
    the loop ran to its end and [MemoryCount] differs from [Count]; and
    it polls the port at most [31 * Count] times. *)
Theorem LoadMemory_error_handling (ValueBytes : Z) (m : Memory)
    (StartAddress Count : Z) :
  0 <= Count < 2 ^ 32 ->
  (forall (T : Type) (H : Transport T) (calloc_ok : bool) (t : T),
     exists (err : option LoadMemoryError) (m' : Memory) (t' : T),
       LoadMemory ValueBytes m calloc_ok StartAddress Count t
         = Some (err, m', t') /\
       (err = None -> MemoryCount m' = Count) /\
       (calloc_ok = true ->
        (err = Some ErrTargetUnresponsive <->
         exists s : Cursor * Memory * T,
           rtc (LoadMemory_step Count)
             (LoadMemory_start ValueBytes m StartAddress Count t) s /\
           Length s.1.1 < Count /\
           ResponseCount (LoadMemory_exchange s.1.1 s.2).1 = 0) /\
        (err = Some ErrLengthMismatch <->
         exists (m1 : Memory) (t1 : T),
           LoadMemory_loop (Z.to_nat Count) Count
             (LoadMemory_start ValueBytes m StartAddress Count t)
             = Some (LoopDone, m1, t1) /\
           MemoryCount m1 <> Count))) /\
  (forall (T : Type) (H : Transport T) (calloc_ok : bool) (t : Counted T),
     exists (err : option LoadMemoryError) (m' : Memory) (t' : Counted T),
       LoadMemory ValueBytes m calloc_ok StartAddress Count t
         = Some (err, m', t') /\
       (polls t' <= polls t + 31 * Z.to_nat Count)%nat).
Proof.
  intros HC.
  assert (Hprog : forall (T : Type) (t : T),
            LoadMemory_progress Count
              (LoadMemory_start ValueBytes m StartAddress Count t).1.1)
    by (intros; apply first_chunk_progress).
  split.
  - intros T H calloc_ok t. unfold LoadMemory.
    destruct calloc_ok.
    2:{ do 3 eexists. split; [reflexivity|].
        split; [discriminate|]. intros [=]. }
    set (s0 := LoadMemory_start ValueBytes m StartAddress Count t).
    destruct (LoadMemory_loop_total Count (Z.to_nat Count) (proj2 HC) s0
                (Hprog T t)) as [[[ex m'] t'] Hloop];
      [subst s0; cbn; lia|].
    rewrite Hloop. destruct ex.
    + destruct (Z.eqb_spec (MemoryCount m') Count) as [Heq|Hne].
      * do 3 eexists. split; [reflexivity|]. split; [intros _; exact Heq|].
        intros _. split; (split; [discriminate|]).
        -- intros (s & Hreach & Hlt & Hzero).
           destruct (LoadMemory_loop_reach _ _ _ Hreach _ _ Hloop)
             as [fuel' Hloop'].
           pose proof (LoadMemory_step_unresponsive _ _ _ _ Hlt Hzero Hloop').
           discriminate.
        -- intros (m1 & t1 & [= <- _] & Hne). contradiction.
      * do 3 eexists. split; [reflexivity|]. split; [discriminate|].
        intros _. split; split; try discriminate.
        -- intros (s & Hreach & Hlt & Hzero).
           destruct (LoadMemory_loop_reach _ _ _ Hreach _ _ Hloop)
             as [fuel' Hloop'].
           pose proof (LoadMemory_step_unresponsive _ _ _ _ Hlt Hzero Hloop').
           discriminate.
        -- intros _. exists m', t'. split; [reflexivity | exact Hne].
        -- reflexivity.
    + do 3 eexists. split; [reflexivity|]. split; [discriminate|].
      intros _. split; split; try discriminate.
      * intros _. eapply LoadMemory_loop_unresponsive, Hloop.
      * reflexivity.
      * intros (m1 & t1 & [=] & _).
  - intros T H calloc_ok t. unfold LoadMemory.
    destruct calloc_ok; [|do 3 eexists; split; [reflexivity | cbn; lia]].
    set (s0 := LoadMemory_start ValueBytes m StartAddress Count t).
    destruct (LoadMemory_loop_total Count (Z.to_nat Count) (proj2 HC) s0
                (Hprog _ t)) as [[[ex m'] t'] Hloop];
      [subst s0; cbn; lia|].
    pose proof (LoadMemory_loop_polls Count _ (proj2 HC) s0 _ (Hprog _ t) Hloop)
      as Hpolls.
    subst s0. cbn [fst snd LoadMemory_start Length] in Hpolls.
    rewrite Z.sub_0_r in Hpolls.
    rewrite Hloop. destruct ex; [destruct (MemoryCount m' =? Count)|];
      do 3 eexists; (split; [reflexivity | exact Hpolls]).
Qed.

Lemma LoadMemory_error_handling_witness :
  exists (err : option LoadMemoryError) (m' : Memory) (t' : Counted Dead),
    LoadMemory 6 {| MemoryCount := 0; MemoryBuffer := [] |} true 0x300000 6
      (Build_Counted dead 0) = Some (err, m', t') /\
    (polls t' <= 0 + 31 * Z.to_nat 6)%nat.
Proof.
  apply (proj2 (LoadMemory_error_handling 6
                  {| MemoryCount := 0; MemoryBuffer := [] |} 0x300000 6
                  ltac:(lia)) Dead Dead_transport true (Build_Counted dead 0)).
Defined.

(** ** Packing and unpacking *)

Lemma lor_shiftl_add (V b k : Z) :
  0 <= k -> 0 <= V < 2 ^ k -> Z.lor V (Z.shiftl b k) = V + Z.shiftl b k.
Proof.
  intros Hk HV. rewrite <- Z.add_lor_land.
  assert (Hland : Z.land V (Z.shiftl b k) = 0); [|lia].
  apply Z.bits_inj'. intros i Hi. rewrite Z.land_spec, Z.bits_0.
  destruct (Z.lt_ge_cases i k) as [Hlt|Hge].
  - rewrite Z.shiftl_spec_low by exact Hlt. apply andb_false_r.
  - rewrite <- (Z.mod_small V (2 ^ k)) by exact HV.
    rewrite Z.mod_pow2_bits_high by lia. reflexivity.
Qed.

Lemma word_of_range (b0 b1 b2 b3 : Z) :
  is_byte b0 -> is_byte b1 -> is_byte b2 -> is_byte b3 ->
  0 <= word_of b0 b1 b2 b3 < 2 ^ 32.
Proof. unfold is_byte, word_of. lia. Qed.

Lemma pack_word (b0 b1 b2 b3 : Z) :
  is_byte b0 -> is_byte b1 -> is_byte b2 -> is_byte b3 ->
  Z.lor (Z.lor (Z.lor (Z.lor 0 (wrap32 (Z.shiftl b0 (0 * 8))))
                  (wrap32 (Z.shiftl b1 ((0 + 1) * 8))))
           (wrap32 (Z.shiftl b2 ((0 + 1 + 1) * 8))))
    (wrap32 (Z.shiftl b3 ((0 + 1 + 1 + 1) * 8)))
  = word_of b0 b1 b2 b3.
Proof.
  unfold is_byte, word_of. intros H0 H1 H2 H3.
  change (0 * 8) with 0. change ((0 + 1) * 8) with 8.
  change ((0 + 1 + 1) * 8) with 16. change ((0 + 1 + 1 + 1) * 8) with 24.
  rewrite Z.shiftl_0_r, Z.lor_0_l.
  assert (E1 : Z.shiftl b1 8 = b1 * 256) by (rewrite Z.shiftl_mul_pow2; lia).
  assert (E2 : Z.shiftl b2 16 = b2 * 65536) by (rewrite Z.shiftl_mul_pow2; lia).
  assert (E3 : Z.shiftl b3 24 = b3 * 16777216)
    by (rewrite Z.shiftl_mul_pow2; lia).
  rewrite (wrap32_small b0) by lia.
  rewrite (wrap32_small (Z.shiftl b1 8)) by lia.
  rewrite (wrap32_small (Z.shiftl b2 16)) by lia.
  rewrite (wrap32_small (Z.shiftl b3 24)) by lia.
  rewrite (lor_shiftl_add b0 b1 8) by lia. rewrite E1.
  rewrite (lor_shiftl_add _ b2 16) by lia. rewrite E2.
  rewrite (lor_shiftl_add _ b3 24) by lia. rewrite E3. lia.
Qed.

Lemma pack_byte (b0 : Z) :
  is_byte b0 -> Z.lor 0 (wrap32 (Z.shiftl b0 (0 * 8))) = b0.
Proof.
  unfold is_byte. intros H0. change (0 * 8) with 0.
  rewrite Z.shiftl_0_r, Z.lor_0_l. apply wrap32_small. lia.
Qed.

Lemma unpack_low (b rest : Z) :
  is_byte b -> Z.land (b + 256 * rest) 255 = b.
Proof.
  unfold is_byte. intros Hb. change 255 with (Z.ones 8).
  rewrite Z.land_ones by lia. change (2 ^ 8) with 256.
  replace (b + 256 * rest) with (b + rest * 256) by lia.
  rewrite Z.mod_add by lia. apply Z.mod_small, Hb.
Qed.

Lemma unpack_high (b rest : Z) :
  is_byte b -> Z.shiftr (b + 256 * rest) 8 = rest.
Proof.
  unfold is_byte. intros Hb. rewrite Z.shiftr_div_pow2 by lia.
  change (2 ^ 8) with 256.
  replace (b + 256 * rest) with (b + rest * 256) by lia.
  rewrite Z.div_add by lia. rewrite Z.div_small by exact Hb. lia.
Qed.

(** ** The zeroed block as it fills *)

Lemma block_store (bytes : list Z) (L r : nat) (b : Z) :
  bytes !! L = Some b ->
  <[L := b]> (take L bytes ++ replicate (S r) 0) =
  take (S L) bytes ++ replicate r 0.
Proof.
  intros Hb. pose proof (lookup_lt_Some _ _ _ Hb) as HL.
  rewrite insert_app_r_alt by (rewrite length_take; lia).
  rewrite length_take, Nat.min_l, Nat.sub_diag by lia.
  rewrite (take_S_r _ _ _ Hb), <- app_assoc. reflexivity.
Qed.

(** ** Exchanges with the simulated target *)

Lemma map_wrap8_bytes (l : list Z) : Forall is_byte l -> map wrap8 l = l.
Proof.
  induction 1 as [|b l Hb _ IH]; [reflexivity|].
  cbn. rewrite IH. f_equal. unfold wrap8. apply Z.mod_small. exact Hb.
Qed.

Lemma Sim_GetResponse_all (s : Sim) :
  (length (to_host s) <= 30)%nat -> Forall is_byte (to_host s) ->
  GetResponse FileNumberSam9 s =
    ({| Value := GetResponse_scan 0 0 (to_host s);
        ResponseCount := Z.of_nat (length (to_host s));
        Captured := to_host s |},
     Sim_set_to_host [] s).
Proof.
  intros Hlen Hbytes. unfold GetResponse. rewrite Sim_capture.
  rewrite take_ge, drop_ge by exact Hlen. cbn [app].
  rewrite map_wrap8_bytes by exact Hbytes. reflexivity.
Qed.

Lemma is_hex_byte (c : Z) : is_hex c = true -> is_byte c.
Proof. intros Hc. apply is_hex_range in Hc. unfold is_byte. lia. Qed.

Lemma Sim_read_reply (p : nat) (v : Z) :
  (2 <= p <= 8)%nat -> 0 <= v < 2 ^ 32 ->
  let reply := [0x30; 0x78] ++ printf_X true p v ++ prompt in
  (length reply <= 30)%nat /\ (0 < length reply)%nat /\
  Forall is_byte reply /\ GetResponse_scan 0 0 reply = v.
Proof.
  intros Hp Hv reply. subst reply.
  pose proof (printf_X_length true p v) as Hlen.
  split; [|split; [|split]].
  - rewrite !length_app. cbn [length prompt]. lia.
  - rewrite !length_app. cbn [length prompt]. lia.
  - apply Forall_app_2; [repeat constructor; unfold is_byte; lia|].
    apply Forall_app_2; [|repeat constructor; unfold is_byte; lia].
    eapply Forall_impl; [apply printf_X_is_hex; lia|]. apply is_hex_byte.
  - apply GetResponse_scan_reply; lia.
Qed.

(** A read of width 1 or 4 brings back the value stored at the
    address. *)
Lemma Sim_LoadMemory_exchange (c : Cursor) (s : Sim) (v : Z) :
  Chunk c = 1 \/ Chunk c = 4 ->
  to_host s = [] -> mute s = [] ->
  regs s !! Address c = Some v -> 0 <= v < 2 ^ 32 ->
  exists (r : Response) (s' : Sim),
    LoadMemory_exchange c s = (r, s') /\
    Value r = v /\ ResponseCount r <> 0 /\
    to_host s' = [] /\ mute s' = [] /\ regs s' = regs s.
Proof.
  intros Hw Hidle Hmute Hreg Hv. unfold LoadMemory_exchange.
  set (p := if Chunk c =? 1 then 2%nat else 8%nat).
  destruct (Sim_read_reply p v) as (Hlen & Hpos & Hbytes & Hscan);
    [subst p; destruct (Chunk c =? 1); lia | exact Hv|].
  set (s1 := if Chunk c =? 1 then _ else _).
  assert (Hs1 : to_host s1 = [0x30; 0x78] ++ printf_X true p v ++ prompt /\
                mute s1 = [] /\ regs s1 = regs s).
  { subst s1 p. destruct Hw as [E|E]; rewrite E; cbn [Z.eqb Pos.eqb];
      cbn [fprintf Sim_transport Sim_fprintf to_host mute regs Sim_reply
           Sim_store]; rewrite Hidle, Hmute;
      rewrite bool_decide_eq_false_2 by apply not_elem_of_nil;
      rewrite Hreg; auto. }
  destruct Hs1 as (Hto & Hmute1 & Hregs1).
  rewrite Sim_GetResponse_all by (rewrite Hto; assumption).
  do 2 eexists. split; [reflexivity|]. cbn [Value ResponseCount].
  rewrite Hto. split; [exact Hscan|]. split; [lia|].
  cbn [Sim_set_to_host to_host mute regs]. auto.
Qed.

(** A write of width 1 or 4 stores the value under the address. *)
Lemma Sim_send_iter (n : Z) (FileBuffer : list Z) (c : Cursor) (s : Sim) :
  n < 2 ^ 32 -> chunk_policy n c -> Length c < n -> to_host s = [] ->
  exists s' : Sim,
    send_iter n FileBuffer (c, s) = (LoadMemory_advance n c, s') /\
    to_host s' = [] /\ mute s' = mute s /\
    regs s' = <[Address c := chunk_value FileBuffer c]> (regs s).
Proof.
  intros Hn Hpol Hlt Hidle.
  pose proof (send_iter_cursor n FileBuffer c s Hn Hpol Hlt) as Hc.
  pose proof (chunk_policy_width n c Hpol) as Hw.
  destruct (send_iter n FileBuffer (c, s)) as [c' s'] eqn:Hiter.
  cbn [fst] in Hc. subst c'. exists s'. split; [reflexivity|].
  unfold send_iter, chunk_value in *.
  destruct (send_pack FileBuffer (Z.to_nat (Chunk c)) 0 (Length c) 0)
    as [V L'].
  set (s1 := if Chunk c =? 1 then _ else _) in Hiter.
  assert (Hs1 : to_host s1 = prompt /\ mute s1 = mute s /\
                regs s1 = <[Address c := V]> (regs s)).
  { subst s1. destruct Hw as [E|E]; rewrite E; cbn [Z.eqb Pos.eqb];
      cbn [fprintf Sim_transport Sim_fprintf to_host mute regs Sim_reply
           Sim_store]; rewrite Hidle; auto. }
  destruct Hs1 as (Hto & Hmute1 & Hregs1).
  rewrite Sim_GetResponse_all in Hiter
    by (rewrite Hto;
        first [cbn; lia | repeat constructor; unfold is_byte; lia]).
  apply (f_equal snd) in Hiter. cbn [snd] in Hiter. subst s'.
  cbn [Sim_set_to_host to_host mute regs fst]. auto.
Qed.

(** ** Upload, then download *)

Section RoundTrip.

Variable bytes : list Z.
Local Abbreviation n := (Z.of_nat (length bytes)).
Hypothesis bytes_fit : n < 2 ^ 32.
Hypothesis bytes_are_bytes : Forall is_byte bytes.

Lemma bytes_lookup (i : nat) :
  (i < length bytes)%nat ->
  exists b, bytes !! i = Some b /\ byte_at bytes (Z.of_nat i) = b /\ is_byte b.
Proof.
  intros Hi. destruct (lookup_lt_is_Some_2 bytes i Hi) as [b Hb].
  exists b. split; [exact Hb|]. split.
  - unfold byte_at. rewrite Nat2Z.id, Hb. reflexivity.
  - exact (Forall_lookup_1 _ _ _ _ bytes_are_bytes Hb).
Qed.

(** The value sent for a chunk, and the block after the same value came
    back and was stored. *)
Lemma chunk_round_trip (c : Cursor) (m : Memory) :
  chunk_policy n c -> Length c < n ->
  MemoryCount m = Length c ->
  MemoryBuffer m =
    take (Z.to_nat (Length c)) bytes ++
    replicate (Z.to_nat (n - Length c)) 0 ->
  let m' := LoadMemory_store (Z.to_nat (Chunk c)) (chunk_value bytes c) m in
  0 <= chunk_value bytes c < 2 ^ 32 /\
  MemoryCount m' = Length c + Chunk c /\
  MemoryBuffer m' =
    take (Z.to_nat (Length c + Chunk c)) bytes ++
    replicate (Z.to_nat (n - (Length c + Chunk c))) 0.
Proof.
  intros Hpol Hlt Hcount Hbuf m'. subst m'.
  destruct Hpol as ((H0 & Hle) & H4 & H1).
  destruct m as [MC buf]. cbn [MemoryCount MemoryBuffer] in *. subst MC.
  unfold chunk_value.
  assert (HL : exists L : nat, Length c = Z.of_nat L)
    by (exists (Z.to_nat (Length c)); lia).
  destruct HL as [L HL]. rewrite HL in *. rewrite Nat2Z.id in *.
  destruct (Z.lt_ge_cases (n - Z.of_nat L) 4) as [Hshort|Hlong].
  - rewrite (H1 Hshort). change (Z.to_nat 1) with 1%nat.
    destruct (bytes_lookup L) as (b0 & Hb0 & Ht0 & Hy0); [lia|].
    cbn [send_pack LoadMemory_store fst MemoryCount MemoryBuffer].
    rewrite Ht0, (pack_byte b0 Hy0), Nat2Z.id.
    split; [unfold is_byte in Hy0; lia|].
    split; [apply wrap32_small; lia|].
    replace (Z.land b0 255) with b0
      by (rewrite <- (unpack_low b0 0 Hy0) at 1; f_equal; lia).
    rewrite Hbuf.
    replace (Z.to_nat (n - Z.of_nat L))
      with (S (Z.to_nat (n - (Z.of_nat L + 1)))) by lia.
    rewrite (block_store bytes L _ b0 Hb0). f_equal. f_equal. lia.
  - rewrite (H4 Hlong). change (Z.to_nat 4) with 4%nat.
    destruct (bytes_lookup L) as (b0 & Hb0 & Ht0 & Hy0); [lia|].
    destruct (bytes_lookup (S L)) as (b1 & Hb1 & Ht1 & Hy1); [lia|].
    destruct (bytes_lookup (S (S L))) as (b2 & Hb2 & Ht2 & Hy2);
      [lia|].
    destruct (bytes_lookup (S (S (S L)))) as (b3 & Hb3 & Ht3 & Hy3);
      [lia|].
    assert (E1 : wrap32 (Z.of_nat L + 1) = Z.of_nat (S L))
      by (rewrite wrap32_small; lia).
    assert (E2 : wrap32 (Z.of_nat (S L) + 1) = Z.of_nat (S (S L)))
      by (rewrite wrap32_small; lia).
    assert (E3 : wrap32 (Z.of_nat (S (S L)) + 1) = Z.of_nat (S (S (S L))))
      by (rewrite wrap32_small; lia).
    assert (E4 : wrap32 (Z.of_nat (S (S (S L))) + 1) = Z.of_nat L + 4)
      by (rewrite wrap32_small; lia).
    cbn [send_pack fst]. rewrite E1, E2, E3.
    rewrite Ht0, Ht1, Ht2, Ht3.
    rewrite (pack_word b0 b1 b2 b3) by assumption.
    split; [apply word_of_range; assumption|].
    cbn [LoadMemory_store MemoryCount MemoryBuffer].
    rewrite E1, E2, E3, E4, !Nat2Z.id.
    split; [reflexivity|].
    replace (word_of b0 b1 b2 b3)
      with (b0 + 256 * (b1 + 256 * (b2 + 256 * (b3 + 256 * 0))))
      by (unfold word_of; lia).
    rewrite (unpack_low b0), (unpack_high b0) by assumption.
    rewrite (unpack_low b1), (unpack_high b1) by assumption.
    rewrite (unpack_low b2), (unpack_high b2) by assumption.
    rewrite (unpack_low b3) by assumption.
    rewrite Hbuf.
    replace (Z.to_nat (n - Z.of_nat L))
      with (S (S (S (S (Z.to_nat (n - (Z.of_nat L + 4))))))) by lia.
    rewrite (block_store bytes L _ b0 Hb0).
    rewrite (block_store bytes (S L) _ b1 Hb1).
    rewrite (block_store bytes (S (S L)) _ b2 Hb2).
    rewrite (block_store bytes (S (S (S L))) _ b3 Hb3).
    f_equal. f_equal. lia.
Qed.

End RoundTrip.

(** ** The cursors of a transfer *)

Lemma wrap32_offsets_differ (start a b : Z) :
  0 < b - a < 2 ^ 32 -> wrap32 (start + a) <> wrap32 (start + b).
Proof.
  unfold wrap32. intros Hab E.
  pose proof (Z.div_mod (start + a) (2 ^ 32) ltac:(lia)) as Ha.
  pose proof (Z.div_mod (start + b) (2 ^ 32) ltac:(lia)) as Hb.
  rewrite E in Ha.
  assert (Hq : b - a =
               2 ^ 32 * ((start + b) / 2 ^ 32 - (start + a) / 2 ^ 32)) by lia.
  nia.
Qed.

Lemma LoadMemory_advance_Address (start n : Z) (c : Cursor) :
  n < 2 ^ 32 -> chunk_policy n c -> Length c < n ->
  Address c = wrap32 (start + Length c) ->
  Address (LoadMemory_advance n c) =
    wrap32 (start + Length (LoadMemory_advance n c)).
Proof.
  intros Hn Hpol Hlt Ha.
  destruct (LoadMemory_advance_policy n c Hn Hpol Hlt) as [HL _].
  rewrite HL. unfold LoadMemory_advance. cbn [Address]. rewrite Ha.
  unfold wrap32. rewrite Z.add_mod_idemp_l by lia. f_equal. lia.
Qed.

Lemma chunks_track (start n : Z) (fuel : nat) :
  n < 2 ^ 32 ->
  forall c x : Cursor,
    chunk_policy n c -> Address c = wrap32 (start + Length c) ->
    x ∈ chunks fuel n c ->
    Length c <= Length x < n /\ Address x = wrap32 (start + Length x).
Proof.
  intros Hn. induction fuel as [|fuel IH]; intros c x Hpol Ha Hx;
    cbn [chunks] in Hx; [inversion Hx|].
  destruct (Z.ltb_spec (Length c) n) as [Hlt|]; [|inversion Hx].
  apply elem_of_cons in Hx as [->|Hx]; [split; [lia | exact Ha]|].
  destruct (LoadMemory_advance_policy n c Hn Hpol Hlt) as [HL Hpol'].
  pose proof (chunk_policy_width n c Hpol) as Hw.
  destruct (IH _ x Hpol' (LoadMemory_advance_Address start n c Hn Hpol Hlt Ha)
              Hx) as [Hrange Hax].
  split; [lia | exact Hax].
Qed.

Section RoundTripLoops.

Variable bytes : list Z.
Variable start : Z.
Local Abbreviation n := (Z.of_nat (length bytes)).
Hypothesis bytes_fit : n < 2 ^ 32.
Hypothesis bytes_are_bytes : Forall is_byte bytes.

(** After the send loop the target holds the value of every chunk under
    the address of the chunk. *)
Lemma Sim_send_loop (fuel : nat) :
  forall (c : Cursor) (s : Sim),
    chunk_policy n c -> Address c = wrap32 (start + Length c) ->
    n - Length c <= Z.of_nat fuel -> to_host s = [] ->
    exists (c' : Cursor) (s' : Sim),
      send_loop fuel n bytes (c, s) = Some (c', s') /\
      to_host s' = [] /\ mute s' = mute s /\
      (forall x, x ∈ chunks fuel n c ->
         regs s' !! Address x = Some (chunk_value bytes x)) /\
      (forall a, (forall x, x ∈ chunks fuel n c -> Address x <> a) ->
         regs s' !! a = regs s !! a).
Proof.
  induction fuel as [|fuel IH]; intros c s Hpol Ha Hfuel Hidle;
    cbn [send_loop chunks fst].
  - destruct (Z.ltb_spec (Length c) n); [lia|].
    exists c, s. repeat split; auto. intros x Hx. inversion Hx.
  - destruct (Z.ltb_spec (Length c) n) as [Hlt|Hge].
    2:{ exists c, s. repeat split; auto. intros x Hx. inversion Hx. }
    destruct (Sim_send_iter n bytes c s bytes_fit Hpol Hlt Hidle)
      as (s1 & Hiter & Hidle1 & Hmute1 & Hregs1).
    destruct (LoadMemory_advance_policy n c bytes_fit Hpol Hlt) as [HL Hpol'].
    pose proof (LoadMemory_advance_Address start n c bytes_fit Hpol Hlt Ha)
      as Ha'.
    pose proof (chunk_policy_width n c Hpol) as Hw.
    destruct (IH (LoadMemory_advance n c) s1 Hpol' Ha' ltac:(lia) Hidle1)
      as (c' & s' & Hloop & Hidle' & Hmute' & Hin & Hout).
    assert (Hfresh : forall x, x ∈ chunks fuel n (LoadMemory_advance n c) ->
                               Address x <> Address c).
    { intros x Hx.
      destruct (chunks_track start n fuel bytes_fit _ x Hpol' Ha' Hx)
        as [Hrange Hax].
      rewrite Hax, Ha. apply not_eq_sym, wrap32_offsets_differ.
      destruct Hpol as ((? & ?) & _). lia. }
    exists c', s'. rewrite Hiter. split; [exact Hloop|].
    split; [exact Hidle'|]. split; [congruence|]. split.
    + intros x Hx. apply elem_of_cons in Hx as [->|Hx]; [|apply Hin, Hx].
      rewrite (Hout _ Hfresh), Hregs1. apply lookup_insert_eq.
    + intros a Hfar. rewrite Hout, Hregs1.
      * apply lookup_insert_ne. apply Hfar. left.
      * intros x Hx. apply Hfar. right. exact Hx.
Qed.

(** Reading the same chunks back fills the block with [bytes]. *)
Lemma Sim_LoadMemory_loop (fuel : nat) :
  forall (c : Cursor) (m : Memory) (s : Sim),
    chunk_policy n c -> n - Length c <= Z.of_nat fuel ->
    to_host s = [] -> mute s = [] ->
    (forall x, x ∈ chunks fuel n c ->
       regs s !! Address x = Some (chunk_value bytes x)) ->
    MemoryCount m = Length c ->
    MemoryBuffer m =
      take (Z.to_nat (Length c)) bytes ++
      replicate (Z.to_nat (n - Length c)) 0 ->
    exists s' : Sim,
      LoadMemory_loop fuel n (c, m, s) =
        Some (LoopDone, {| MemoryCount := n; MemoryBuffer := bytes |}, s').
Proof.
  induction fuel as [|fuel IH]; intros c m s Hpol Hfuel Hidle Hmute Hregs
    Hcount Hbuf; cbn [LoadMemory_loop fst snd].
  - destruct (Z.ltb_spec (Length c) n); [lia|].
    assert (Length c = n) as E by (destruct Hpol as ((? & ?) & _); lia).
    exists s. do 3 f_equal. destruct m as [MC buf]. cbn in *. subst MC.
    rewrite E in *. rewrite Z.sub_diag in Hbuf. cbn in Hbuf.
    rewrite app_nil_r, take_ge in Hbuf by lia. subst buf.
    reflexivity.
  - destruct (Z.ltb_spec (Length c) n) as [Hlt|Hge].
    2:{ assert (Length c = n) as E by (destruct Hpol as ((? & ?) & _); lia).
        exists s. do 3 f_equal. destruct m as [MC buf]. cbn in *. subst MC.
        rewrite E in *. rewrite Z.sub_diag in Hbuf. cbn in Hbuf.
        rewrite app_nil_r, take_ge in Hbuf by lia. subst buf.
        reflexivity. }
    destruct (chunk_round_trip bytes bytes_fit bytes_are_bytes c m Hpol Hlt
                Hcount Hbuf) as (Hv & Hcount' & Hbuf').
    assert (Hhere : regs s !! Address c = Some (chunk_value bytes c)).
    { apply Hregs. cbn [chunks]. destruct (Z.ltb_spec (Length c) n); [|lia].
      left. }
    destruct (Sim_LoadMemory_exchange c s _ (chunk_policy_width n c Hpol)
                Hidle Hmute Hhere Hv)
      as (r & s1 & Hex & Hval & Hresp & Hidle1 & Hmute1 & Hregs1).
    unfold LoadMemory_iter. rewrite Hex.
    destruct (Z.eqb_spec (ResponseCount r) 0) as [|_]; [contradiction|].
    rewrite Hval.
    destruct (LoadMemory_advance_policy n c bytes_fit Hpol Hlt) as [HL Hpol'].
    pose proof (chunk_policy_width n c Hpol) as Hw.
    apply IH; try assumption.
    + lia.
    + intros x Hx. rewrite Hregs1. apply Hregs. cbn [chunks].
      destruct (Z.ltb_spec (Length c) n); [|lia]. right. exact Hx.
    + rewrite HL. exact Hcount'.
    + rewrite HL. exact Hbuf'.
Qed.

End RoundTripLoops.

(** C1.  Round trip over the simulated target: for every byte sequence
    and start address, the send loop followed by [LoadMemory] over the
    same range returns [true] with [MemoryBuffer] equal to the bytes
    sent.  The packing of the send loop (first byte lowest) and the
    unpacking of [LoadMemory] (lowest byte first) undo each other for
    the widths 4 and 1, whatever the count. *)
Theorem upload_download_round_trip (bytes : list Z) (start : Z) (s0 : Sim) :
  Forall is_byte bytes -> is_bit32 start ->
  Z.of_nat (length bytes) < 2 ^ 32 ->
  to_host s0 = [] -> mute s0 = [] ->
  let n := Z.of_nat (length bytes) in
  exists (c : Cursor) (s1 s2 : Sim),
    send start n bytes s0 = Some (c, s1) /\
    LoadMemory n {| MemoryCount := 0; MemoryBuffer := [] |} true start n s1 =
      Some (None, {| MemoryCount := n; MemoryBuffer := bytes |}, s2).
Proof.
  intros Hbytes Hstart Hfit Hidle Hmute n.
  assert (Hpol0 : forall t : Z, chunk_policy n
            {| Address := t; Length := 0; Chunk := first_chunk n |})
    by (intros; apply first_chunk_policy; lia).
  assert (Ha0 : start = wrap32 (start + 0))
    by (rewrite Z.add_0_r, wrap32_small; [reflexivity | exact Hstart]).
  destruct (Sim_send_loop bytes start Hfit (Z.to_nat n)
              {| Address := start; Length := 0; Chunk := first_chunk n |} s0
              (Hpol0 start) Ha0 ltac:(cbn; lia) Hidle)
    as (c & s1 & Hsend & Hidle1 & Hmute1 & Hin & _).
  destruct (Sim_LoadMemory_loop bytes Hfit Hbytes (Z.to_nat n)
              {| Address := start; Length := 0; Chunk := first_chunk n |}
              {| MemoryCount := 0;
                 MemoryBuffer := replicate (Z.to_nat n) 0 |} s1
              (Hpol0 start) ltac:(cbn; lia) Hidle1 ltac:(congruence) Hin
              eq_refl)
    as (s2 & Hload).
  { cbn [Length]. rewrite Z.sub_0_r. reflexivity. }
  exists c, s1, s2. split; [exact Hsend|].
  unfold LoadMemory, LoadMemory_start. cbn [MemoryCount].
  subst n. rewrite Hload. cbn [MemoryCount]. rewrite Z.eqb_refl. reflexivity.
Qed.

Lemma upload_download_round_trip_witness :
  exists (c : Cursor) (s1 s2 : Sim),
    send 0x300000 6 [0x01; 0x02; 0x03; 0x80; 0xfe; 0xff] Sim_idle
      = Some (c, s1) /\
    LoadMemory 6 {| MemoryCount := 0; MemoryBuffer := [] |} true 0x300000 6 s1
      = Some (None,
              {| MemoryCount := 6;
                 MemoryBuffer := [0x01; 0x02; 0x03; 0x80; 0xfe; 0xff] |}, s2).
Proof.
  apply (upload_download_round_trip [0x01; 0x02; 0x03; 0x80; 0xfe; 0xff]
           0x300000 Sim_idle).
  - repeat constructor; unfold is_byte; lia.
  - unfold is_bit32. lia.
  - cbn. lia.
  - reflexivity.
  - reflexivity.
Defined.

(** ** The two buffers that [main] verifies *)

Lemma LoadFile_length (file : option (list Z)) (calloc_ok : bool)
    (ValueBytes : Z) (FileBuffer buffer : list Z) (n : Z) :
  LoadFile file calloc_ok ValueBytes FileBuffer = (None, n, buffer) ->
  Z.of_nat (length buffer) = n /\
  buffer = take (Z.to_nat n) (default [] file).
Proof.
  unfold LoadFile. destruct file as [content|]; [|discriminate].
  destruct (wrap32 (Z.of_nat (length content)) =? 0); [discriminate|].
  destruct calloc_ok; [|discriminate].
  set (n' := if ValueBytes =? 0 then _ else _).
  destruct (Z.eqb_spec (Z.of_nat (length (take (Z.to_nat n') content))) n')
    as [E|_]; [|discriminate].
  intros [= <- <-]. cbn [default].
  replace (Z.to_nat n' - length (take (Z.to_nat n') content))%nat with 0%nat
    by lia.
  cbn [replicate]. rewrite app_nil_r. split; [exact E | reflexivity].
Qed.

Lemma LoadMemory_store_length (k : nat) :
  forall (V : Z) (m : Memory),
    length (MemoryBuffer (LoadMemory_store k V m)) = length (MemoryBuffer m).
Proof.
  induction k as [|k IH]; intros V m; cbn [LoadMemory_store]; [reflexivity|].
  rewrite IH. cbn [MemoryBuffer]. apply length_insert.
Qed.

Section BufferFacts.

Context {T : Type} `{Transport T}.

Lemma LoadMemory_loop_length (Count : Z) (fuel : nat) :
  forall (s : Cursor * Memory * T) (r : LoopExit * Memory * T),
    LoadMemory_loop fuel Count s = Some r ->
    length (MemoryBuffer r.1.2) = length (MemoryBuffer s.1.2).
Proof.
  induction fuel as [|fuel IH]; intros [[c m] t] r Hloop;
    cbn [LoadMemory_loop fst snd] in Hloop;
    destruct (Length c <? Count); try discriminate;
    try (injection Hloop as <-; reflexivity).
  unfold LoadMemory_iter in Hloop.
  destruct (LoadMemory_exchange c t) as [resp t'].
  destruct (ResponseCount resp =? 0).
  - injection Hloop as <-. reflexivity.
  - apply IH in Hloop. cbn [fst snd] in *.
    rewrite Hloop. apply LoadMemory_store_length.
Qed.

(** When [LoadMemory] returns [true] the block holds exactly [Count]
    bytes and all of them were received. *)
Lemma LoadMemory_length (ValueBytes : Z) (m m' : Memory) (calloc_ok : bool)
    (StartAddress Count : Z) (t t' : T) :
  LoadMemory ValueBytes m calloc_ok StartAddress Count t
    = Some (None, m', t') ->
  MemoryCount m' = Count /\ length (MemoryBuffer m') = Z.to_nat Count.
Proof.
  unfold LoadMemory. destruct calloc_ok; [|discriminate].
  destruct (LoadMemory_loop _ _ _) as [[[ex m1] t1]|] eqn:Hloop;
    [|discriminate].
  apply LoadMemory_loop_length in Hloop. cbn [fst snd LoadMemory_start] in Hloop.
  cbn [MemoryBuffer] in Hloop. rewrite length_replicate in Hloop.
  destruct ex; [|discriminate].
  destruct (Z.eqb_spec (MemoryCount m1) Count) as [E|]; [|discriminate].
  intros [= <- _]. split; assumption.
Qed.

End BufferFacts.

(** ** The image that a download leaves *)

Lemma LoadMemory_store_bytes (k : nat) :
  forall (V : Z) (m : Memory),
    Forall is_byte (MemoryBuffer m) ->
    Forall is_byte (MemoryBuffer (LoadMemory_store k V m)).
Proof.
  induction k as [|k IH]; intros V m Hm; cbn [LoadMemory_store]; [exact Hm|].
  apply IH. cbn [MemoryBuffer]. apply Forall_insert; [exact Hm|].
  unfold is_byte. change 255 with (Z.ones 8).
  rewrite Z.land_ones by lia. apply Z.mod_pos_bound. lia.
Qed.

Section ImageFacts.

Context {T : Type} `{Transport T}.

Lemma LoadMemory_loop_image (Count : Z) (fuel : nat) :
  Count < 2 ^ 32 ->
  forall (s : Cursor * Memory * T) (r : LoopExit * Memory * T),
    image_ok Count s.1.1 s.1.2 ->
    LoadMemory_loop fuel Count s = Some r ->
    exists c', image_ok Count c' r.1.2.
Proof.
  intros HC. induction fuel as [|fuel IH]; intros [[c m] t] r Hok Hloop;
    cbn [fst snd] in *; cbn [LoadMemory_loop fst snd] in Hloop;
    destruct (Z.ltb_spec (Length c) Count) as [Hlt|]; try discriminate;
    try (injection Hloop as <-; exists c; exact Hok).
  unfold LoadMemory_iter in Hloop.
  destruct (LoadMemory_exchange c t) as [resp t'].
  destruct (ResponseCount resp =? 0).
  - injection Hloop as <-. exists c. exact Hok.
  - apply IH in Hloop; [exact Hloop|]. cbn [fst snd].
    destruct Hok as (Hpol & Hcount & Hlen & Hbytes).
    destruct (LoadMemory_advance_policy Count c HC Hpol Hlt) as [HL Hpol'].
    pose proof (chunk_policy_width Count c Hpol) as Hw.
    destruct Hpol as ((H0 & Hle) & _).
    pose proof (proj1 Hpol') as Hnext. rewrite HL in Hnext.
    split; [exact Hpol'|]. split; [|split].
    + assert (Hk : Z.of_nat (Z.to_nat (Chunk c)) = Chunk c)
        by (destruct Hw as [E|E]; rewrite E; reflexivity).
      rewrite LoadMemory_store_count by (rewrite ?Hk; lia). lia.
    + rewrite LoadMemory_store_length. exact Hlen.
    + apply LoadMemory_store_bytes, Hbytes.
Qed.

(** After the download of [main], whether it succeeded or not, the
    image is one that the dump prints as [dump_text]. *)
Lemma LoadMemory_image (m m' : Memory) (calloc_ok : bool)
    (StartAddress Count : Z) (t t' : T) (err : option LoadMemoryError) :
  0 <= Count < 2 ^ 32 -> MemoryCount m = 0 ->
  LoadMemory Count m calloc_ok StartAddress Count t = Some (err, m', t') ->
  0 <= MemoryCount m' < 2 ^ 32 /\
  (Z.to_nat (MemoryCount m') <= length (MemoryBuffer m'))%nat /\
  Forall is_byte (MemoryBuffer m').
Proof.
  intros HC Hm. unfold LoadMemory. destruct calloc_ok.
  2:{ intros [= _ <- _]. cbn. rewrite Hm. split; [lia|]. split; [lia|].
      constructor. }
  destruct (LoadMemory_loop _ _ _) as [[[ex m1] t1]|] eqn:Hloop;
    [|discriminate].
  apply LoadMemory_loop_image in Hloop as (c' & Hpol & Hcount & Hlen & Hbytes);
    [|lia|].
  - assert (Hm1 : 0 <= MemoryCount m1 < 2 ^ 32 /\
              (Z.to_nat (MemoryCount m1) <= length (MemoryBuffer m1))%nat /\
              Forall is_byte (MemoryBuffer m1)).
    { destruct Hpol as ((? & ?) & _). cbn [fst snd] in *.
      split; [lia|]. split; [lia | exact Hbytes]. }
    destruct ex; [destruct (MemoryCount m1 =? Count)|];
      intros [= _ <- _]; exact Hm1.
  - unfold LoadMemory_start, image_ok. cbn [fst snd MemoryCount MemoryBuffer Length].
    split; [apply first_chunk_policy; lia|]. split; [exact Hm|].
    split; [apply length_replicate|]. apply Forall_replicate.
    unfold is_byte. lia.
Qed.

End ImageFacts.

(** ** The verify loop *)





(** ** The dump *)

Lemma printf_X_byte (v : Z) :
  is_byte v ->
  printf_X false 2 v = [hexdigit false (v / 16); hexdigit false (v mod 16)].
Proof.
  intros Hv.
  assert (Hall : forallb (fun v => bool_decide
            (printf_X false 2 v =
             [hexdigit false (v / 16); hexdigit false (v mod 16)]))
            (seqZ 0 256) = true) by (vm_compute; reflexivity).
  rewrite forallb_forall in Hall.
  specialize (Hall v). rewrite bool_decide_eq_true in Hall. apply Hall.
  apply list_elem_of_In, elem_of_seqZ. unfold is_byte in Hv. lia.
Qed.

Lemma dump_template_step (done : list Z) (v : Z) :
  (length done < 16)%nat ->
  <[(49 + length done)%nat :=
      if (0x1f <? v) && (v <? 0x7f) then v else 0x2e]>
    (<[S (3 * length done) := hexdigit false (v mod 16)]>
       (<[(3 * length done)%nat := hexdigit false (v / 16)]>
          (dump_template done)))
  = dump_template (done ++ [v]).
Proof.
  intros Hlen.
  do 16 (destruct done as [|? done]; [reflexivity|]).
  simpl in Hlen. lia.
Qed.

Section DumpFacts.

Variable m : Memory.
Variable image : list Z.
Hypothesis image_def :
  image = take (Z.to_nat (MemoryCount m)) (MemoryBuffer m).
Hypothesis count_fits : 0 <= MemoryCount m < 2 ^ 32.
Hypothesis count_held : (Z.to_nat (MemoryCount m) <= length (MemoryBuffer m))%nat.
Hypothesis image_bytes : Forall is_byte image.

Lemma dump_image_length : Z.of_nat (length image) = MemoryCount m.
Proof. rewrite image_def, length_take. lia. Qed.

Lemma dump_image_lookup (o : nat) (v : Z) :
  image !! o = Some v -> byte_at (MemoryBuffer m) (Z.of_nat o) = v.
Proof.
  intros Hv. pose proof (lookup_lt_Some _ _ _ Hv) as Ho.
  rewrite image_def in Hv, Ho. rewrite length_take in Ho.
  rewrite lookup_take_lt in Hv by lia.
  unfold byte_at. rewrite Nat2Z.id, Hv. reflexivity.
Qed.

Lemma byte_at_pair (a b : Z) : byte_at [a; b] 0 = a /\ byte_at [a; b] 1 = b.
Proof. split; reflexivity. Qed.

Lemma dump_fill_spec (cnt : nat) :
  forall (done : list Z) (o j k : nat),
    (length done + cnt = 16)%nat ->
    (o <= length image)%nat ->
    j = (3 * length done)%nat ->
    k = (49 + length done)%nat ->
    dump_fill m cnt j k (Z.of_nat o) (dump_template done) =
      (Z.of_nat (o + length (take cnt (drop o image))),
       dump_template (done ++ take cnt (drop o image))).
Proof.
  pose proof dump_image_length as HN.
  induction cnt as [|cnt IH]; intros done o j k Hlen Ho -> ->.
  - simpl. rewrite app_nil_r, Nat.add_0_r. reflexivity.
  - cbn [dump_fill].
    destruct (Z.ltb_spec (Z.of_nat o) (MemoryCount m)) as [Hlt|Hge].
    + assert (Ho' : (o < length image)%nat) by lia.
      destruct (lookup_lt_is_Some_2 image o Ho') as [v Hv].
      rewrite (dump_image_lookup o v Hv).
      assert (Hbyte : is_byte v).
      { exact (Forall_lookup_1 _ _ _ _ image_bytes Hv). }
      rewrite (printf_X_byte v Hbyte).
      rewrite (proj1 (byte_at_pair _ _)), (proj2 (byte_at_pair _ _)).
      rewrite (dump_template_step done v) by lia.
      rewrite (drop_S _ _ _ Hv). cbn [take length].
      replace (wrap32 (Z.of_nat o + 1)) with (Z.of_nat (S o))
        by (unfold wrap32; rewrite Z.mod_small; lia).
      rewrite (IH (done ++ [v]) (S o)).
      * rewrite <- app_assoc. cbn [app]. f_equal. lia.
      * rewrite length_app. simpl. lia.
      * lia.
      * rewrite length_app. simpl. lia.
      * rewrite length_app. simpl. lia.
    + rewrite drop_ge by lia. rewrite take_nil, app_nil_r, Nat.add_0_r.
      reflexivity.
Qed.

Lemma c_str_nonzero (l r : list Z) :
  Forall (fun c => c <> 0) l -> c_str (l ++ 0 :: r) = l.
Proof.
  induction 1 as [|c l Hc _ IH]; [reflexivity|].
  simpl. destruct (Z.eqb_spec c 0); [contradiction|]. f_equal. exact IH.
Qed.

Lemma hexdigit_nonzero (u : bool) (d : Z) : 0 <= d -> hexdigit u d <> 0.
Proof.
  intros Hd. unfold hexdigit.
  destruct (Z.ltb_spec d 10); [lia|]. destruct u; lia.
Qed.

Lemma dump_line_spec (Address : Z) (row : list Z) :
  Forall is_byte row ->
  dump_line Address (dump_template row) = dump_row_text Address row.
Proof.
  intros Hrow. unfold dump_line, dump_row_text, dump_template.
  do 3 f_equal.
  rewrite !app_assoc. rewrite c_str_nonzero; [reflexivity|].
  repeat apply Forall_app_2.
  - apply Forall_concat, Forall_map. eapply Forall_impl; [exact Hrow|].
    intros b Hb. unfold is_byte in Hb. cbn.
    repeat constructor; try discriminate.
    + apply hexdigit_nonzero. apply Z.div_pos; lia.
    + apply hexdigit_nonzero. apply Z.mod_pos_bound. lia.
  - apply Forall_replicate. discriminate.
  - repeat constructor. discriminate.
  - apply Forall_map. eapply Forall_impl; [exact Hrow|].
    intros b Hb. cbn. destruct ((31 <? b) && (b <? 127)) eqn:E; [|discriminate].
    apply andb_true_iff in E as [E _]. apply Z.ltb_lt in E. lia.
  - apply Forall_replicate. discriminate.
Qed.

Lemma dump_rows_step (N o : nat) :
  (o < N)%nat ->
  Z.to_nat ((Z.of_nat (N - o) + 15) / 16) =
  S (Z.to_nat ((Z.of_nat (N - (o + (16 `min` (N - o)))) + 15) / 16)).
Proof.
  intros Ho. rewrite <- Z2Nat.inj_succ by (apply Z.div_pos; lia).
  f_equal. destruct (Nat.min_spec 16 (N - o)) as [[? ->]|[? ->]].
  - replace (Z.of_nat (N - o)) with (Z.of_nat (N - (o + 16)) + 1 * 16) by lia.
    rewrite <- Z.add_assoc, (Z.add_comm (1 * 16)), Z.add_assoc.
    rewrite Z.div_add by lia. lia.
  - replace (N - (o + (N - o)))%nat with 0%nat by lia.
    change ((Z.of_nat 0 + 15) / 16) with 0.
    assert (1 <= Z.of_nat (N - o) <= 16) by lia.
    assert ((Z.of_nat (N - o) + 15) / 16 = 1); [|lia].
    symmetry. apply (Z.div_unique _ 16 1 (Z.of_nat (N - o) - 1)); lia.
Qed.

Lemma dump_loop_spec (fuel : nat) :
  forall (o : nat) (Address : Z),
    (o <= length image)%nat ->
    (length image - o <= fuel)%nat ->
    dump_loop fuel m Address (Z.of_nat o) =
      Some (dump_text (Z.to_nat ((Z.of_nat (length image - o) + 15) / 16))
              Address (drop o image)).
Proof.
  pose proof dump_image_length as HN.
  induction fuel as [|fuel IH]; intros o Address Ho Hfuel.
  - assert (o = length image) as -> by lia.
    simpl. destruct (Z.ltb_spec (Z.of_nat (length image)) (MemoryCount m)); [lia|].
    rewrite Nat.sub_diag. reflexivity.
  - cbn [dump_loop].
    destruct (Z.ltb_spec (Z.of_nat o) (MemoryCount m)) as [Hlt|Hge].
    + change (<[65%nat:=0]> (replicate 66 32)) with (dump_template []).
      rewrite (dump_fill_spec 16 [] o 0 49) by (simpl; lia).
      cbn [app].
      assert (Hnext : length (take 16 (drop o image)) = (16 `min` (length image - o))%nat)
        by (rewrite length_take, length_drop; reflexivity).
      rewrite Hnext, IH by lia.
      rewrite (dump_rows_step (length image) o) by lia.
      cbn [dump_text]. rewrite dump_line_spec.
      * do 3 f_equal. rewrite drop_drop.
        destruct (Nat.min_spec 16 (length image - o)) as [[? ->]|[? ->]].
        -- first [reflexivity | f_equal; lia].
        -- rewrite !drop_ge by lia. reflexivity.
      * apply Forall_take, Forall_drop, image_bytes.
    + assert (o = length image) as -> by lia.
      rewrite Nat.sub_diag. reflexivity.
Qed.

End DumpFacts.

(** C9.  The dump is [dump_text]: one line for every 16 bytes of the
    image, the label going up by 16 from line to line; on a line each
    byte is two lower-case digits followed by one blank (the gap after
    the eighth byte is no wider than the others), the columns of a short
    last line stay blank, and the characters follow after one more
    blank, a dot standing for a byte that is not above 0x1f and below
    0x7f. *)
Theorem dump_is_dump_text (ValueAddrStart : Z) (m : Memory) :
  0 <= MemoryCount m < 2 ^ 32 ->
  (Z.to_nat (MemoryCount m) <= length (MemoryBuffer m))%nat ->
  Forall is_byte (MemoryBuffer m) ->
  dump ValueAddrStart m =
    Some (dump_text (Z.to_nat ((MemoryCount m + 15) / 16)) ValueAddrStart
            (take (Z.to_nat (MemoryCount m)) (MemoryBuffer m))).
Proof.
  intros Hfits Hheld Hbytes. unfold dump.
  set (image := take (Z.to_nat (MemoryCount m)) (MemoryBuffer m)).
  assert (HN : Z.of_nat (length image) = MemoryCount m)
    by (apply (dump_image_length m image); [reflexivity | lia | exact Hheld]).
  pose proof (dump_loop_spec m image eq_refl Hfits Hheld
                (Forall_take _ _ _ Hbytes) (Z.to_nat (MemoryCount m)) 0
                ValueAddrStart) as Hloop.
  rewrite drop_0, Nat.sub_0_r, HN in Hloop. apply Hloop; lia.
Qed.

Lemma dump_is_dump_text_witness :
  dump 0x300000 image17 =
    Some [bytes_of_string
            ("$300000  41 42 43 44 45 46 47 48 49 4a 4b 4c 4d 4e 4f 50  ABCDEFGHIJKLMNOP"%string) ++ [0x0a];
          bytes_of_string
            ("$300010  51                                               Q               "%string) ++ [0x0a]].
Proof.
  rewrite (dump_is_dump_text 0x300000 image17).
  - reflexivity.
  - simpl. lia.
  - simpl. lia.
  - unfold image17, is_byte. cbn [MemoryBuffer].
    apply Forall_forall. intros x Hx.
    apply list_elem_of_In, in_map_iff in Hx as (k & <- & Hk).
    apply in_seq in Hk. lia.
Defined.

(** There is no wider gap after the eighth byte: the line of sixteen
    bytes is not the one that has two blanks there. *)
Lemma dump_no_gap_after_eighth_byte :
  ~ (dump 0x300000
       image16 =
     Some [bytes_of_string
             ("$300000  41 42 43 44 45 46 47 48  49 4a 4b 4c 4d 4e 4f 50  ABCDEFGHIJKLMNOP"%string) ++ [0x0a]]).
Proof. vm_compute. discriminate. Qed.

(** ** TerminalEmulator *)

(** C6.  A carriage return on the console: [TerminalEmulator] turns it
    into ['#'], writes the ['#'] to the target and then, the ['#'] being
    printable, echoes the ['#'] to the console; the byte 0x0d itself is
    written nowhere. *)
Theorem Terminal_carriage_return {T : Type} `{Transport T}
    (Key avail : Z) (t t1 t2 : T) :
  FileInputAvailable FileNumberConsole t = (avail, t1) ->
  avail <> 0 ->
  FileGetCharacter FileNumberConsole t1 = (0x0d, t2) ->
  Terminal_console Key t =
    (0x23, sys_write FileNumberConsole 0x23 (sys_write FileNumberSam9 0x23 t2)).
Proof.
  intros Hpoll Havail Hread. unfold Terminal_console.
  rewrite Hpoll. destruct (Z.eqb_spec avail 0) as [E|_]; [contradiction|].
  rewrite Hread. reflexivity.
Qed.

Lemma Terminal_carriage_return_witness :
  let s := (Terminal_console 0 (Sim_with [] [0x0d])).2 in
  from_host s = [0x23] /\ screen s = [0x23].
Proof.
  rewrite (Terminal_carriage_return 0 1 (Sim_with [] [0x0d])
             (Sim_with [] [0x0d]) (Sim_with [] [])).
  - split; reflexivity.
  - reflexivity.
  - lia.
  - reflexivity.
Defined.

(** The carriage return is echoed, as ['#']: it is not so that the
    target gets the ['#'] and the console gets nothing. *)
Lemma Terminal_carriage_return_echoed :
  ~ (let s := (Terminal_console 0 (Sim_with [] [0x0d])).2 in
     from_host s = [0x23] /\ screen s = []).
Proof. cbv zeta. intros [_ Hscreen]. vm_compute in Hscreen. discriminate. Qed.

(** A drain that starts from [Key = 0] ends with [Key = 0]. *)
Lemma Terminal_drain_zero {T : Type} `{Transport T} (fuel : nat) :
  forall (t t' : T) (Key' : Z),
    Terminal_drain fuel 0 t = Some (Key', t') -> Key' = 0.
Proof.
  induction fuel as [|fuel IH]; intros t t' Key' Hdrain;
    cbn [Terminal_drain] in Hdrain;
    destruct (FileInputAvailable FileNumberSam9 t) as [avail t1];
    destruct (avail =? 0); try discriminate;
    try (injection Hdrain as <- _; reflexivity).
  destruct (FileGetCharacter FileNumberSam9 t1) as [k t2].
  eapply IH, Hdrain.
Qed.

(** A drain that copies a byte of the target forgets the key. *)
Lemma Terminal_drain_forgets {T : Type} `{Transport T} (fuel : nat)
    (Key Key' : Z) (t t' : T) :
  (FileInputAvailable FileNumberSam9 t).1 <> 0 ->
  Terminal_drain fuel Key t = Some (Key', t') -> Key' = 0.
Proof.
  intros Havail Hdrain. destruct fuel as [|fuel];
    cbn [Terminal_drain] in Hdrain;
    destruct (FileInputAvailable FileNumberSam9 t) as [avail t1];
    cbn [fst] in Havail;
    destruct (Z.eqb_spec avail 0); try contradiction; try discriminate.
  destruct (FileGetCharacter FileNumberSam9 t1) as [k t2].
  eapply Terminal_drain_zero, Hdrain.
Qed.

Lemma Terminal_idle (fuel : nat) (s : Sim) :
  keys s = [] -> to_host s = [] -> Terminal_cycle (S fuel) 0 s = Some (0, s).
Proof.
  intros Hk Ht. unfold Terminal_cycle, Terminal_console, Terminal_drain,
    FileInputAvailable. cbn [sys_select Sim_transport Sim_select].
  rewrite Hk. cbn. rewrite Ht. reflexivity.
Qed.

(** C7.  What the loop does with an Escape that is followed by a byte
    of the target in the same cycle.  The inner loop uses [Key] for the
    bytes of the target and leaves 0 in it, so whenever it copies a byte
    the cycle ends with [Key = 0] and the loop goes on, whatever was
    typed.  With Escape typed and one byte of the target under way the
    Escape is sent to the target and the byte is shown; the state after
    that cycle is one that every further cycle leaves as it is, with
    [Key = 0], so the loop is still running after any number of
    cycles. *)
Theorem Terminal_escape_lost :
  (forall (T : Type) (H : Transport T) (fuel : nat) (Key Key1 Key' : Z)
          (t t1 t' : T),
     Terminal_console Key t = (Key1, t1) ->
     (FileInputAvailable FileNumberSam9 t1).1 <> 0 ->
     Terminal_cycle fuel Key t = Some (Key', t') ->
     Key' = 0 /\ Terminal_state Key' = Running) /\
  (exists s' : Sim,
     Terminal_cycle 1 0 (Sim_with [0x41] [0x1b]) = Some (0, s') /\
     from_host s' = [0x1b] /\ screen s' = [0x41] /\
     Terminal_cycle 1 0 s' = Some (0, s')) /\
  (forall cycles : nat,
     Terminal_loop cycles 1 0 (Sim_with [0x41] [0x1b]) = None).
Proof.
  split; [|split].
  - intros T H fuel Key Key1 Key' t t1 t' Hconsole Havail Hcycle.
    unfold Terminal_cycle in Hcycle. rewrite Hconsole in Hcycle.
    rewrite (Terminal_drain_forgets fuel Key1 Key' t1 t' Havail Hcycle).
    split; reflexivity.
  - eexists. split; [vm_compute; reflexivity|].
    split; [reflexivity|]. split; reflexivity.
  - intros [|cycles]; [reflexivity|].
    cbn [Terminal_loop].
    change (Terminal_cycle 1 0 (Sim_with [0x41] [0x1b])) with
      (Some (0, Sim_write FileNumberConsole 0x41
                  (Sim_write FileNumberSam9 0x1b (Sim_with [] [])))).
    cbn [Terminal_state Z.eqb negb andb].
    set (s' := Sim_write _ _ _).
    induction cycles as [|cycles IH]; [reflexivity|].
    cbn [Terminal_loop]. rewrite (Terminal_idle 0 s') by reflexivity.
    exact IH.
Qed.

(** Without a byte of the target in the cycle the Escape ends the
    loop. *)
Example Terminal_escape_exits :
  exists s' : Sim,
    Terminal_loop 1 1 0 (Sim_with [] [0x1b]) = Some (0x1b, s') /\
    Terminal_state 0x1b = Exiting.
Proof. eexists. split; vm_compute; reflexivity. Qed.

(** ** The gating of the operations in [main] *)



(** When the cpu query fails and nothing was downloaded before, the
    rest of [main_transfer] does nothing at all. *)
Lemma main_transfer_after_cpu_failure {T : Type} `{Transport T}
    (p : Params) (e : Env) (r0 : Run T) :
  let r2 := main_cpu p (main_handshake p r0) in
  MemoryCount (run_Memory r0) = 0 ->
  run_Success r2 = false ->
  main_transfer p e r0 = Some r2.
Proof.
  intros r2 Hm Hfail.
  assert (Hm2 : run_Memory r2 = run_Memory r0).
  { subst r2. unfold main_cpu, main_handshake.
    destruct (GetResponse FileNumberSam9 (fprintf CmdSync (run_line r0)))
      as [? t2].
    destruct (FlagQuiet p), (FlagCpu p);
      repeat match goal with
      | |- context [GetResponse ?fd ?t] =>
          destruct (GetResponse fd t) as [? ?]
      | |- context [if ?b then _ else _] => destruct b
      end; reflexivity. }
  unfold main_transfer. fold r2.
  unfold main_load. rewrite Hfail. cbn [andb].
  unfold main_send. rewrite Hfail. cbn [andb mbind option_bind].
  unfold main_download. rewrite Hfail. cbn [andb mbind option_bind].
  unfold main_verify. rewrite Hfail. cbn [andb].
  unfold main_receive. rewrite Hfail. cbn [andb].
  unfold main_dump. rewrite Hm2, Hm. cbn [Z.eqb negb]. rewrite andb_false_r.
  reflexivity.
Qed.


(** A failed verify does not prevent the dump: with [-v -d], a file of
    four bytes and a memory of zeros, the verify error is followed by
    the line of the dump. *)
Example main_failed_verify_still_dumps :
  exists r line,
    main_transfer params_verify_dump (env_with (Some [0x01; 0x02; 0x03; 0x04]))
      (main_init 0 Sim_idle) = Some r /\
    run_Success r = false /\
    run_out r = [MsgLoaded 4; MsgDownloaded 4; ErrVerify 0; MsgDump line].
Proof. do 2 eexists. split; [vm_compute; reflexivity|]. split; reflexivity. Qed.

(* ===================================================================== *)
(** * Further properties *)
(* ===================================================================== *)

(** ** NumericValue *)

Lemma skip_blanks_replicate (k : nat) (s : list Z) :
  skip_blanks (replicate k 0x20 ++ s) = skip_blanks s.
Proof. induction k as [|k IH]; [reflexivity|]. cbn. exact IH. Qed.

Lemma skip_blanks_head (c : Z) (s : list Z) :
  c <> 0x20 -> skip_blanks (c :: s) = c :: s.
Proof. intros Hc. cbn. destruct (Z.eqb_spec c 0x20); [contradiction|reflexivity]. Qed.

Lemma hex_accum_stop (l : list Z) :
  forall (acc c : Z) (r : list Z),
    hexval c = None -> hex_accum acc (l ++ c :: r) = hex_accum acc l.
Proof.
  induction l as [|d l IH]; intros acc c r Hc; cbn.
  - rewrite Hc. reflexivity.
  - destruct (hexval d); [apply IH, Hc|reflexivity].
Qed.

Lemma hex_accum_ends (l rest : list Z) (acc : Z) :
  numeral_ends rest -> hex_accum acc (l ++ rest) = hex_accum acc l.
Proof.
  destruct rest as [|c r]; intros Hend.
  - rewrite app_nil_r. reflexivity.
  - destruct Hend as [Hc _]. apply hex_accum_stop.
    unfold is_hex in Hc. destruct (hexval c); [discriminate|reflexivity].
Qed.

(** [sscanf] with ["%x"] reads back what [printf] with ["%x"] printed,
    whatever ends the numeral. *)
Lemma sscanf_X_printf_X (u : bool) (p : nat) (v V : Z) (rest : list Z) :
  0 <= v < 2 ^ 32 -> (1 <= p)%nat -> numeral_ends rest ->
  sscanf_X (printf_X u p v ++ rest) V = v.
Proof.
  intros Hv Hp Hend.
  pose proof (printf_X_is_hex u p v (proj1 Hv)) as Hhex.
  pose proof (printf_X_length u p v) as Hlen.
  assert (Hacc : hex_accum 0 (printf_X u p v ++ rest) = v).
  { rewrite hex_accum_ends by exact Hend.
    rewrite <- (hex_accum_stop _ 0 0 []) by reflexivity.
    apply hex_accum_printf_X; [exact Hv|reflexivity]. }
  destruct (printf_X u p v) as [|c0 ds]; cbn [length] in Hlen; [lia|].
  apply Forall_cons in Hhex as [Hc0 Hhex].
  destruct ds as [|c1 ds].
  - destruct rest as [|c r].
    + cbn [app] in *. pose proof (is_hex_range c0 Hc0) as Hr.
      unfold sscanf_X. cbn [skip_space].
      assert (Hsp : isspace c0 = false).
      { unfold isspace. destruct (Z.eqb_spec c0 0x20); [lia|].
        destruct (Z.leb_spec 9 c0), (Z.leb_spec c0 13); cbn; try reflexivity; lia. }
      rewrite Hsp.
      destruct (Z.eqb_spec c0 0x2d); [lia|]. destruct (Z.eqb_spec c0 0x2b); [lia|].
      rewrite Hc0, Hacc. apply scanf_unsigned_small, Hv.
    + cbn [app] in *. destruct Hend as (_ & Hx & HX).
      rewrite sscanf_X_digits by assumption.
      rewrite Hacc. apply scanf_unsigned_small, Hv.
  - apply Forall_cons in Hhex as [Hc1 _].
    pose proof (is_hex_range c1 Hc1).
    cbn [app] in *. rewrite sscanf_X_digits by (assumption || lia).
    rewrite Hacc. apply scanf_unsigned_small, Hv.
Qed.

(** A number that fits the [int] as a [bit32] is stored as it is. *)
Lemma scanf_int_small (v : Z) : 0 <= v < 2 ^ 32 -> scanf_int false v = v.
Proof.
  intros Hv. unfold scanf_int.
  destruct (Z.leb_spec (2 ^ 63) v); [lia|]. apply wrap32_small, Hv.
Qed.

Lemma isdigit_decimal (d : Z) : 0 <= d < 10 -> isdigit (0x30 + d) = true.
Proof.
  intros Hd. unfold isdigit.
  destruct (Z.leb_spec 0x30 (0x30 + d)), (Z.leb_spec (0x30 + d) 0x39);
    cbn; try reflexivity; lia.
Qed.

Lemma dec_accum_digits (fuel : nat) :
  forall (v acc : Z) (r : list Z),
    0 <= v < 10 ^ Z.of_nat fuel ->
    dec_accum acc (rev (dec_rev fuel v) ++ r) =
    dec_accum (acc * 10 ^ Z.of_nat (length (dec_rev fuel v)) + v) r.
Proof.
  induction fuel as [|fuel IH]; intros v acc r Hv.
  - cbn [dec_rev rev app length]. change (10 ^ Z.of_nat 0) with 1 in *.
    replace v with 0 by lia. rewrite Z.mul_1_r, Z.add_0_r. reflexivity.
  - cbn [dec_rev]. destruct (Z.eqb_spec v 0) as [->|Hne].
    + cbn [rev app length]. change (10 ^ Z.of_nat 0) with 1.
      rewrite Z.mul_1_r, Z.add_0_r. reflexivity.
    + cbn [rev length]. rewrite <- app_assoc. cbn [app].
      assert (Hq : 0 <= v / 10 < 10 ^ Z.of_nat fuel).
      { split; [apply Z.div_pos; lia|].
        apply Z.div_lt_upper_bound; [lia|].
        rewrite Nat2Z.inj_succ, Z.pow_succ_r in Hv by lia. lia. }
      rewrite IH by assumption. cbn [dec_accum].
      rewrite isdigit_decimal by (apply Z.mod_pos_bound; lia).
      replace (0x30 + v mod 10 - 0x30) with (v mod 10) by lia.
      f_equal.
      rewrite Nat2Z.inj_succ, Z.pow_succ_r by lia.
      pose proof (Z.div_mod v 10 ltac:(lia)). lia.
Qed.

(** The numeral of a positive number starts with a digit from 1 to 9. *)
Lemma dec_rev_last (fuel : nat) :
  forall v, 0 < v < 10 ^ Z.of_nat fuel ->
    exists l d, dec_rev fuel v = l ++ [0x30 + d] /\ 1 <= d <= 9.
Proof.
  induction fuel as [|fuel IH]; intros v Hv.
  - change (10 ^ Z.of_nat 0) with 1 in Hv. lia.
  - cbn [dec_rev]. destruct (Z.eqb_spec v 0) as [|Hne]; [lia|].
    pose proof (Z.div_mod v 10 ltac:(lia)) as Hdm.
    pose proof (Z.mod_pos_bound v 10 ltac:(lia)) as Hm.
    destruct (Z.eq_dec (v / 10) 0) as [Hz|Hnz].
    + exists [], (v mod 10). split; [|lia].
      rewrite Hz. destruct fuel; cbn; reflexivity.
    + assert (Hq : 0 < v / 10 < 10 ^ Z.of_nat fuel).
      { split; [pose proof (Z.div_pos v 10); lia|].
        apply Z.div_lt_upper_bound; [lia|].
        rewrite Nat2Z.inj_succ, Z.pow_succ_r in Hv by lia. lia. }
      destruct (IH _ Hq) as (l & d & El & Hd).
      exists ((0x30 + v mod 10) :: l), d. rewrite El. split; [reflexivity|lia].
Qed.

Lemma decimal_head (v : Z) :
  0 < v < 2 ^ 32 ->
  exists d ds, decimal v = (0x30 + d) :: ds /\ 1 <= d <= 9.
Proof.
  intros Hv. unfold decimal. destruct (Z.eqb_spec v 0); [lia|].
  destruct (dec_rev_last 10 v) as (l & d & El & Hd);
    [change (10 ^ Z.of_nat 10) with 10000000000; lia|].
  exists d, (rev l). rewrite El, rev_app_distr. split; [reflexivity|exact Hd].
Qed.

Lemma dec_accum_ends (acc : Z) (rest : list Z) :
  numeral_ends rest -> dec_accum acc rest = acc.
Proof.
  destruct rest as [|c r]; [reflexivity|]. intros (Hc & _). cbn.
  destruct (isdigit c) eqn:E; [|reflexivity].
  unfold isdigit in E. unfold is_hex, hexval in Hc.
  rewrite E in Hc. discriminate.
Qed.

Lemma sscanf_d_decimal (v V : Z) (rest : list Z) :
  0 < v < 2 ^ 32 -> numeral_ends rest ->
  sscanf_d (decimal v ++ rest) V = v.
Proof.
  intros Hv Hend.
  assert (Hacc : dec_accum 0 (decimal v ++ rest) = v).
  { unfold decimal. destruct (Z.eqb_spec v 0); [lia|].
    rewrite dec_accum_digits
      by (change (10 ^ Z.of_nat 10) with 10000000000; lia).
    rewrite dec_accum_ends by exact Hend.
    rewrite Z.mul_0_l, Z.add_0_l. reflexivity. }
  destruct (decimal_head v Hv) as (d & ds & E & Hd).
  rewrite E in *. cbn [app] in *. unfold sscanf_d. cbn [skip_space].
  assert (Hsp : isspace (0x30 + d) = false).
  { unfold isspace. destruct (Z.eqb_spec (0x30 + d) 0x20); [lia|].
    destruct (Z.leb_spec 9 (0x30 + d)), (Z.leb_spec (0x30 + d) 13);
      cbn; try reflexivity; lia. }
  rewrite Hsp.
  destruct (Z.eqb_spec (0x30 + d) 0x2d); [lia|].
  destruct (Z.eqb_spec (0x30 + d) 0x2b); [lia|].
  rewrite isdigit_decimal by lia. rewrite Hacc. apply scanf_int_small. lia.
Qed.

(** X1.  [NumericValue] reads every 32-bit value back from its numerals:
    the hexadecimal digits of [v] (in either case, with any number of
    leading zeros) after a [$], a [0x] or a [0X], and the decimal numeral
    of a [v] other than 0; blanks in front are skipped, and the numeral
    may be followed by the end of the string or by any character that is
    neither a hexadecimal digit nor an [x]. *)
Theorem NumericValue_numerals (k : nat) (u : bool) (p : nat) (v : Z)
    (rest : list Z) :
  0 <= v < 2 ^ 32 -> (1 <= p)%nat -> numeral_ends rest ->
  NumericValue
    (Some (replicate k 0x20 ++ [0x24] ++ printf_X u p v ++ rest)) = v /\
  NumericValue
    (Some (replicate k 0x20 ++ [0x30; 0x78] ++ printf_X u p v ++ rest)) = v /\
  NumericValue
    (Some (replicate k 0x20 ++ [0x30; 0x58] ++ printf_X u p v ++ rest)) = v /\
  (v <> 0 ->
   NumericValue (Some (replicate k 0x20 ++ decimal v ++ rest)) = v).
Proof.
  intros Hv Hp Hend. unfold NumericValue.
  rewrite !skip_blanks_replicate. repeat split.
  - cbn. apply sscanf_X_printf_X; assumption.
  - cbn. apply sscanf_X_printf_X; assumption.
  - cbn. apply sscanf_X_printf_X; assumption.
  - intros Hne. assert (Hpos : 0 < v < 2 ^ 32) by lia.
    destruct (decimal_head v Hpos) as (d & ds & E & Hd).
    pose proof (sscanf_d_decimal v 0 rest Hpos Hend) as Hs.
    rewrite E in *. cbn [app] in *.
    rewrite skip_blanks_head by lia.
    change (byte_at ((0x30 + d) :: ds ++ rest) 0) with (0x30 + d).
    destruct (Z.eqb_spec (0x30 + d) 0x24); [lia|].
    destruct (Z.eqb_spec (0x30 + d) 0x30); [lia|].
    cbn [andb]. exact Hs.
Qed.

Lemma NumericValue_numerals_witness :
  NumericValue (Some (arg "  $300000")) = 0x300000 /\
  NumericValue (Some (arg "0x1f")) = 0x1f /\
  NumericValue (Some (arg "0X00AB")) = 0xab /\
  NumericValue (Some (arg "512")) = 512.
Proof.
  pose proof (NumericValue_numerals 2 false 6 0x300000 [0]
                ltac:(lia) ltac:(lia) ltac:(cbn; repeat split; lia)) as H1.
  pose proof (NumericValue_numerals 0 false 1 0x1f [0]
                ltac:(lia) ltac:(lia) ltac:(cbn; repeat split; lia)) as H2.
  pose proof (NumericValue_numerals 0 true 4 0xab [0]
                ltac:(lia) ltac:(lia) ltac:(cbn; repeat split; lia)) as H3.
  pose proof (NumericValue_numerals 0 true 1 512 [0]
                ltac:(lia) ltac:(lia) ltac:(cbn; repeat split; lia)) as H4.
  split; [exact (proj1 H1)|]. split; [exact (proj1 (proj2 H2))|].
  split; [exact (proj1 (proj2 (proj2 H3)))|].
  exact (proj2 (proj2 (proj2 H4)) ltac:(lia)).
Defined.

(** X2.  The string ["0"] is not read as a decimal zero: [strchr] finds
    the terminator that follows the ['0'] in ["Xx"], so the hexadecimal
    branch is taken and [sscanf] starts two bytes on, behind the
    terminator; the value is whatever number the bytes after the string
    spell (0 when they spell none). *)
Theorem NumericValue_zero_reads_behind_terminator (k : nat) (after : list Z) :
  NumericValue (Some (replicate k 0x20 ++ [0x30; 0] ++ after)) =
  sscanf_X after 0.
Proof.
  unfold NumericValue. rewrite skip_blanks_replicate. reflexivity.
Qed.

Example NumericValue_zero_then_argument :
  NumericValue (Some (arg "0" ++ arg "17")) = 0x17 /\
  NumericValue (Some (arg "00")) = 0.
Proof. split; reflexivity. Qed.

(** ** ParseParameters *)

Section ParseFacts.

Import CommandLine.

Lemma switch_takes_no_argument (c : Z) :
  is_switch c = true -> takes_argument c = false.
Proof.
  unfold is_switch, takes_argument. intros Hc.
  repeat match goal with
         | |- context [c =? ?k] =>
             destruct (Z.eqb_spec c k); [subst c; cbn in Hc; try discriminate|]
         end; reflexivity.
Qed.

(** What one accepted argument does to the flags. *)
Lemma ParseParameters_argument_flags (x : list Z) (s s' : Strings)
    (f f' : Flags) (c : Z) :
  is_switch c = true ->
  ParseParameters_argument x (s, f) = Some (s', f') ->
  flag_of c f' = flag_of c f || names c x.
Proof.
  intros Hc Hx. unfold ParseParameters_argument in Hx. unfold names.
  destruct (Z.eqb_spec (byte_at x 0) 0x2d) as [E0|]; [|discriminate].
  cbn [negb andb] in *.
  destruct (takes_argument (byte_at x 1)) eqn:Et.
  - assert (f' = f) as ->.
    { destruct (3 <? strlen x); [destruct (byte_at x 2 =? 0x3d)|
        destruct ((byte_at x 1 =? 0x67) && (strlen x =? 2))];
        congruence. }
    destruct (Z.eqb_spec (byte_at x 1) c) as [E|]; [|rewrite orb_false_r; reflexivity].
    rewrite E, (switch_takes_no_argument c Hc) in Et. discriminate.
  - destruct (set_switch (byte_at x 1) f) as [f1|] eqn:Es; [|discriminate].
    assert (f1 = f') as -> by congruence.
    unfold set_switch in Es. unfold is_switch in Hc. unfold flag_of.
    repeat match type of Es with
           | context [byte_at x 1 =? ?k] =>
               destruct (Z.eqb_spec (byte_at x 1) k) as [->|]
           end; try discriminate;
    injection Es as <-; cbn [FlagReceive FlagDump FlagSend FlagCpu FlagVerify
                              FlagQuiet FlagTrace FlagInteractive];
    repeat match goal with
           | |- context [c =? ?k] =>
               destruct (Z.eqb_spec c k); [subst c|]
           end; cbn in *;
    rewrite ?orb_true_r, ?orb_false_r; try reflexivity; try discriminate; try lia.
Qed.

(** What one accepted argument does to [ParamFileName], [ParamBytes]
    and [ParamAddrGo]: set by the argument that names it, and left alone
    by every other. *)
Lemma ParseParameters_argument_strings (x : list Z) (s s' : Strings)
    (f f' : Flags) :
  ParseParameters_argument x (s, f) = Some (s', f') ->
  is_NULL (ParamFileName s') = is_NULL (ParamFileName s) && negb (names 0x66 x) /\
  is_NULL (ParamBytes s') = is_NULL (ParamBytes s) && negb (names 0x6e x) /\
  (names 0x67 x = false -> ParamAddrGo s' = ParamAddrGo s) /\
  (names 0x61 x = false -> ParamAddrStart s' = ParamAddrStart s) /\
  (bare_go x = true -> ParamAddrGo s' = ParamAddrStart s) /\
  (is_NULL (ParamAddrStart s) = false -> is_NULL (ParamAddrStart s') = false).
Proof.
  intros Hx. unfold ParseParameters_argument in Hx. unfold bare_go, names.
  destruct (Z.eqb_spec (byte_at x 0) 0x2d) as [E0|]; [|discriminate].
  cbn [negb andb] in *.
  destruct (takes_argument (byte_at x 1)) eqn:Et.
  - destruct (3 <? strlen x) eqn:El.
    + destruct (byte_at x 2 =? 0x3d); [|discriminate].
      injection Hx as <- <-. unfold set_param.
      assert ((strlen x =? 2) = false) as -> by lia.
      rewrite andb_false_r.
      repeat match goal with
             | |- context [byte_at x 1 =? ?k] =>
                 destruct (Z.eqb_spec (byte_at x 1) k) as [E|]; [rewrite E in *|]
             end; cbn; rewrite ?andb_true_r, ?andb_false_r;
        repeat split; try reflexivity; try discriminate; try lia; auto.
    + destruct (Z.eqb_spec (byte_at x 1) 0x67) as [E|]; [|discriminate].
      destruct (strlen x =? 2); [|discriminate].
      injection Hx as <- <-. rewrite E. cbn.
      rewrite ?andb_true_r. repeat split; try reflexivity; try discriminate; auto.
  - destruct (set_switch (byte_at x 1) f) as [f1|] eqn:Es; [|discriminate].
    injection Hx as <- <-. unfold takes_argument in Et.
    repeat match goal with
           | |- context [byte_at x 1 =? ?k] =>
               destruct (Z.eqb_spec (byte_at x 1) k) as [E|]; [rewrite E in *|]
           end; cbn in *; rewrite ?andb_true_r;
      repeat split; try reflexivity; try discriminate; auto.
Qed.

Lemma ParseParameters_argument_well_formed (x : list Z) (g : Strings * Flags) :
  well_formed x = true <-> ParseParameters_argument x g <> None.
Proof.
  destruct g as [s f]. unfold well_formed, ParseParameters_argument, bare_go, names.
  destruct (byte_at x 0 =? 0x2d); cbn [negb andb]; [|split; [discriminate|congruence]].
  destruct (takes_argument (byte_at x 1)).
  - destruct (3 <? strlen x) eqn:El; cbn [andb orb].
    + assert ((strlen x =? 2) = false) as -> by lia. rewrite andb_false_r, orb_false_r.
      destruct (byte_at x 2 =? 0x3d); split; congruence.
    + destruct ((byte_at x 1 =? 0x67) && (strlen x =? 2)); split; congruence.
  - unfold set_switch, is_switch.
    repeat match goal with
           | |- context [byte_at x 1 =? ?k] =>
               destruct (byte_at x 1 =? k)
           end; cbn; split; congruence.
Qed.

(** The [for] loop over a list of arguments in two parts. *)
Lemma ParseParameters_loop_app (pre post : list (list Z)) :
  forall g : Strings * Flags,
    ParseParameters_loop (pre ++ post) g =
    match ParseParameters_loop pre g with
    | (g', None) => ParseParameters_loop post g'
    | (g', Some x) => (g', Some x)
    end.
Proof.
  induction pre as [|x pre IH]; intros g; [reflexivity|].
  cbn. destruct (ParseParameters_argument x g); [apply IH|reflexivity].
Qed.

(** The loop accepts exactly the lists of well-formed arguments, and
    stops at the first argument that is not. *)
Lemma ParseParameters_loop_well_formed (args : list (list Z)) :
  forall g : Strings * Flags,
    (Forall (fun x => well_formed x = true) args ->
     (ParseParameters_loop args g).2 = None) /\
    (forall pre x post,
       args = pre ++ x :: post ->
       Forall (fun y => well_formed y = true) pre -> well_formed x = false ->
       (ParseParameters_loop args g).2 = Some x).
Proof.
  induction args as [|a args IH]; intros g; split.
  - reflexivity.
  - intros pre x post E. destruct pre; discriminate.
  - intros Hall. apply Forall_cons in Hall as [Ha Hall]. cbn.
    apply (ParseParameters_argument_well_formed a g) in Ha.
    destruct (ParseParameters_argument a g) as [g'|]; [|congruence].
    apply IH, Hall.
  - intros pre x post E Hpre Hx. cbn. destruct pre as [|b pre].
    + cbn in E. injection E as -> ->.
      destruct (ParseParameters_argument x g) eqn:Ea; [|reflexivity].
      assert (well_formed x = true); [|congruence].
      apply (ParseParameters_argument_well_formed x g). congruence.
    + cbn in E. injection E as -> ->.
      apply Forall_cons in Hpre as [Hb Hpre].
      apply (ParseParameters_argument_well_formed b g) in Hb.
      destruct (ParseParameters_argument b g) as [g'|]; [|congruence].
      apply (proj2 (IH g') pre x post eq_refl Hpre Hx).
Qed.

(** What the loop does to the flags and to the strings when it accepts
    every argument. *)
Lemma ParseParameters_loop_options (args : list (list Z)) :
  forall (s s' : Strings) (f f' : Flags),
    ParseParameters_loop args (s, f) = (s', f', None) ->
    (forall c, is_switch c = true ->
       flag_of c f' = flag_of c f || existsb (names c) args) /\
    is_NULL (ParamFileName s') =
      is_NULL (ParamFileName s) && negb (existsb (names 0x66) args) /\
    is_NULL (ParamBytes s') =
      is_NULL (ParamBytes s) && negb (existsb (names 0x6e) args) /\
    (existsb (names 0x67) args = false -> ParamAddrGo s' = ParamAddrGo s) /\
    (existsb (names 0x61) args = false ->
     ParamAddrStart s' = ParamAddrStart s) /\
    (is_NULL (ParamAddrStart s) = false -> is_NULL (ParamAddrStart s') = false).
Proof.
  induction args as [|x args IH]; intros s s' f f' Hl.
  - cbn in Hl. injection Hl as <- <-. cbn.
    rewrite !andb_true_r. split; [|auto 6].
    intros c _. rewrite orb_false_r. reflexivity.
  - cbn [ParseParameters_loop] in Hl.
    destruct (ParseParameters_argument x (s, f)) as [[s1 f1]|] eqn:Ex;
      [|discriminate].
    destruct (IH _ _ _ _ Hl) as (Hf & Hn & Hb & Hg & Ha & Hs).
    destruct (ParseParameters_argument_strings _ _ _ _ _ Ex)
      as (Hn1 & Hb1 & Hg1 & Ha1 & _ & Hs1).
    cbn [existsb]. repeat split.
    + intros c Hc. rewrite (Hf c Hc).
      rewrite (ParseParameters_argument_flags _ _ _ _ _ c Hc Ex).
      rewrite orb_assoc. reflexivity.
    + rewrite Hn, Hn1, negb_orb, andb_assoc. reflexivity.
    + rewrite Hb, Hb1, negb_orb, andb_assoc. reflexivity.
    + intros Hno. apply orb_false_elim in Hno as [Hx Hrest].
      rewrite (Hg Hrest). apply Hg1, Hx.
    + intros Hno. apply orb_false_elim in Hno as [Hx Hrest].
      rewrite (Ha Hrest). apply Ha1, Hx.
    + intros Hnn. apply Hs, Hs1, Hnn.
Qed.

(** The globals that an accepting call leaves are those that the loop
    left, with the three values computed. *)
Lemma ParseParameters_accepts (argv : list (list Z)) (g0 g : Globals)
    (msgs : list Diagnostic) :
  ParseParameters argv g0 = (true, g, msgs) ->
  ParseParameters_loop (drop 1 argv) (strings g0, flags g0) =
    (strings g, flags g, None) /\
  is_device (ParamPort (strings g)) = true /\
  ((FlagReceive (flags g) || FlagSend (flags g)) &&
     is_NULL (ParamFileName (strings g)) = false) /\
  FlagReceive (flags g) && FlagSend (flags g) = false /\
  (is_NULL (ParamBytes (strings g)) = true -> ValueBytes g = ValueBytes g0) /\
  (is_NULL (ParamBytes (strings g)) = false ->
   ValueBytes g = NumericValue (ParamBytes (strings g)) /\ ValueBytes g <> 0) /\
  (is_NULL (ParamAddrStart (strings g)) = false ->
   ValueAddrStart g = NumericValue (ParamAddrStart (strings g))) /\
  (is_NULL (ParamAddrGo (strings g)) = false ->
   ValueAddrGo g = NumericValue (ParamAddrGo (strings g))) /\
  (RequireN ∈ msgs <->
   (FlagReceive (flags g) || FlagDump (flags g)) &&
     is_NULL (ParamBytes (strings g)) = true).
Proof.
  unfold ParseParameters.
  destruct (ParseParameters_loop (drop 1 argv) (strings g0, flags g0))
    as [[s f] bad].
  destruct bad; [discriminate|].
  destruct (is_device (ParamPort s)) eqn:Ed; cbn [negb]; [|discriminate].
  destruct ((FlagReceive f || FlagSend f) && is_NULL (ParamFileName s)) eqn:Ef;
    [discriminate|].
  destruct (FlagReceive f && FlagSend f) eqn:Ex; [discriminate|].
  destruct (is_NULL (ParamBytes s)) eqn:Eb.
  - intros Hr. injection Hr as <- <-. cbn.
    rewrite Ed, Ef, Ex, Eb, andb_true_r.
    repeat split; try discriminate; try reflexivity.
    + intros Hs. destruct (is_NULL (ParamAddrStart s)); [discriminate|reflexivity].
    + intros Hs. destruct (is_NULL (ParamAddrGo s)); [discriminate|reflexivity].
    + destruct (FlagReceive f || FlagDump f); [reflexivity|].
      intros Hin. inversion Hin.
    + intros ->. constructor.
  - rewrite andb_false_r.
    destruct (Z.eqb_spec (NumericValue (ParamBytes s)) 0) as [|Hne];
      cbn [negb]; [discriminate|].
    intros Hr. injection Hr as <- <-. cbn.
    rewrite Ed, Ef, Ex, Eb, andb_false_r.
    repeat split; try discriminate; try reflexivity; try assumption.
    + intros Hs. destruct (is_NULL (ParamAddrStart s)); [discriminate|reflexivity].
    + intros Hs. destruct (is_NULL (ParamAddrGo s)); [discriminate|reflexivity].
    + intros Hin. inversion Hin.
Qed.

(** X3.  When [ParseParameters] accepts a command line, each of the
    eight flags is set exactly when some argument starts with [-] and
    its letter, wherever that argument stands and whatever follows the
    letter, and [ParamFileName] and [ParamBytes] are set exactly when
    some argument names [f] and [n]; so the switches are additive and
    their order does not matter. *)
Theorem ParseParameters_switches (argv : list (list Z)) (g : Globals)
    (msgs : list Diagnostic) :
  ParseParameters argv defaults = (true, g, msgs) ->
  FlagReceive (flags g) = has_option 0x72 argv /\
  FlagDump (flags g) = has_option 0x64 argv /\
  FlagSend (flags g) = has_option 0x73 argv /\
  FlagCpu (flags g) = has_option 0x63 argv /\
  FlagVerify (flags g) = has_option 0x76 argv /\
  FlagQuiet (flags g) = has_option 0x71 argv /\
  FlagTrace (flags g) = has_option 0x74 argv /\
  FlagInteractive (flags g) = has_option 0x69 argv /\
  is_NULL (ParamFileName (strings g)) = negb (has_option 0x66 argv) /\
  is_NULL (ParamBytes (strings g)) = negb (has_option 0x6e argv).
Proof.
  intros Hok. destruct (ParseParameters_accepts _ _ _ _ Hok) as (Hl & _).
  destruct (ParseParameters_loop_options _ _ _ _ _ Hl) as (Hf & Hn & Hb & _).
  unfold has_option.
  pose proof (Hf 0x72 eq_refl) as H1. pose proof (Hf 0x64 eq_refl) as H2.
  pose proof (Hf 0x73 eq_refl) as H3. pose proof (Hf 0x63 eq_refl) as H4.
  pose proof (Hf 0x76 eq_refl) as H5. pose proof (Hf 0x71 eq_refl) as H6.
  pose proof (Hf 0x74 eq_refl) as H7. pose proof (Hf 0x69 eq_refl) as H8.
  cbn in H1, H2, H3, H4, H5, H6, H7, H8, Hn, Hb.
  repeat split; assumption.
Qed.

Lemma ParseParameters_switches_witness :
  let g := (ParseParameters (map arg ["sam9boot"; "-dump"; "-n=16"; "-q"]%string)
              defaults).1.2 in
  FlagDump (flags g) = true /\ FlagQuiet (flags g) = true /\
  FlagReceive (flags g) = false /\ is_NULL (ParamBytes (strings g)) = false.
Proof.
  pose proof (ParseParameters_switches
                (map arg ["sam9boot"; "-dump"; "-n=16"; "-q"]%string) _ _
                eq_refl) as H.
  exact (conj (proj1 (proj2 H))
          (conj (proj1 (proj2 (proj2 (proj2 (proj2 (proj2 H))))))
             (conj (proj1 H)
                (proj2 (proj2 (proj2 (proj2 (proj2 (proj2 (proj2 (proj2
                   (proj2 H)))))))))))).
Defined.

(** X4.  [ParseParameters] returns [false] at the first argument that
    is not well formed, whatever stands after it: it names that argument
    in its one diagnostic and computes none of the three values. *)
Theorem ParseParameters_rejects_malformed (argv pre post : list (list Z))
    (x : list Z) (g0 : Globals) :
  drop 1 argv = pre ++ x :: post ->
  Forall (fun y => well_formed y = true) pre ->
  well_formed x = false ->
  exists g : Globals,
    ParseParameters argv g0 = (false, g, [InvalidParameter x]) /\
    ValueAddrStart g = ValueAddrStart g0 /\
    ValueAddrGo g = ValueAddrGo g0 /\
    ValueBytes g = ValueBytes g0.
Proof.
  intros Hargs Hpre Hx. unfold ParseParameters.
  pose proof (proj2 (ParseParameters_loop_well_formed (drop 1 argv)
                       (strings g0, flags g0)) pre x post Hargs Hpre Hx) as Hbad.
  destruct (ParseParameters_loop (drop 1 argv) (strings g0, flags g0))
    as [[s f] bad].
  cbn in Hbad. subst bad. eexists. split; [reflexivity|]. cbn. auto.
Qed.

Lemma ParseParameters_rejects_malformed_witness :
  exists g : Globals,
    ParseParameters (map arg ["sam9boot"; "-q"; "-n16"; "-d"]%string) defaults =
      (false, g, [InvalidParameter (arg "-n16")]) /\
    ValueAddrStart g = 0 /\ ValueAddrGo g = 0 /\ ValueBytes g = 0.
Proof.
  apply (ParseParameters_rejects_malformed
           (map arg ["sam9boot"; "-q"; "-n16"; "-d"]%string)
           [arg "-q"] [arg "-d"] (arg "-n16") defaults);
    solve [reflexivity | repeat constructor].
Defined.

(** X5.  A command line that names [-r] and [-s] together, or names
    [-r] or [-s] and no [-f], is never accepted, wherever the arguments
    stand and whatever else is given. *)
Theorem ParseParameters_receive_send (argv : list (list Z)) :
  has_option 0x72 argv && has_option 0x73 argv
  || (has_option 0x72 argv || has_option 0x73 argv)
     && negb (has_option 0x66 argv) = true ->
  (ParseParameters argv defaults).1.1 = false.
Proof.
  intros Hopt.
  destruct (ParseParameters argv defaults) as [[ok g] msgs] eqn:Hp. cbn.
  destruct ok; [|reflexivity]. exfalso.
  destruct (ParseParameters_accepts _ _ _ _ Hp)
    as (Hl & _ & Hfile & Hboth & _).
  destruct (ParseParameters_loop_options _ _ _ _ _ Hl) as (Hflag & Hf & _).
  pose proof (Hflag 0x72 eq_refl) as Hr. pose proof (Hflag 0x73 eq_refl) as Hs.
  cbn in Hr, Hs, Hf. unfold has_option in Hopt.
  rewrite Hr, Hs, Hf in *.
  destruct (existsb (names 0x72) (drop 1 argv)),
    (existsb (names 0x73) (drop 1 argv)),
    (existsb (names 0x66) (drop 1 argv)); cbn in *; discriminate.
Qed.

Lemma ParseParameters_receive_send_witness :
  (ParseParameters (map arg ["sam9boot"; "-s"; "-f=image"; "-r"]%string)
     defaults).1.1 = false.
Proof.
  apply ParseParameters_receive_send. reflexivity.
Defined.

(** X6.  The order of [-a] and [-g] matters: an accepted command line
    whose last [g] argument is [-g] alone takes as go address the start
    address as it stood when that [-g] was reached, that is the [-a]
    given before it (or the default ["$300000"]); a [-a] that follows
    changes the start address only. *)
Theorem ParseParameters_go_takes_start_before (argv pre post : list (list Z))
    (x : list Z) (g : Globals) (msgs : list Diagnostic) :
  drop 1 argv = pre ++ x :: post ->
  bare_go x = true ->
  existsb (names 0x67) post = false ->
  ParseParameters argv defaults = (true, g, msgs) ->
  let before :=
    (ParseParameters_loop pre (strings defaults, flags defaults)).1.1 in
  ParamAddrGo (strings g) = ParamAddrStart before /\
  ValueAddrGo g = NumericValue (ParamAddrStart before) /\
  (existsb (names 0x61) post = false ->
   ValueAddrStart g = NumericValue (ParamAddrStart before)).
Proof.
  intros Hargs Hx Hpost Hok before.
  destruct (ParseParameters_accepts _ _ _ _ Hok)
    as (Hl & _ & _ & _ & _ & _ & Hstart & Hgo & _).
  rewrite Hargs, ParseParameters_loop_app in Hl. subst before.
  destruct (ParseParameters_loop pre (strings defaults, flags defaults))
    as [[s1 f1] bad1] eqn:Hpre.
  destruct bad1; [discriminate|]. cbn [fst].
  destruct (ParseParameters_loop_options _ _ _ _ _ Hpre)
    as (_ & _ & _ & _ & _ & Hset1).
  specialize (Hset1 eq_refl).
  cbn [ParseParameters_loop] in Hl.
  destruct (ParseParameters_argument x (s1, f1)) as [[s2 f2]|] eqn:Ex;
    [|discriminate].
  destruct (ParseParameters_argument_strings _ _ _ _ _ Ex)
    as (_ & _ & _ & Ha2 & Hg2 & Hset2).
  specialize (Hg2 Hx). specialize (Hset2 Hset1).
  destruct (ParseParameters_loop_options _ _ _ _ _ Hl)
    as (_ & _ & _ & Hkeep & Hkeepa & Hset3).
  specialize (Hset3 Hset2).
  assert (Hptr : ParamAddrGo (strings g) = ParamAddrStart s1)
    by (rewrite (Hkeep Hpost); exact Hg2).
  split; [exact Hptr|]. split.
  - rewrite <- Hptr. apply Hgo. rewrite Hptr. exact Hset1.
  - intros Hnoa. rewrite (Hstart Hset3), (Hkeepa Hnoa). f_equal.
    apply Ha2. unfold bare_go in Hx. unfold names in *.
    apply andb_prop in Hx as [Hx _]. apply andb_prop in Hx as [H0 H1].
    rewrite H0. apply Z.eqb_eq in H1. rewrite H1. reflexivity.
Qed.

Lemma ParseParameters_go_takes_start_before_witness :
  ValueAddrGo
    (ParseParameters (map arg ["sam9boot"; "-a=$2000"; "-g"]%string) defaults).1.2
    = 0x2000 /\
  ValueAddrGo
    (ParseParameters (map arg ["sam9boot"; "-g"; "-a=$2000"]%string) defaults).1.2
    = 0x300000.
Proof.
  split.
  - exact (proj1 (proj2 (ParseParameters_go_takes_start_before
             (map arg ["sam9boot"; "-a=$2000"; "-g"]%string)
             [arg "-a=$2000"] [] (arg "-g") _ _
             eq_refl eq_refl eq_refl eq_refl))).
  - exact (proj1 (proj2 (ParseParameters_go_takes_start_before
             (map arg ["sam9boot"; "-g"; "-a=$2000"]%string)
             [] [arg "-a=$2000"] (arg "-g") _ _
             eq_refl eq_refl eq_refl eq_refl))).
Defined.

End ParseFacts.

(** ** main: what the blocks leave alone *)

Section MainFacts.

Context {T : Type} `{Transport T}.

(** The handshake changes the line only. *)
Lemma main_handshake_frame (p : Params) (r : Run T) :
  exists t, main_handshake p r = set_line t r.
Proof.
  unfold main_handshake.
  destruct (GetResponse FileNumberSam9 (fprintf CmdSync (run_line r)))
    as [? t2].
  destruct (FlagQuiet p); [exists t2; reflexivity|].
  destruct (GetResponse FileNumberSam9 (fprintf CmdVersion t2)) as [? t4].
  exists t4. reflexivity.
Qed.

(** The cpu block changes the line, and either prints the part id or
    prints its diagnostic and clears [Success]. *)
Lemma main_cpu_frame (p : Params) (r : Run T) :
  exists t msg,
    main_cpu p r = set_line t (say msg r) \/
    main_cpu p r = set_line t (fail (say [ErrCpu] r)).
Proof.
  unfold main_cpu. destruct (FlagCpu p).
  - destruct (GetResponse FileNumberSam9
                (fprintf (CmdReadWord 0xfffff240) (run_line r))) as [resp t2].
    destruct (ResponseCount resp =? 0).
    + cbn [run_line fail say set_line].
      destruct (GetResponse FileNumberSam9 t2) as [? t3].
      exists t3, []. right. reflexivity.
    + cbn [run_line fail say set_line].
      destruct (GetResponse FileNumberSam9 t2) as [? t3].
      exists t3, [MsgPartId (Value resp)]. left. reflexivity.
  - destruct (GetResponse FileNumberSam9 (run_line r)) as [? t3].
    exists t3, []. left. destruct r. unfold say, set_line. cbn.
    rewrite app_nil_r. reflexivity.
Qed.

(** X7.  The send block cannot fail and does not look at what the
    target answers: whatever the transport does (a target that answers
    nothing included), a requested send of [ValueBytes] bytes ends,
    reports all [ValueBytes] bytes as uploaded and leaves [Success]
    true. *)
Theorem main_send_never_fails (p : Params) (r : Run T) :
  run_Success r = true -> FlagSend p = true ->
  0 <= run_ValueBytes r < 2 ^ 32 ->
  exists t : T,
    main_send p r =
      Some (say [MsgUploaded (run_ValueBytes r)] (set_line t r)).
Proof.
  intros Hs Hf Hn. unfold main_send. rewrite Hs, Hf. cbn [andb].
  destruct (send_total (ValueAddrStart p) (run_ValueBytes r)
              (run_FileBuffer r) (run_line r) Hn) as ([c t] & Hsend & Hlen).
  rewrite Hsend. cbn in Hlen. rewrite Hlen. exists t. reflexivity.
Qed.

(** The last block changes the line and prints the go line at most. *)
Lemma main_go_frame (p : Params) (cycles fuel : nat) (r r' : Run T) :
  main_go p cycles fuel r = Some r' ->
  run_Success r' = run_Success r /\ run_Memory r' = run_Memory r /\
  run_saved r' = run_saved r.
Proof.
  unfold main_go. destruct (FlagInteractive p).
  - destruct (TerminalEmulator (AddrGo p) cycles fuel (run_line r))
      as [[k t]|]; [|discriminate].
    intros E. injection E as <-. auto.
  - destruct (AddrGo p) as [a|]; [|intros E; injection E as <-; auto].
    destruct (run_Success r) eqn:Es; [|intros E; injection E as <-; auto].
    destruct (GetResponse FileNumberSam9 (fprintf (CmdGo a) (run_line r)))
      as [? t2].
    intros E. injection E as <-. cbn. auto.
Qed.

(** Without a byte count and without a file to take it from, a receive
    or a dump fails before anything is read from the target. *)
Lemma main_transfer_without_count (p : Params) (e : Env) (t : T) :
  FlagSend p = false -> FlagVerify p = false ->
  FlagReceive p || FlagDump p = true ->
  exists r : Run T,
    main_transfer p e (main_init 0 t) = Some r /\
    run_Success r = false /\
    run_Memory r = {| MemoryCount := 0; MemoryBuffer := [] |} /\
    run_saved r = None /\
    (ErrDumpRequiresN ∈ run_out r \/ ErrCpu ∈ run_out r).
Proof.
  intros Hs Hv Hrd. unfold main_transfer.
  destruct (main_handshake_frame p (main_init 0 t)) as (t1 & ->).
  destruct (main_cpu_frame p (set_line t1 (main_init 0 t)))
    as (t2 & msg & [-> | ->]).
  - unfold main_load, main_send, main_download. cbn.
    rewrite Hs, Hv. cbn. rewrite Hrd. cbn.
    unfold main_verify, main_receive, main_dump. cbn.
    rewrite andb_false_r. eexists. split; [reflexivity|]. cbn.
    repeat split. left. apply elem_of_app. right. constructor.
  - unfold main_load, main_send, main_download. cbn.
    unfold main_verify, main_receive, main_dump. cbn.
    rewrite andb_false_r. eexists. split; [reflexivity|]. cbn.
    repeat split. right. constructor.
Qed.

End MainFacts.

Lemma main_send_never_fails_witness :
  exists t : Dead,
    main_send params_send (set_file 6 [0x01; 0x02; 0x03; 0x80; 0xfe; 0xff]
                             (main_init 0 dead)) =
      Some (say [MsgUploaded 6]
              (set_line t (set_file 6 [0x01; 0x02; 0x03; 0x80; 0xfe; 0xff]
                             (main_init 0 dead)))).
Proof.
  apply (main_send_never_fails params_send
           (set_file 6 [0x01; 0x02; 0x03; 0x80; 0xfe; 0xff] (main_init 0 dead)));
    [reflexivity | reflexivity | cbn; lia].
Defined.

(** ** main: the two buffers of the verify block *)

Lemma LoadFile_count (file : option (list Z)) (calloc_ok : bool)
    (ValueBytes : Z) (FileBuffer buffer : list Z) (n : Z) :
  0 <= ValueBytes < 2 ^ 32 ->
  LoadFile file calloc_ok ValueBytes FileBuffer = (None, n, buffer) ->
  0 < n < 2 ^ 32.
Proof.
  intros Hn. unfold LoadFile. destruct file as [content|]; [|discriminate].
  pose proof (Z.mod_pos_bound (Z.of_nat (length content)) (2 ^ 32) ltac:(lia))
    as Hw. fold (wrap32 (Z.of_nat (length content))) in Hw.
  destruct (Z.eqb_spec (wrap32 (Z.of_nat (length content))) 0) as [|Hne];
    [discriminate|].
  destruct calloc_ok; [|discriminate].
  destruct (Z.eqb_spec ValueBytes 0) as [E|E];
    match goal with
    | |- context [if ?b then _ else _] => destruct b
    end; intros [= <- _]; lia.
Qed.

Section VerifiedBuffers.

Context {T : Type} `{Transport T}.

(** [main] enters the verify block with [Success] true only after
    [LoadFile] and [LoadMemory] both returned [true]: the two buffers
    are then blocks of [ValueBytes] bytes each, and [ValueBytes] is not
    0.  So the verify block never meets buffers of different lengths. *)
Lemma main_verify_buffers (p : Params) (e : Env) (ValueBytes : Z) (t : T)
    (r4 r5 : Run T) :
  0 <= ValueBytes < 2 ^ 32 -> FlagVerify p = true ->
  main_send p
    (main_load p e (main_cpu p (main_handshake p (main_init ValueBytes t))))
    = Some r4 ->
  main_download p e r4 = Some r5 ->
  run_Success r5 = true ->
  0 < run_ValueBytes r5 < 2 ^ 32 /\
  Z.of_nat (length (run_FileBuffer r5)) = run_ValueBytes r5 /\
  Z.of_nat (length (MemoryBuffer (run_Memory r5))) = run_ValueBytes r5.
Proof.
  intros Hn Hv Hsend Hdown Hok.
  assert (Hstop : forall r : Run T,
            run_Success r = false ->
            main_send p r = Some r4 -> False).
  { intros r Hr Hs. unfold main_send in Hs. rewrite Hr in Hs.
    injection Hs as <-. unfold main_download in Hdown. rewrite Hr in Hdown.
    injection Hdown as <-. congruence. }
  destruct (main_handshake_frame p (main_init ValueBytes t)) as (t1 & E1).
  rewrite E1 in Hsend.
  destruct (main_cpu_frame p (set_line t1 (main_init ValueBytes t)))
    as (t2 & msg & [E2 | E2]); rewrite E2 in Hsend.
  2:{ exfalso. eapply Hstop; [|exact Hsend]. reflexivity. }
  unfold main_load in Hsend. cbn [run_Success set_line say main_init andb] in Hsend.
  rewrite Hv, orb_true_r in Hsend.
  destruct (ParamFileName p) as [name|].
  2:{ exfalso. eapply Hstop; [|exact Hsend]. reflexivity. }
  cbn [run_ValueBytes run_FileBuffer set_line say main_init] in Hsend.
  destruct (LoadFile (file_in e) (calloc_file e) ValueBytes [])
    as [[err n] buffer] eqn:Hload.
  destruct err as [err|].
  { exfalso. eapply Hstop; [|exact Hsend]. reflexivity. }
  pose proof (LoadFile_count _ _ _ _ _ _ Hn Hload) as Hcount.
  apply LoadFile_length in Hload as [Hlen _].
  assert (H4 : run_Success r4 = true /\ run_ValueBytes r4 = n /\
               run_FileBuffer r4 = buffer).
  { unfold main_send in Hsend. cbn [run_Success set_file say set_line
      main_init andb] in Hsend.
    destruct (FlagSend p); [|injection Hsend as <-; cbn; auto].
    match type of Hsend with
    | match ?s with _ => _ end = _ => destruct s as [[c t3]|]
    end; [|discriminate].
    injection Hsend as <-. cbn. auto. }
  destruct H4 as (Hs4 & Hn4 & Hf4).
  unfold main_download in Hdown. rewrite Hs4, Hv, Hn4 in Hdown.
  cbn [andb orb] in Hdown.
  destruct (Z.eqb_spec n 0) as [|_]; [lia|].
  destruct (LoadMemory n (run_Memory r4) (calloc_memory e) (ValueAddrStart p)
              n (run_line r4)) as [[[err m] t5]|] eqn:Hmem; [|discriminate].
  destruct err as [err|]; injection Hdown as <-; [discriminate Hok|].
  apply LoadMemory_length in Hmem as [_ Hm].
  cbn [run_ValueBytes run_FileBuffer run_Memory say set_memory set_line].
  rewrite Hn4, Hf4, Hm. split; [exact Hcount|]. split; [exact Hlen|]. lia.
Qed.

End VerifiedBuffers.

(** ** main and the command line *)

Lemma ParseParameters_loop_accepted (args : list (list Z)) :
  forall g : CommandLine.Strings * CommandLine.Flags,
    (CommandLine.ParseParameters_loop args g).2 = None ->
    Forall (fun x => well_formed x = true) args.
Proof.
  induction args as [|x args IH]; intros g Hl; [constructor|].
  cbn in Hl.
  destruct (CommandLine.ParseParameters_argument x g) as [g'|] eqn:Ex;
    [|discriminate].
  constructor; [|apply (IH g'), Hl].
  apply (ParseParameters_argument_well_formed x g). congruence.
Qed.

Section AcceptFacts.

Import CommandLine.

(** What one accepted argument does to [ParamPort] and [ParamBytes]. *)
Lemma ParseParameters_argument_values (x : list Z) (s s' : Strings)
    (f f' : Flags) :
  ParseParameters_argument x (s, f) = Some (s', f') ->
  ParamPort s' = (if names 0x70 x then drop 3 x else ParamPort s) /\
  ParamBytes s' = (if names 0x6e x then Some (drop 3 x) else ParamBytes s).
Proof.
  intros Hx. unfold ParseParameters_argument in Hx. unfold names.
  destruct (Z.eqb_spec (byte_at x 0) 0x2d) as [E0|]; [|discriminate].
  cbn [negb andb] in *.
  destruct (takes_argument (byte_at x 1)) eqn:Et.
  - destruct (3 <? strlen x) eqn:El.
    + destruct (byte_at x 2 =? 0x3d); [|discriminate].
      injection Hx as <- <-. unfold set_param.
      repeat match goal with
             | |- context [byte_at x 1 =? ?k] =>
                 destruct (Z.eqb_spec (byte_at x 1) k) as [E|]; [rewrite E in *|]
             end; cbn; split; reflexivity.
    + destruct (Z.eqb_spec (byte_at x 1) 0x67) as [E|]; [|discriminate].
      destruct (strlen x =? 2); [|discriminate].
      injection Hx as <- <-. rewrite E. cbn. split; reflexivity.
  - destruct (set_switch (byte_at x 1) f) as [f1|] eqn:Es; [|discriminate].
    injection Hx as <- <-. unfold takes_argument in Et.
    repeat match goal with
           | |- context [byte_at x 1 =? ?k] =>
               destruct (Z.eqb_spec (byte_at x 1) k) as [E|]; [rewrite E in *|]
           end; cbn in *; try discriminate; split; reflexivity.
Qed.

(** Arguments in order leave a port under [/dev/] and a byte count
    other than 0, if any. *)
Lemma ParseParameters_loop_in_order (args : list (list Z)) :
  forall (s s' : Strings) (f f' : Flags),
    ParseParameters_loop args (s, f) = (s', f', None) ->
    forallb in_order args = true ->
    is_device (ParamPort s) = true ->
    (is_NULL (ParamBytes s) = false -> NumericValue (ParamBytes s) <> 0) ->
    is_device (ParamPort s') = true /\
    (is_NULL (ParamBytes s') = false -> NumericValue (ParamBytes s') <> 0).
Proof.
  induction args as [|x args IH]; intros s s' f f' Hl Hall Hport Hcount.
  - cbn in Hl. injection Hl as <- <-. split; assumption.
  - cbn [ParseParameters_loop] in Hl.
    destruct (ParseParameters_argument x (s, f)) as [[s1 f1]|] eqn:Ex;
      [|discriminate].
    cbn [forallb] in Hall. apply andb_prop in Hall as [Hx Hall].
    unfold in_order in Hx. apply andb_prop in Hx as [Hx Hc].
    apply andb_prop in Hx as [_ Hp].
    destruct (ParseParameters_argument_values _ _ _ _ _ Ex) as [Ep Eb].
    apply (IH _ _ _ _ Hl Hall).
    + rewrite Ep. unfold port_in_order in Hp.
      destruct (names 0x70 x); [exact Hp | exact Hport].
    + rewrite Eb. unfold count_in_order in Hc.
      destruct (names 0x6e x); [|exact Hcount].
      intros _. cbn in Hc. apply negb_true_iff, Z.eqb_neq in Hc. exact Hc.
Qed.

Lemma forallb_in_order_well_formed (args : list (list Z)) :
  forallb in_order args = true ->
  Forall (fun x => well_formed x = true) args.
Proof.
  intros Hall. apply Forall_forall. intros x Hin.
  rewrite forallb_forall in Hall. apply list_elem_of_In, Hall in Hin.
  unfold in_order in Hin. apply andb_prop in Hin as [Hin _].
  apply andb_prop in Hin as [Hin _]. exact Hin.
Qed.

(** [ParseParameters] accepts every command line whose arguments are in
    order, unless it names [-r] or [-s] without [-f], or both [-r] and
    [-s]. *)
Lemma ParseParameters_accepts_in_order (argv : list (list Z)) :
  forallb in_order (drop 1 argv) = true ->
  (has_option 0x72 argv || has_option 0x73 argv)
    && negb (has_option 0x66 argv) = false ->
  has_option 0x72 argv && has_option 0x73 argv = false ->
  exists (g : Globals) (msgs : list Diagnostic),
    ParseParameters argv defaults = (true, g, msgs).
Proof.
  intros Hall Hfile Hboth. unfold ParseParameters.
  pose proof (proj1 (ParseParameters_loop_well_formed (drop 1 argv)
                       (strings defaults, flags defaults))
                (forallb_in_order_well_formed _ Hall)) as Hnone.
  destruct (ParseParameters_loop (drop 1 argv)
              (strings defaults, flags defaults)) as [[s f] bad] eqn:Hl.
  cbn in Hnone. subst bad.
  destruct (ParseParameters_loop_options _ _ _ _ _ Hl) as (Hflag & Hf & _).
  destruct (ParseParameters_loop_in_order _ _ _ _ _ Hl Hall eq_refl)
    as [Hport Hcount]; [discriminate|].
  pose proof (Hflag 0x72 eq_refl) as Fr. pose proof (Hflag 0x73 eq_refl) as Fs.
  cbn in Fr, Fs, Hf. unfold has_option in *.
  rewrite Hport, Fr, Fs, Hf, Hfile, Hboth. cbn [negb].
  destruct (is_NULL (ParamBytes s)) eqn:Eb; [eauto|].
  destruct (Z.eqb_spec (NumericValue (ParamBytes s)) 0) as [E|_];
    [destruct (Hcount eq_refl E)|].
  cbn [negb]. eauto.
Qed.

End AcceptFacts.

Section ReturnFacts.

Context {T : Type} `{Transport T}.

(** After a failure the last block sends nothing: without [-i] it
    leaves the run as it is, and with [-i] the terminal changes the line
    only. *)
Lemma main_go_failed (p : Params) (cycles fuel : nat) (r : Run T) :
  run_Success r = false ->
  (FlagInteractive p = false -> main_go p cycles fuel r = Some r) /\
  (forall r' : Run T,
     main_go p cycles fuel r = Some r' -> exists t : T, r' = set_line t r).
Proof.
  intros Hfail. unfold main_go. rewrite Hfail. split.
  - intros ->. destruct (AddrGo p); reflexivity.
  - intros r'. destruct (FlagInteractive p).
    + destruct (TerminalEmulator (AddrGo p) cycles fuel (run_line r))
        as [[k t]|]; [|discriminate].
      intros E. injection E as <-. exists t. reflexivity.
    + intros E. exists (run_line r).
      destruct (AddrGo p); injection E as <-; destruct r; reflexivity.
Qed.

End ReturnFacts.

(** X8.  A receive or a dump needs the byte count, but [ParseParameters]
    only warns when [-n] is missing.  Take a command line whose
    arguments are in order, that names [-r] or [-d] (and [-f] if it names
    [-r]) and none of [-n], [-s] and [-v]: it is accepted with the
    warning, so that the port is opened and the handshake is sent, and
    whenever [main] returns, it returns with exit code 1 without having
    read or saved a single byte; it does return unless [-i] starts the
    terminal. *)
Theorem main_argv_count_required {T : Type} `{Transport T}
    (argv : list (list Z)) (t : T) (e : Env) (cycles fuel : nat) :
  forallb in_order (drop 1 argv) = true ->
  has_option 0x72 argv || has_option 0x64 argv = true ->
  negb (has_option 0x72 argv) || has_option 0x66 argv = true ->
  has_option 0x6e argv = false ->
  has_option 0x73 argv = false ->
  has_option 0x76 argv = false ->
  exists (g : CommandLine.Globals) (msgs : list CommandLine.Diagnostic),
    CommandLine.ParseParameters argv CommandLine.defaults = (true, g, msgs) /\
    CommandLine.RequireN ∈ msgs /\
    (forall (code : Z) (r : option (Run T)),
       main_argv argv (Some t) e cycles fuel = Some (code, r) ->
       code = 1 /\
       exists run : Run T,
         r = Some run /\ run_Success run = false /\
         MemoryCount (run_Memory run) = 0 /\ run_saved run = None) /\
    (has_option 0x69 argv = false ->
     exists run : Run T,
       main_argv argv (Some t) e cycles fuel = Some (1, Some run) /\
       run_Success run = false /\
       MemoryCount (run_Memory run) = 0 /\ run_saved run = None).
Proof.
  intros Hall Hrd Hrf Hn Hs Hv.
  destruct (ParseParameters_accepts_in_order argv Hall) as (g & msgs & Hok).
  { rewrite Hs, orb_false_r.
    destruct (has_option 0x72 argv), (has_option 0x66 argv);
      cbn in *; congruence. }
  { rewrite Hs. apply andb_false_r. }
  exists g, msgs. split; [exact Hok|].
  destruct (ParseParameters_accepts _ _ _ _ Hok)
    as (Hl & _ & _ & _ & Hbytes & _ & _ & _ & Hwarn).
  destruct (ParseParameters_loop_options _ _ _ _ _ Hl) as (Hflag & _ & Hb & _).
  pose proof (Hflag 0x72 eq_refl) as Fr. pose proof (Hflag 0x64 eq_refl) as Fd.
  pose proof (Hflag 0x73 eq_refl) as Fs. pose proof (Hflag 0x76 eq_refl) as Fv.
  pose proof (Hflag 0x69 eq_refl) as Fi.
  cbn in Fr, Fd, Fs, Fv, Fi, Hb. unfold has_option in *.
  rewrite Hn in Hb. rewrite Hs in Fs. rewrite Hv in Fv.
  cbn in Hb. specialize (Hbytes Hb). cbn in Hbytes.
  split; [apply Hwarn; rewrite Fr, Fd, Hrd, Hb; reflexivity|].
  assert (Hargc : (1 <? Z.of_nat (length argv)) = true).
  { destruct argv as [|a [|b argv]]; cbn in Hrd; try discriminate.
    apply Z.ltb_lt. cbn [length]. lia. }
  destruct (main_transfer_without_count (Params_of g) e t)
    as (r1 & Ht & Hfail & Hmem & Hsaved & _);
    [exact Fs | exact Fv | cbn; rewrite Fr, Fd; exact Hrd |].
  destruct (main_go_failed (Params_of g) cycles fuel r1 Hfail) as [Hret Hgo].
  unfold main_argv, main. rewrite Hargc, Hok, Hbytes, Ht.
  cbn [mbind option_bind]. split.
  - intros code r Hmain.
    destruct (main_go (Params_of g) cycles fuel r1) as [r2|] eqn:Hgo2;
      [|discriminate].
    destruct (Hgo r2 eq_refl) as (t2 & ->).
    cbn [mbind option_bind run_Success set_line] in Hmain.
    rewrite Hfail in Hmain. injection Hmain as <- <-.
    split; [reflexivity|]. eexists. split; [reflexivity|].
    cbn [run_Success run_Memory run_saved set_line].
    rewrite Hfail, Hmem, Hsaved. auto.
  - intros Hi. rewrite Hret by (cbn; rewrite Fi; exact Hi).
    cbn [mbind option_bind]. rewrite Hfail. exists r1.
    rewrite Hmem. auto.
Qed.

Lemma main_argv_count_required_witness :
  exists run : Run Sim,
    main_argv (map arg ["sam9boot"; "-p=/dev/ttyS0"; "-d"]%string)
      (Some Sim_idle) (env_with None) 0 0 = Some (1, Some run) /\
    run_Success run = false /\
    MemoryCount (run_Memory run) = 0 /\ run_saved run = None.
Proof.
  destruct (main_argv_count_required
              (map arg ["sam9boot"; "-p=/dev/ttyS0"; "-d"]%string)
              Sim_idle (env_with None) 0 0
              eq_refl eq_refl eq_refl eq_refl eq_refl eq_refl)
    as (g & msgs & _ & _ & _ & Hret).
  exact (Hret eq_refl).
Defined.

(** X9.  A usage error is not reported in the exit code: when some
    argument is not well formed, [main] does not open the port and
    returns 0, as it does when no argument is given at all or when the
    port cannot be opened. *)
Theorem main_argv_usage_error_exits_zero {T : Type} `{Transport T}
    (argv : list (list Z)) (port : option T) (e : Env) (cycles fuel : nat) :
  (exists x, x ∈ drop 1 argv /\ well_formed x = false) \/
  (length argv <= 1)%nat \/ port = None ->
  main_argv argv port e cycles fuel = Some (0, None).
Proof.
  intros Hbad. unfold main_argv.
  destruct (1 <? Z.of_nat (length argv)) eqn:Hargc; [|reflexivity].
  destruct (CommandLine.ParseParameters argv CommandLine.defaults)
    as [[ok g] msgs] eqn:Hp.
  destruct ok; [|reflexivity]. destruct port as [t|]; [|reflexivity].
  exfalso. destruct Hbad as [(x & Hin & Hx) | [Hlen | Hport]].
  - destruct (ParseParameters_accepts _ _ _ _ Hp) as (Hl & _).
    pose proof (ParseParameters_loop_accepted (drop 1 argv)
                  (CommandLine.strings CommandLine.defaults,
                   CommandLine.flags CommandLine.defaults)) as Hall.
    rewrite Hl in Hall. specialize (Hall eq_refl).
    rewrite Forall_forall in Hall. specialize (Hall x Hin). congruence.
  - rewrite Z.ltb_lt in Hargc. lia.
  - discriminate.
Qed.

Lemma main_argv_usage_error_exits_zero_witness :
  main_argv (map arg ["sam9boot"; "-q"; "image.bin"]%string) (Some Sim_idle)
    (env_with None) 0 0 = Some (0, None).
Proof.
  apply main_argv_usage_error_exits_zero. left.
  exists (arg "image.bin"). split; [|reflexivity].
  cbn. apply elem_of_cons. right. apply elem_of_cons. left. reflexivity.
Defined.

(** ** The block that a download leaves *)

Lemma LoadMemory_store_tail (k : nat) :
  forall (V : Z) (m : Memory),
    0 <= MemoryCount m -> MemoryCount m + Z.of_nat k < 2 ^ 32 ->
    drop (Z.to_nat (MemoryCount m) + k)
      (MemoryBuffer (LoadMemory_store k V m)) =
    drop (Z.to_nat (MemoryCount m) + k) (MemoryBuffer m).
Proof.
  induction k as [|k IH]; intros V m H0 Hfit; cbn [LoadMemory_store];
    [reflexivity|].
  assert (Hw : wrap32 (MemoryCount m + 1) = MemoryCount m + 1)
    by (apply wrap32_small; lia).
  specialize (IH (Z.shiftr V 8)
                {| MemoryCount := wrap32 (MemoryCount m + 1);
                   MemoryBuffer :=
                     <[Z.to_nat (MemoryCount m) := Z.land V 255]>
                       (MemoryBuffer m) |}).
  cbn [MemoryCount MemoryBuffer] in IH. rewrite Hw in IH.
  replace (Z.to_nat (MemoryCount m + 1) + k)%nat
    with (Z.to_nat (MemoryCount m) + S k)%nat in IH by lia.
  rewrite Hw, IH by lia. apply drop_insert_lt. lia.
Qed.

Section PrefixFacts.

Context {T : Type} `{Transport T}.

(** The loop of [LoadMemory] keeps the received bytes in front of the
    zeros that [calloc] left, and tells by its exit whether all of them
    came. *)
Lemma LoadMemory_loop_prefix (Count : Z) (fuel : nat) :
  Count < 2 ^ 32 ->
  forall (s : Cursor * Memory * T) (r : LoopExit * Memory * T),
    image_ok Count s.1.1 s.1.2 ->
    drop (Z.to_nat (MemoryCount s.1.2)) (MemoryBuffer s.1.2) =
      replicate (Z.to_nat (Count - MemoryCount s.1.2)) 0 ->
    LoadMemory_loop fuel Count s = Some r ->
    exists c',
      image_ok Count c' r.1.2 /\
      drop (Z.to_nat (MemoryCount r.1.2)) (MemoryBuffer r.1.2) =
        replicate (Z.to_nat (Count - MemoryCount r.1.2)) 0 /\
      (r.1.1 = LoopDone -> Length c' = Count) /\
      (r.1.1 = LoopUnresponsive -> Length c' < Count).
Proof.
  intros HC. induction fuel as [|fuel IH]; intros [[c m] t] r Hok Hz Hloop;
    cbn [fst snd] in *; cbn [LoadMemory_loop fst snd] in Hloop;
    destruct (Z.ltb_spec (Length c) Count) as [Hlt|Hge]; try discriminate.
  - injection Hloop as <-. exists c. cbn [fst snd].
    pose proof Hok as (((? & ?) & _) & _).
    split; [exact Hok|]. split; [exact Hz|]. split; [intros _; lia|discriminate].
  - unfold LoadMemory_iter in Hloop.
    destruct (LoadMemory_exchange c t) as [resp t'].
    destruct (ResponseCount resp =? 0).
    + injection Hloop as <-. exists c. cbn [fst snd].
      split; [exact Hok|]. split; [exact Hz|].
      split; [discriminate|intros _; exact Hlt].
    + apply IH in Hloop; [exact Hloop| |]; cbn [fst snd];
        destruct Hok as (Hpol & Hcount & Hlen & Hbytes);
        destruct (LoadMemory_advance_policy Count c HC Hpol Hlt) as [HL Hpol'];
        pose proof (chunk_policy_width Count c Hpol) as Hw;
        pose proof (proj1 Hpol') as Hnext; rewrite HL in Hnext;
        destruct Hpol as ((H0 & Hle) & _);
        assert (Hk : Z.of_nat (Z.to_nat (Chunk c)) = Chunk c)
          by (destruct Hw as [E|E]; rewrite E; reflexivity).
      * split; [exact Hpol'|]. split; [|split].
        -- rewrite LoadMemory_store_count by (rewrite ?Hk; lia). lia.
        -- rewrite LoadMemory_store_length. exact Hlen.
        -- apply LoadMemory_store_bytes, Hbytes.
      * rewrite LoadMemory_store_count by (rewrite ?Hk; lia).
        replace (Z.to_nat (MemoryCount m + Z.of_nat (Z.to_nat (Chunk c))))
          with (Z.to_nat (MemoryCount m) + Z.to_nat (Chunk c))%nat by lia.
        rewrite LoadMemory_store_tail by (rewrite ?Hk; lia).
        rewrite <- drop_drop, Hz, drop_replicate. f_equal. lia.
  - injection Hloop as <-. exists c. cbn [fst snd].
    pose proof Hok as (((? & ?) & _) & _).
    split; [exact Hok|]. split; [exact Hz|]. split; [intros _; lia|discriminate].
Qed.

(** X10.  In the call that [main] makes ([Count = ValueBytes], nothing
    downloaded before), [LoadMemory] never gives the length-mismatch
    diagnostic, for any behaviour of the target: it returns [true]
    exactly when [MemoryCount] reached [Count], and otherwise the target
    fell silent (or [calloc] failed) with fewer than [Count] bytes
    received.  In every case the block holds the received bytes in
    front, each of them a byte value, and the zeros of [calloc] behind
    them. *)
Theorem LoadMemory_never_length_mismatch (m m' : Memory) (calloc_ok : bool)
    (StartAddress Count : Z) (t t' : T) (err : option LoadMemoryError) :
  0 <= Count < 2 ^ 32 -> MemoryCount m = 0 ->
  LoadMemory Count m calloc_ok StartAddress Count t = Some (err, m', t') ->
  err <> Some ErrLengthMismatch /\
  0 <= MemoryCount m' <= Count /\
  (calloc_ok = true ->
   (err = None <-> MemoryCount m' = Count) /\
   (err = Some ErrTargetUnresponsive <-> MemoryCount m' < Count) /\
   length (MemoryBuffer m') = Z.to_nat Count /\
   Forall is_byte (MemoryBuffer m') /\
   drop (Z.to_nat (MemoryCount m')) (MemoryBuffer m') =
     replicate (Z.to_nat (Count - MemoryCount m')) 0).
Proof.
  intros HC Hm. unfold LoadMemory. destruct calloc_ok.
  2:{ intros [= <- <- _]. cbn. rewrite Hm.
      split; [discriminate|]. split; [lia|]. discriminate. }
  destruct (LoadMemory_loop _ _ _) as [[[ex m1] t1]|] eqn:Hloop;
    [|discriminate].
  apply LoadMemory_loop_prefix in Hloop
    as (c' & (Hpol & Hcount & Hlen & Hbytes) & Hz & Hdone & Hsilent); [|lia| |].
  - cbn [fst snd] in *. destruct Hpol as ((H0 & Hle) & _).
    destruct ex.
    + specialize (Hdone eq_refl).
      destruct (Z.eqb_spec (MemoryCount m1) Count) as [E|NE]; [|lia].
      intros [= <- <- _]. split; [discriminate|]. split; [lia|]. intros _.
      repeat split; try assumption; try discriminate; try lia; auto.
    + specialize (Hsilent eq_refl).
      intros [= <- <- _]. split; [discriminate|]. split; [lia|]. intros _.
      repeat split; try assumption; try discriminate; try lia; auto.
  - unfold LoadMemory_start, image_ok.
    cbn [fst snd MemoryCount MemoryBuffer Length].
    split; [apply first_chunk_policy; lia|]. split; [exact Hm|].
    split; [apply length_replicate|]. apply Forall_replicate.
    unfold is_byte. lia.
  - unfold LoadMemory_start. cbn [fst snd MemoryCount MemoryBuffer].
    rewrite Hm, drop_0, Z.sub_0_r. reflexivity.
Qed.

End PrefixFacts.

Lemma LoadMemory_never_length_mismatch_witness :
  exists (err : option LoadMemoryError) (m' : Memory) (s' : Sim),
    LoadMemory 6 {| MemoryCount := 0; MemoryBuffer := [] |} true 0x300000 6
      (Sim_silent_at [0x300004]) = Some (err, m', s') /\
    err <> Some ErrLengthMismatch /\ 0 <= MemoryCount m' <= 6.
Proof.
  destruct (LoadMemory 6 {| MemoryCount := 0; MemoryBuffer := [] |} true
              0x300000 6 (Sim_silent_at [0x300004]))
    as [[[err m'] s']|] eqn:E; [|vm_compute in E; discriminate].
  pose proof (LoadMemory_never_length_mismatch
                {| MemoryCount := 0; MemoryBuffer := [] |} m' true 0x300000 6
                (Sim_silent_at [0x300004]) s' err
                ltac:(lia) eq_refl E) as (Hne & Hcount & _).
  exists err, m', s'. split; [reflexivity|]. split; assumption.
Defined.

(** ** GetResponse: the value in the middle of a burst *)

Lemma GetResponse_scan_skip (pre : list Z) :
  Forall (fun c => c <> 0x30) pre ->
  forall (V : Z) (rest : list Z),
    GetResponse_scan 0 V (pre ++ rest) = GetResponse_scan 0 V rest.
Proof.
  induction 1 as [|c pre Hc _ IH]; intros V rest; [reflexivity|].
  cbn [app GetResponse_scan Z.eqb].
  destruct (Z.eqb_spec c 0x30); [contradiction|]. apply IH.
Qed.

(** X11.  [GetResponse] returns the value that the target printed:
    when the captured burst holds [0x] and two or more hexadecimal
    digits (of either case) of a 32-bit value, after any text that holds
    no ['0'] and before any character that is not a hexadecimal digit,
    the value returned is that value, whatever follows. *)
Theorem GetResponse_decodes_value {T : Type} `{Transport T}
    (fd : FileNumber) (t : T) (pre post : list Z) (u : bool) (p : nat)
    (v c : Z) :
  Forall (fun x => x <> 0x30) pre -> (2 <= p)%nat -> 0 <= v < 2 ^ 32 ->
  is_hex c = false ->
  Captured (GetResponse fd t).1 =
    pre ++ [0x30; 0x78] ++ printf_X u p v ++ c :: post ->
  Value (GetResponse fd t).1 = v.
Proof.
  intros Hpre Hp Hv Hc. unfold GetResponse.
  destruct (GetResponse_capture fd 30 [] t) as [burst t'].
  cbn [fst Captured Value]. intros ->.
  rewrite GetResponse_scan_skip by exact Hpre.
  pose proof (printf_X_is_hex u p v (proj1 Hv)) as Hhex.
  pose proof (printf_X_length u p v) as Hlen.
  assert (Hnone : hexval c = None)
    by (unfold is_hex in Hc; destruct (hexval c); [discriminate|reflexivity]).
  pose proof (hex_accum_printf_X u p v c post Hv Hnone) as Hacc.
  destruct (printf_X u p v) as [|c0 [|c1 ds]]; cbn [length] in Hlen; try lia.
  apply Forall_cons in Hhex as [Hc0 Hhex]. apply Forall_cons in Hhex as [Hc1 _].
  pose proof (is_hex_range c1 Hc1).
  cbn [app GetResponse_scan Z.eqb Pos.eqb].
  rewrite GetResponse_scan_done.
  rewrite sscanf_X_digits by (assumption || lia). cbn [app] in Hacc.
  rewrite Hacc. apply scanf_unsigned_small, Hv.
Qed.

Lemma GetResponse_decodes_value_witness :
  Value (GetResponse FileNumberSam9
           (Sim_with (bytes_of_string "id: 0x1981A7CF>") [])).1 = 0x1981a7cf.
Proof.
  apply (GetResponse_decodes_value FileNumberSam9 _
           (bytes_of_string "id: ") [] true 8 0x1981a7cf 0x3e).
  - repeat constructor; cbn; lia.
  - lia.
  - lia.
  - reflexivity.
  - reflexivity.
Defined.

(** ** The commands on the wire *)

(** [GetResponse] takes bytes from the simulated target and changes
    nothing else of it. *)
Lemma Sim_GetResponse_state (s : Sim) :
  (GetResponse FileNumberSam9 s).2 = Sim_set_to_host (drop 30 (to_host s)) s /\
  ResponseCount (GetResponse FileNumberSam9 s).1 =
    Z.of_nat (length (take 30 (to_host s))).
Proof.
  unfold GetResponse. rewrite Sim_capture. cbn.
  rewrite length_map. auto.
Qed.

Lemma Sim_reply_length (s : Sim) (c : Command) :
  (length (Sim_reply s c) <= 30)%nat.
Proof.
  unfold Sim_reply, prompt.
  destruct c; try (cbn [length]; lia);
    destruct (bool_decide (a ∈ mute s)); try (cbn [length]; lia);
    rewrite !length_app; cbn [length].
  - pose proof (printf_X_length true 2 (default 0 (regs s !! a))). lia.
  - pose proof (printf_X_length true 8 (default 0 (regs s !! a))). lia.
Qed.

(** One command and the response to it, on a target with nothing under
    way: the whole reply is taken. *)
Lemma Sim_command (c : Command) (s : Sim) :
  to_host s = [] ->
  let r := GetResponse FileNumberSam9 (fprintf c s) in
  r.2 = Sim_set_to_host [] (Sim_fprintf c s) /\
  ResponseCount r.1 = Z.of_nat (length (Sim_reply s c)).
Proof.
  intros Hidle r. subst r.
  destruct (Sim_GetResponse_state (fprintf c s)) as [Hs Hr].
  pose proof (Sim_reply_length s c) as Hlen.
  cbn [fprintf Sim_transport] in *.
  assert (Hto : to_host (Sim_fprintf c s) = Sim_reply s c)
    by (cbn; rewrite Hidle; reflexivity).
  rewrite Hto in Hs, Hr.
  rewrite drop_ge in Hs by exact Hlen. rewrite take_ge in Hr by exact Hlen.
  auto.
Qed.

(** One iteration of the send loop on the simulated target, whatever
    is under way from it. *)
Lemma Sim_send_iter_command (n : Z) (FileBuffer : list Z) (c : Cursor)
    (s : Sim) :
  n < 2 ^ 32 -> chunk_policy n c -> Length c < n ->
  exists s' : Sim,
    send_iter n FileBuffer (c, s) = (LoadMemory_advance n c, s') /\
    commands s' = commands s ++ [write_command FileBuffer c].
Proof.
  intros Hn Hpol Hlt.
  pose proof (send_iter_cursor n FileBuffer c s Hn Hpol Hlt) as Hc.
  pose proof (chunk_policy_width n c Hpol) as Hw.
  destruct (send_iter n FileBuffer (c, s)) as [c' s'] eqn:Hiter.
  cbn [fst] in Hc. subst c'. exists s'. split; [reflexivity|].
  unfold send_iter, write_command, chunk_value in *.
  destruct (send_pack FileBuffer (Z.to_nat (Chunk c)) 0 (Length c) 0)
    as [V L'].
  set (s1 := if Chunk c =? 1 then _ else _) in Hiter.
  destruct (Sim_GetResponse_state s1) as [Hs _].
  destruct (GetResponse FileNumberSam9 s1) as [resp s2].
  cbn [snd] in Hs. apply (f_equal snd) in Hiter. cbn [snd] in Hiter.
  subst s' s2 s1. cbn [fst].
  destruct Hw as [E|E]; rewrite E; reflexivity.
Qed.

(** The value of a chunk, read off the bytes. *)
Lemma chunk_value_bytes (bytes : list Z) (c : Cursor) :
  Forall is_byte bytes -> Z.of_nat (length bytes) < 2 ^ 32 ->
  chunk_policy (Z.of_nat (length bytes)) c ->
  Length c < Z.of_nat (length bytes) ->
  (Chunk c = 4 /\
   exists b0 b1 b2 b3,
     drop (Z.to_nat (Length c)) bytes =
       b0 :: b1 :: b2 :: b3 :: drop (Z.to_nat (Length c + 4)) bytes /\
     chunk_value bytes c = word_of b0 b1 b2 b3) \/
  (Chunk c = 1 /\
   (length (drop (Z.to_nat (Length c)) bytes) < 4)%nat /\
   exists b0,
     drop (Z.to_nat (Length c)) bytes =
       b0 :: drop (Z.to_nat (Length c + 1)) bytes /\
     chunk_value bytes c = b0).
Proof.
  intros Hbytes Hfit Hpol Hlt.
  destruct Hpol as ((H0 & Hle) & H4 & H1). unfold chunk_value.
  assert (HL : exists L : nat, Length c = Z.of_nat L)
    by (exists (Z.to_nat (Length c)); lia).
  destruct HL as [L HL]. rewrite HL in *. rewrite Nat2Z.id in *.
  destruct (Z.lt_ge_cases (Z.of_nat (length bytes) - Z.of_nat L) 4)
    as [Hshort|Hlong].
  - right. rewrite (H1 Hshort). split; [reflexivity|].
    split; [rewrite length_drop; lia|].
    destruct (bytes_lookup bytes Hbytes L) as (b0 & Hb0 & Ht0 & Hy0); [lia|].
    exists b0. split.
    + rewrite (drop_S _ _ _ Hb0). do 2 f_equal. lia.
    + change (Z.to_nat 1) with 1%nat. cbn [send_pack fst].
      rewrite Ht0. apply pack_byte, Hy0.
  - left. rewrite (H4 Hlong). split; [reflexivity|].
    destruct (bytes_lookup bytes Hbytes L) as (b0 & Hb0 & Ht0 & Hy0); [lia|].
    destruct (bytes_lookup bytes Hbytes (S L)) as (b1 & Hb1 & Ht1 & Hy1);
      [lia|].
    destruct (bytes_lookup bytes Hbytes (S (S L))) as (b2 & Hb2 & Ht2 & Hy2);
      [lia|].
    destruct (bytes_lookup bytes Hbytes (S (S (S L))))
      as (b3 & Hb3 & Ht3 & Hy3); [lia|].
    exists b0, b1, b2, b3. split.
    + rewrite (drop_S _ _ _ Hb0), (drop_S _ _ _ Hb1), (drop_S _ _ _ Hb2),
        (drop_S _ _ _ Hb3). do 5 f_equal. lia.
    + assert (E1 : wrap32 (Z.of_nat L + 1) = Z.of_nat (S L))
        by (rewrite wrap32_small; lia).
      assert (E2 : wrap32 (Z.of_nat (S L) + 1) = Z.of_nat (S (S L)))
        by (rewrite wrap32_small; lia).
      assert (E3 : wrap32 (Z.of_nat (S (S L)) + 1) = Z.of_nat (S (S (S L))))
        by (rewrite wrap32_small; lia).
      change (Z.to_nat 4) with 4%nat. cbn [send_pack fst].
      rewrite E1, E2, E3, Ht0, Ht1, Ht2, Ht3.
      apply pack_word; assumption.
Qed.

Lemma send_commands_short (a : Z) (bytes : list Z) :
  (length bytes < 4)%nat -> send_commands a bytes = byte_writes a bytes.
Proof.
  destruct bytes as [|b0 [|b1 [|b2 [|b3 rest]]]]; cbn; try reflexivity; lia.
Qed.

Section WireFacts.

Variable bytes : list Z.
Local Abbreviation n := (Z.of_nat (length bytes)).
Hypothesis bytes_fit : n < 2 ^ 32.
Hypothesis bytes_are_bytes : Forall is_byte bytes.

Lemma Sim_send_loop_commands (fuel : nat) :
  forall (c : Cursor) (s : Sim),
    chunk_policy n c -> n - Length c <= Z.of_nat fuel ->
    exists (c' : Cursor) (s' : Sim),
      send_loop fuel n bytes (c, s) = Some (c', s') /\
      commands s' =
        commands s ++
        send_commands (Address c) (drop (Z.to_nat (Length c)) bytes).
Proof.
  induction fuel as [|fuel IH]; intros c s Hpol Hfuel;
    cbn [send_loop fst]; destruct (Z.ltb_spec (Length c) n) as [Hlt|Hge];
    try lia.
  - exists c, s. split; [reflexivity|].
    rewrite drop_ge by lia. cbn. rewrite app_nil_r. reflexivity.
  - destruct (Sim_send_iter_command n bytes c s bytes_fit Hpol Hlt)
      as (s1 & Hiter & Hcmd).
    destruct (LoadMemory_advance_policy n c bytes_fit Hpol Hlt) as [HL Hpol'].
    rewrite Hiter.
    destruct (IH (LoadMemory_advance n c) s1 Hpol' ltac:(
                pose proof (chunk_policy_width n c Hpol); lia))
      as (c' & s' & Hloop & Hcmds).
    exists c', s'. split; [exact Hloop|].
    rewrite Hcmds, Hcmd, <- app_assoc. f_equal. rewrite HL.
    cbn [LoadMemory_advance Address]. unfold write_command.
    destruct (chunk_value_bytes bytes c bytes_are_bytes bytes_fit Hpol Hlt)
      as [(E & b0 & b1 & b2 & b3 & Hd & Hv) | (E & Hshort & b0 & Hd & Hv)];
      rewrite E, Hd, Hv.
    + reflexivity.
    + rewrite Hd in Hshort. cbn [length] in Hshort.
      rewrite (send_commands_short _ (b0 :: _)) by (cbn [length]; lia).
      rewrite (send_commands_short _ (drop _ _)) by lia.
      reflexivity.
  - exists c, s. split; [reflexivity|].
    destruct Hpol as ((? & ?) & _).
    rewrite drop_ge by lia. cbn. rewrite app_nil_r. reflexivity.
Qed.

End WireFacts.

(** X12.  The send loop puts on the wire one word write for each four
    bytes of the file, the first byte in the low bits, at the addresses
    from [ValueAddrStart] up in steps of 4, then one byte write for each
    of the one to three bytes that are left, and nothing else; a file of
    fewer than four bytes goes out in byte writes only. *)
Theorem send_wire_commands (bytes : list Z) (start : Z) (s : Sim) :
  Forall is_byte bytes -> Z.of_nat (length bytes) < 2 ^ 32 ->
  exists (c : Cursor) (s' : Sim),
    send start (Z.of_nat (length bytes)) bytes s = Some (c, s') /\
    commands s' = commands s ++ send_commands start bytes.
Proof.
  intros Hbytes Hfit. unfold send, send_start.
  destruct (Sim_send_loop_commands bytes Hfit Hbytes
              (Z.to_nat (Z.of_nat (length bytes)))
              {| Address := start; Length := 0;
                 Chunk := first_chunk (Z.of_nat (length bytes)) |} s)
    as (c & s' & Hloop & Hcmds).
  - apply first_chunk_policy. lia.
  - cbn. lia.
  - exists c, s'. split; [exact Hloop|]. exact Hcmds.
Qed.

Lemma send_wire_commands_witness :
  exists (c : Cursor) (s' : Sim),
    send 0x300000 6 [0x01; 0x02; 0x03; 0x80; 0xfe; 0xff] Sim_idle
      = Some (c, s') /\
    commands s' =
      [CmdWriteWord 0x300000 0x80030201; CmdWriteByte 0x300004 0xfe;
       CmdWriteByte 0x300005 0xff].
Proof.
  apply (send_wire_commands [0x01; 0x02; 0x03; 0x80; 0xfe; 0xff] 0x300000
           Sim_idle).
  - repeat constructor; unfold is_byte; lia.
  - cbn. lia.
Defined.

(** One exchange of [LoadMemory] with a target that answers: the read
    command goes out and the whole reply is taken. *)
Lemma Sim_exchange_answered (c : Cursor) (s : Sim) :
  Chunk c = 1 \/ Chunk c = 4 ->
  to_host s = [] -> mute s = [] ->
  exists (r : Response) (s' : Sim),
    LoadMemory_exchange c s = (r, s') /\
    ResponseCount r <> 0 /\
    to_host s' = [] /\ mute s' = [] /\ regs s' = regs s /\
    commands s' = commands s ++ [read_command c].
Proof.
  intros Hw Hidle Hmute. unfold LoadMemory_exchange, read_command.
  assert (Hcmd : (if Chunk c =? 1 then fprintf (CmdReadByte (Address c)) s
                  else if Chunk c =? 4 then fprintf (CmdReadWord (Address c)) s
                  else s) =
                 fprintf (if Chunk c =? 1 then CmdReadByte (Address c)
                          else CmdReadWord (Address c)) s)
    by (destruct Hw as [E|E]; rewrite E; reflexivity).
  rewrite Hcmd. set (cmd := if Chunk c =? 1 then _ else _).
  destruct (Sim_command cmd s Hidle) as [Hs Hr].
  destruct (GetResponse FileNumberSam9 (fprintf cmd s)) as [r s'].
  cbn [fst snd] in Hs, Hr. exists r, s'. split; [reflexivity|].
  subst s'. cbn [Sim_set_to_host Sim_fprintf to_host mute regs commands].
  rewrite Hr.
  assert (Hkind : cmd = CmdReadByte (Address c) \/
                  cmd = CmdReadWord (Address c))
    by (subst cmd; destruct (Chunk c =? 1); auto).
  clearbody cmd. split; [|split; [reflexivity|split; [exact Hmute|]]].
  - destruct Hkind as [-> | ->]; cbn [Sim_reply];
      rewrite Hmute, bool_decide_eq_false_2 by apply not_elem_of_nil;
      cbn [app length]; lia.
  - split; [|reflexivity]. destruct Hkind as [-> | ->]; reflexivity.
Qed.

Lemma read_commands_short (fuel : nat) (a rest : Z) :
  rest < 4 -> rest <= Z.of_nat fuel ->
  read_commands fuel a rest = byte_reads (Z.to_nat rest) a.
Proof.
  intros Hshort Hfuel. destruct fuel as [|fuel]; cbn [read_commands].
  - replace (Z.to_nat rest) with 0%nat by lia. reflexivity.
  - destruct (Z.leb_spec 4 rest); [lia|reflexivity].
Qed.

Lemma Sim_LoadMemory_loop_commands (Count : Z) (fuel : nat) :
  Count < 2 ^ 32 ->
  forall (c : Cursor) (m : Memory) (s : Sim),
    chunk_policy Count c -> Count - Length c <= Z.of_nat fuel ->
    to_host s = [] -> mute s = [] ->
    exists (m' : Memory) (s' : Sim),
      LoadMemory_loop fuel Count (c, m, s) = Some (LoopDone, m', s') /\
      to_host s' = [] /\ mute s' = [] /\ regs s' = regs s /\
      commands s' =
        commands s ++ read_commands fuel (Address c) (Count - Length c).
Proof.
  intros HC. induction fuel as [|fuel IH]; intros c m s Hpol Hfuel Hidle Hmute;
    cbn [LoadMemory_loop fst snd];
    destruct (Z.ltb_spec (Length c) Count) as [Hlt|Hge]; try lia.
  - exists m, s. cbn. rewrite app_nil_r. auto.
  - pose proof (chunk_policy_width Count c Hpol) as Hw.
    destruct (Sim_exchange_answered c s Hw Hidle Hmute)
      as (r & s1 & Hex & Hcount & Hidle1 & Hmute1 & Hregs1 & Hcmd).
    unfold LoadMemory_iter. rewrite Hex.
    destruct (Z.eqb_spec (ResponseCount r) 0); [contradiction|].
    destruct (LoadMemory_advance_policy Count c HC Hpol Hlt) as [HL Hpol'].
    destruct (IH (LoadMemory_advance Count c)
                (LoadMemory_store (Z.to_nat (Chunk c)) (Value r) m) s1
                Hpol' ltac:(lia) Hidle1 Hmute1)
      as (m' & s' & Hloop & Hidle' & Hmute' & Hregs' & Hcmds).
    exists m', s'. split; [exact Hloop|].
    split; [exact Hidle'|]. split; [exact Hmute'|].
    split; [congruence|].
    rewrite Hcmds, Hcmd, <- app_assoc. f_equal. rewrite HL.
    cbn [LoadMemory_advance Address read_commands app]. unfold read_command.
    destruct Hpol as ((H0 & Hle) & H4 & H1).
    destruct (Z.leb_spec 4 (Count - Length c)) as [Hlong|Hshort].
    + rewrite (H4 Hlong). cbn [Z.eqb Pos.eqb]. do 2 f_equal. lia.
    + rewrite (H1 Hshort). cbn [Z.eqb Pos.eqb].
      rewrite read_commands_short by lia.
      replace (Z.to_nat (Count - Length c))
        with (S (Z.to_nat (Count - (Length c + 1)))) by lia.
      reflexivity.
  - exists m, s. destruct Hpol as ((H0 & Hle) & _).
    replace (Count - Length c) with 0 by lia.
    rewrite read_commands_short by lia. cbn. rewrite app_nil_r. auto.
Qed.

(** X13.  From a target that answers every read, [LoadMemory] returns
    [true] having put on the wire one word read for each four bytes, at
    the addresses from [StartAddress] up in steps of 4, then one byte
    read for each of the one to three bytes that are left, and nothing
    else: it writes nothing, so what the target holds is as it was. *)
Theorem LoadMemory_wire_commands (m : Memory) (StartAddress Count : Z)
    (s : Sim) :
  0 <= Count < 2 ^ 32 -> MemoryCount m = 0 ->
  to_host s = [] -> mute s = [] ->
  exists (m' : Memory) (s' : Sim),
    LoadMemory Count m true StartAddress Count s = Some (None, m', s') /\
    commands s' =
      commands s ++ read_commands (Z.to_nat Count) StartAddress Count /\
    regs s' = regs s.
Proof.
  intros HC Hm Hidle Hmute. unfold LoadMemory.
  destruct (Sim_LoadMemory_loop_commands Count (Z.to_nat Count) (proj2 HC)
              {| Address := StartAddress; Length := 0;
                 Chunk := first_chunk Count |}
              {| MemoryCount := MemoryCount m;
                 MemoryBuffer := replicate (Z.to_nat Count) 0 |} s)
    as (m' & s' & Hloop & _ & _ & Hregs & Hcmds);
    [apply first_chunk_policy; lia | cbn; lia | exact Hidle | exact Hmute |].
  unfold LoadMemory_start. rewrite Hloop.
  apply LoadMemory_loop_prefix in Hloop
    as (c' & (_ & Hcount & _) & _ & Hdone & _); [|lia| |].
  2:{ cbn [fst snd]. split; [apply first_chunk_policy; lia|].
      split; [exact Hm|]. split; [apply length_replicate|].
      apply Forall_replicate. unfold is_byte. lia. }
  2:{ cbn [fst snd MemoryCount MemoryBuffer].
      rewrite Hm, drop_0, Z.sub_0_r. reflexivity. }
  cbn [fst snd] in *. rewrite Hcount, (Hdone eq_refl), Z.eqb_refl.
  exists m', s'. split; [reflexivity|]. split; [|exact Hregs].
  rewrite Hcmds. cbn [Address Length]. rewrite Z.sub_0_r. reflexivity.
Qed.

Lemma LoadMemory_wire_commands_witness :
  exists (m' : Memory) (s' : Sim),
    LoadMemory 6 {| MemoryCount := 0; MemoryBuffer := [] |} true 0x300000 6
      Sim_idle = Some (None, m', s') /\
    commands s' =
      [CmdReadWord 0x300000; CmdReadByte 0x300004; CmdReadByte 0x300005] /\
    regs s' = ∅.
Proof.
  apply (LoadMemory_wire_commands {| MemoryCount := 0; MemoryBuffer := [] |}
           0x300000 6 Sim_idle); [lia | reflexivity | reflexivity | reflexivity].
Defined.

(** ** Whole runs against the simulated target *)

Lemma set_line_same {T : Type} (r : Run T) : set_line (run_line r) r = r.
Proof. destruct r; reflexivity. Qed.

(** The handshake with a target that has nothing under way. *)
Lemma Sim_main_handshake (p : Params) (r : Run Sim) :
  to_host (run_line r) = [] ->
  exists s' : Sim,
    main_handshake p r = set_line s' r /\
    to_host s' = [] /\ mute s' = mute (run_line r) /\
    regs s' = regs (run_line r) /\
    commands s' =
      commands (run_line r) ++
      CmdSync :: (if FlagQuiet p then [] else [CmdVersion]).
Proof.
  intros Hidle. unfold main_handshake.
  destruct (Sim_command CmdSync (run_line r) Hidle) as [Hs _].
  destruct (GetResponse FileNumberSam9 (fprintf CmdSync (run_line r)))
    as [? s1].
  cbn [snd] in Hs. subst s1. destruct (FlagQuiet p).
  - eexists. split; [reflexivity|]. cbn. auto.
  - destruct (Sim_command CmdVersion
                (Sim_set_to_host [] (Sim_fprintf CmdSync (run_line r)))
                eq_refl) as [Hs _].
    destruct (GetResponse FileNumberSam9 _) as [? s2].
    cbn [snd] in Hs. subst s2.
    eexists. split; [reflexivity|]. cbn. rewrite <- app_assoc. auto.
Qed.

(** Without [-c] the cpu block does nothing to a target that has
    nothing under way. *)
Lemma Sim_main_cpu_off (p : Params) (r : Run Sim) :
  FlagCpu p = false -> to_host (run_line r) = [] -> main_cpu p r = r.
Proof.
  intros Hc Hidle. unfold main_cpu. rewrite Hc.
  destruct (Sim_GetResponse_state (run_line r)) as [Hs _].
  destruct (GetResponse FileNumberSam9 (run_line r)) as [? s1].
  cbn [snd] in Hs. subst s1. rewrite Hidle. cbn [drop].
  rewrite <- Hidle, Sim_set_to_host_id. apply set_line_same.
Qed.

(** [LoadFile] of a file that holds the bytes asked for. *)
Lemma LoadFile_prefix (content FileBuffer : list Z) (ValueBytes : Z) :
  content <> [] -> Z.of_nat (length content) < 2 ^ 32 ->
  0 <= ValueBytes <= Z.of_nat (length content) ->
  let n := if ValueBytes =? 0 then Z.of_nat (length content)
           else ValueBytes in
  LoadFile (Some content) true ValueBytes FileBuffer =
    (None, n, take (Z.to_nat n) content) /\
  0 < n <= Z.of_nat (length content).
Proof.
  intros Hne Hfit Hn n.
  assert (Hlen : 0 < Z.of_nat (length content))
    by (destruct content; [contradiction|cbn [length]; lia]).
  assert (Hpos : 0 < n <= Z.of_nat (length content))
    by (subst n; destruct (Z.eqb_spec ValueBytes 0); lia).
  split; [|exact Hpos]. unfold LoadFile.
  rewrite wrap32_small by lia.
  destruct (Z.eqb_spec (Z.of_nat (length content)) 0); [lia|].
  fold n. rewrite length_take.
  destruct (Z.eqb_spec (Z.of_nat (Z.to_nat n `min` length content)) n);
    [|lia].
  replace (Z.to_nat n - Z.to_nat n `min` length content)%nat with 0%nat
    by lia.
  cbn [replicate]. rewrite app_nil_r. reflexivity.
Qed.

Lemma verify_same (n : Z) (F : list Z) : 0 < n -> verify n F F = VerifyOk.
Proof.
  intros Hn. unfold verify. destruct (Z.eqb_spec n 0); [lia|].
  assert (Hloop : forall k i, verify_errors (verify_loop F F k i) = []).
  { induction k as [|k IH]; intros i; cbn [verify_loop]; [reflexivity|].
    rewrite Z.eqb_refl. apply IH. }
  rewrite Hloop. reflexivity.
Qed.

Section Runs.

Variable content : list Z.
Variable ValueBytes : Z.
Local Abbreviation n :=
  (if ValueBytes =? 0 then Z.of_nat (length content) else ValueBytes).
Local Abbreviation bytes := (take (Z.to_nat n) content).

Hypothesis content_some : content <> [].
Hypothesis content_bytes : Forall is_byte content.
Hypothesis content_fits : Z.of_nat (length content) < 2 ^ 32.
Hypothesis count_fits : 0 <= ValueBytes <= Z.of_nat (length content).

Lemma bytes_length : Z.of_nat (length bytes) = n /\ 0 < n < 2 ^ 32.
Proof.
  assert (Hlen : 0 < Z.of_nat (length content))
    by (destruct content; [contradiction|cbn [length]; lia]).
  rewrite length_take. destruct (Z.eqb_spec ValueBytes 0); lia.
Qed.

(** The run up to the end of the send block, for [-f -s]. *)
Lemma Sim_main_upload (p : Params) (e : Env) (s0 : Sim) :
  FlagSend p = true -> FlagCpu p = false -> ParamFileName p <> None ->
  file_in e = Some content -> calloc_file e = true ->
  is_bit32 (ValueAddrStart p) -> to_host s0 = [] ->
  exists s1 : Sim,
    main_send p (main_load p e
                   (main_cpu p (main_handshake p (main_init ValueBytes s0))))
      = Some {| run_Success := true; run_ValueBytes := n;
                run_FileBuffer := bytes;
                run_Memory := {| MemoryCount := 0; MemoryBuffer := [] |};
                run_line := s1;
                run_out := [MsgLoaded n; MsgUploaded n];
                run_saved := None |} /\
    to_host s1 = [] /\ mute s1 = mute s0 /\
    commands s1 =
      commands s0 ++
      CmdSync :: (if FlagQuiet p then [] else [CmdVersion]) ++
      send_commands (ValueAddrStart p) bytes /\
    (forall x,
       x ∈ chunks (Z.to_nat n) n
             {| Address := ValueAddrStart p; Length := 0;
                Chunk := first_chunk n |} ->
       regs s1 !! Address x = Some (chunk_value bytes x)).
Proof.
  intros Hsend Hcpu Hname Hfile Hcalloc Hstart Hidle.
  destruct bytes_length as [Hblen Hn].
  destruct (Sim_main_handshake p (main_init ValueBytes s0) Hidle)
    as (sh & -> & Hidle1 & Hmute1 & _ & Hcmd1).
  rewrite Sim_main_cpu_off by assumption.
  unfold main_load. cbn [run_Success set_line main_init andb].
  rewrite Hsend. cbn [orb].
  destruct (ParamFileName p) as [name|]; [|contradiction].
  rewrite Hfile, Hcalloc.
  cbn [run_ValueBytes run_FileBuffer set_line main_init].
  destruct (LoadFile_prefix content [] ValueBytes content_some content_fits
              count_fits) as [-> _].
  unfold main_send.
  cbn [run_Success run_ValueBytes run_FileBuffer run_line run_Memory run_out
       run_saved say set_file set_line main_init andb].
  rewrite Hsend. cbn [andb]. unfold send, send_start.
  assert (Hpol0 : chunk_policy (Z.of_nat (length bytes))
            {| Address := ValueAddrStart p; Length := 0;
               Chunk := first_chunk (Z.of_nat (length bytes)) |})
    by (apply first_chunk_policy; lia).
  assert (Hbytes : Forall is_byte bytes) by (apply Forall_take, content_bytes).
  destruct (Sim_send_loop bytes (ValueAddrStart p) ltac:(lia)
              (Z.to_nat (Z.of_nat (length bytes))) _ sh Hpol0
              ltac:(cbn [Address Length];
                    rewrite Z.add_0_r, wrap32_small; [reflexivity|exact Hstart])
              ltac:(cbn; lia) Hidle1)
    as (c1 & s1 & Hloop & Hidle2 & Hmute2 & Hin & _).
  destruct (Sim_send_loop_commands bytes ltac:(lia) Hbytes
              (Z.to_nat (Z.of_nat (length bytes))) _ sh Hpol0
              ltac:(cbn; lia))
    as (c1' & s1' & Hloop' & Hcmds).
  rewrite Hloop in Hloop'. injection Hloop' as <- <-.
  destruct (send_loop_total (Z.of_nat (length bytes)) bytes
              (Z.to_nat (Z.of_nat (length bytes))) ltac:(lia)
              ({| Address := ValueAddrStart p; Length := 0;
                  Chunk := first_chunk (Z.of_nat (length bytes)) |}, sh)
              Hpol0 ltac:(cbn; lia))
    as (r' & Hloop'' & Hlen).
  rewrite Hloop in Hloop''. injection Hloop'' as <-. cbn [fst] in Hlen.
  rewrite Hblen in *. rewrite Hloop. exists s1.
  split; [|split; [exact Hidle2|split; [rewrite Hmute2, Hmute1; reflexivity|split]]].
  - unfold say, set_line. cbn. rewrite Hlen. reflexivity.
  - rewrite Hcmds, Hcmd1. cbn [Address Length main_init run_line drop].
    rewrite <- app_assoc. reflexivity.
  - exact Hin.
Qed.

End Runs.

(** The download of what an upload stored. *)
Lemma Sim_main_download (bytes : list Z) (p : Params) (e : Env)
    (r : Run Sim) :
  Forall is_byte bytes -> 0 < Z.of_nat (length bytes) < 2 ^ 32 ->
  run_Success r = true ->
  FlagVerify p || FlagReceive p || FlagDump p = true ->
  run_ValueBytes r = Z.of_nat (length bytes) ->
  run_Memory r = {| MemoryCount := 0; MemoryBuffer := [] |} ->
  calloc_memory e = true ->
  to_host (run_line r) = [] -> mute (run_line r) = [] ->
  (forall x,
     x ∈ chunks (Z.to_nat (Z.of_nat (length bytes))) (Z.of_nat (length bytes))
           {| Address := ValueAddrStart p; Length := 0;
              Chunk := first_chunk (Z.of_nat (length bytes)) |} ->
     regs (run_line r) !! Address x = Some (chunk_value bytes x)) ->
  exists s' : Sim,
    main_download p e r =
      Some (say [MsgDownloaded (Z.of_nat (length bytes))]
              (set_memory {| MemoryCount := Z.of_nat (length bytes);
                             MemoryBuffer := bytes |}
                 (set_line s' r))).
Proof.
  intros Hbytes Hn Hok Hflags Hcount Hmem Hcalloc Hidle Hmute Hregs.
  unfold main_download. rewrite Hok, Hflags, Hcount, Hmem, Hcalloc.
  cbn [andb]. destruct (Z.eqb_spec (Z.of_nat (length bytes)) 0); [lia|].
  unfold LoadMemory, LoadMemory_start. cbn [MemoryCount].
  destruct (Sim_LoadMemory_loop bytes ltac:(lia) Hbytes
              (Z.to_nat (Z.of_nat (length bytes)))
              {| Address := ValueAddrStart p; Length := 0;
                 Chunk := first_chunk (Z.of_nat (length bytes)) |}
              {| MemoryCount := 0;
                 MemoryBuffer :=
                   replicate (Z.to_nat (Z.of_nat (length bytes))) 0 |}
              (run_line r)
              ltac:(apply first_chunk_policy; lia) ltac:(cbn; lia)
              Hidle Hmute Hregs eq_refl)
    as (s' & Hload).
  { cbn [Length]. rewrite Z.sub_0_r. reflexivity. }
  rewrite Hload. cbn [MemoryCount]. rewrite Z.eqb_refl.
  exists s'. reflexivity.
Qed.

(** X14.  The whole of an upload on the wire.  Asked to send a file
    ([-f -s], with or without [-n]) to a target that answers, [main]
    prints the sync command, the version command unless [-q] is given,
    and then the write commands of the file's first [n] bytes, where [n]
    is the count given by [-n] when there is one and the size of the
    file otherwise; it reports [n] bytes loaded and uploaded.  A [-n]
    smaller than the file is not overridden by the size of the file: the
    rest of the file is left out without a diagnostic. *)
Theorem main_upload_trace (content : list Z) (ValueBytes : Z) (p : Params)
    (e : Env) (s0 : Sim) :
  content <> [] -> Forall is_byte content ->
  Z.of_nat (length content) < 2 ^ 32 ->
  0 <= ValueBytes <= Z.of_nat (length content) ->
  FlagSend p = true -> FlagCpu p = false ->
  FlagVerify p || FlagReceive p || FlagDump p = false ->
  ParamFileName p <> None -> is_bit32 (ValueAddrStart p) ->
  file_in e = Some content -> calloc_file e = true ->
  to_host s0 = [] ->
  let n := if ValueBytes =? 0 then Z.of_nat (length content)
           else ValueBytes in
  exists r : Run Sim,
    main_transfer p e (main_init ValueBytes s0) = Some r /\
    run_Success r = true /\
    run_out r = [MsgLoaded n; MsgUploaded n] /\
    commands (run_line r) =
      commands s0 ++
      CmdSync :: (if FlagQuiet p then [] else [CmdVersion]) ++
      send_commands (ValueAddrStart p) (take (Z.to_nat n) content).
Proof.
  intros Hne Hbytes Hfit Hcount Hsend Hcpu Hoff Hname Hstart Hfile Hcalloc
    Hidle n.
  destruct (Sim_main_upload content ValueBytes Hne Hbytes Hfit Hcount p e s0
              Hsend Hcpu Hname Hfile Hcalloc Hstart Hidle)
    as (s1 & Hrun & _ & _ & Hcmds & _).
  unfold main_transfer. rewrite Hrun. cbn [mbind option_bind].
  unfold main_download. cbn [run_Success andb]. rewrite Hoff.
  cbn [mbind option_bind].
  apply orb_false_elim in Hoff as [Hoff Hdump].
  apply orb_false_elim in Hoff as [Hverify Hreceive].
  unfold main_verify, main_receive, main_dump.
  cbn [run_Success run_Memory andb]. rewrite Hverify, Hreceive, Hdump.
  cbn [andb]. eexists. split; [reflexivity|].
  cbn [run_Success run_out run_line]. auto.
Qed.

Lemma main_upload_trace_witness :
  exists r : Run Sim,
    main_transfer params_send
      (env_with (Some [0x01; 0x02; 0x03; 0x80; 0xfe; 0xff; 0x55]))
      (main_init 5 Sim_idle) = Some r /\
    run_Success r = true /\
    run_out r = [MsgLoaded 5; MsgUploaded 5] /\
    commands (run_line r) =
      [CmdSync; CmdVersion; CmdWriteWord 0x300000 0x80030201;
       CmdWriteByte 0x300004 0xfe].
Proof.
  apply (main_upload_trace [0x01; 0x02; 0x03; 0x80; 0xfe; 0xff; 0x55] 5
           params_send
           (env_with (Some [0x01; 0x02; 0x03; 0x80; 0xfe; 0xff; 0x55]))
           Sim_idle);
    try reflexivity; try discriminate; try (cbn; lia).
  - repeat constructor; unfold is_byte; lia.
  - unfold is_bit32. cbn. lia.
Defined.

(** X15.  Send and verify against a target that stores what it is sent
    and answers every read: [main] loads the file, uploads it, reads it
    back and reports the memory verified, for every file of bytes and
    every 32-bit start address; the image downloaded is the part of the
    file that was sent. *)
Theorem main_send_verify_succeeds (content : list Z) (ValueBytes : Z)
    (p : Params) (e : Env) (s0 : Sim) :
  content <> [] -> Forall is_byte content ->
  Z.of_nat (length content) < 2 ^ 32 ->
  0 <= ValueBytes <= Z.of_nat (length content) ->
  FlagSend p = true -> FlagVerify p = true -> FlagCpu p = false ->
  FlagReceive p = false -> FlagDump p = false ->
  ParamFileName p <> None -> is_bit32 (ValueAddrStart p) ->
  file_in e = Some content -> calloc_file e = true ->
  calloc_memory e = true ->
  to_host s0 = [] -> mute s0 = [] ->
  let n := if ValueBytes =? 0 then Z.of_nat (length content)
           else ValueBytes in
  exists r : Run Sim,
    main_transfer p e (main_init ValueBytes s0) = Some r /\
    run_Success r = true /\
    run_out r = [MsgLoaded n; MsgUploaded n; MsgDownloaded n; MsgVerified] /\
    run_Memory r =
      {| MemoryCount := n; MemoryBuffer := take (Z.to_nat n) content |}.
Proof.
  intros Hne Hbytes Hfit Hcount Hsend Hverify Hcpu Hreceive Hdump Hname
    Hstart Hfile Hcalloc Hcalloc2 Hidle Hmute n.
  destruct (Sim_main_upload content ValueBytes Hne Hbytes Hfit Hcount p e s0
              Hsend Hcpu Hname Hfile Hcalloc Hstart Hidle)
    as (s1 & Hrun & Hidle1 & Hmute1 & _ & Hregs).
  destruct (bytes_length content ValueBytes Hne Hbytes Hfit Hcount)
    as [Hlen Hn].
  fold n in Hrun, Hregs, Hlen, Hn.
  unfold main_transfer. rewrite Hrun. cbn [mbind option_bind].
  destruct (Sim_main_download (take (Z.to_nat n) content) p e
              {| run_Success := true; run_ValueBytes := n;
                 run_FileBuffer := take (Z.to_nat n) content;
                 run_Memory := {| MemoryCount := 0; MemoryBuffer := [] |};
                 run_line := s1;
                 run_out := [MsgLoaded n; MsgUploaded n];
                 run_saved := None |})
    as (s2 & ->); try reflexivity; try assumption.
  { apply Forall_take, Hbytes. }
  { lia. }
  { rewrite Hverify. reflexivity. }
  { symmetry. exact Hlen. }
  { cbn [run_line]. congruence. }
  { rewrite Hlen. exact Hregs. }
  cbn [mbind option_bind]. rewrite Hlen.
  unfold main_verify.
  cbn [run_Success run_ValueBytes run_FileBuffer run_Memory MemoryBuffer
       say set_memory set_line andb].
  rewrite Hverify, verify_same by lia.
  unfold main_receive, main_dump.
  cbn [run_Success run_Memory say andb]. rewrite Hreceive, Hdump.
  cbn [andb]. eexists. split; [reflexivity|]. cbn. auto.
Qed.

Lemma main_send_verify_succeeds_witness :
  exists r : Run Sim,
    main_transfer params_send_verify
      (env_with (Some [0x01; 0x02; 0x03; 0x80; 0xfe; 0xff]))
      (main_init 0 Sim_idle) = Some r /\
    run_Success r = true /\
    run_out r = [MsgLoaded 6; MsgUploaded 6; MsgDownloaded 6; MsgVerified] /\
    run_Memory r =
      {| MemoryCount := 6;
         MemoryBuffer := [0x01; 0x02; 0x03; 0x80; 0xfe; 0xff] |}.
Proof.
  apply (main_send_verify_succeeds [0x01; 0x02; 0x03; 0x80; 0xfe; 0xff] 0
           params_send_verify
           (env_with (Some [0x01; 0x02; 0x03; 0x80; 0xfe; 0xff])) Sim_idle);
    try reflexivity; try discriminate; try (cbn; lia).
  - repeat constructor; unfold is_byte; lia.
  - unfold is_bit32. cbn. lia.
Defined.

(** X16.  A file sent in one run comes back in the next: after a run
    that sends a file to a target that stores what it is sent, a second
    run that receives the same number of bytes from the same address
    writes a file that holds exactly the bytes that were sent. *)
Theorem main_send_then_receive (content : list Z) (ValueBytes : Z)
    (p1 p2 : Params) (e1 e2 : Env) (s0 : Sim) :
  content <> [] -> Forall is_byte content ->
  Z.of_nat (length content) < 2 ^ 32 ->
  0 <= ValueBytes <= Z.of_nat (length content) ->
  FlagSend p1 = true -> FlagCpu p1 = false ->
  FlagVerify p1 || FlagReceive p1 || FlagDump p1 = false ->
  ParamFileName p1 <> None -> is_bit32 (ValueAddrStart p1) ->
  file_in e1 = Some content -> calloc_file e1 = true ->
  to_host s0 = [] -> mute s0 = [] ->
  FlagReceive p2 = true -> FlagCpu p2 = false ->
  FlagSend p2 || FlagVerify p2 = false -> FlagDump p2 = false ->
  ValueAddrStart p2 = ValueAddrStart p1 ->
  calloc_memory e2 = true -> fopen_wb e2 = true -> fwrite_ok e2 = true ->
  let n := if ValueBytes =? 0 then Z.of_nat (length content)
           else ValueBytes in
  exists r1 r2 : Run Sim,
    main_transfer p1 e1 (main_init ValueBytes s0) = Some r1 /\
    main_transfer p2 e2 (main_init n (run_line r1)) = Some r2 /\
    run_Success r2 = true /\
    run_out r2 = [MsgDownloaded n; MsgWrote n] /\
    run_saved r2 = Some (take (Z.to_nat n) content).
Proof.
  intros Hne Hbytes Hfit Hcount Hsend Hcpu Hoff Hname Hstart Hfile Hcalloc
    Hidle Hmute Hreceive Hcpu2 Hoff2 Hdump2 Haddr Hcalloc2 Hopen Hwrite n.
  destruct (Sim_main_upload content ValueBytes Hne Hbytes Hfit Hcount p1 e1 s0
              Hsend Hcpu Hname Hfile Hcalloc Hstart Hidle)
    as (s1 & Hrun & Hidle1 & Hmute1 & _ & Hregs).
  destruct (bytes_length content ValueBytes Hne Hbytes Hfit Hcount)
    as [Hlen Hn].
  fold n in Hrun, Hregs, Hlen, Hn.
  set (r1 := {| run_Success := true; run_ValueBytes := n;
                run_FileBuffer := take (Z.to_nat n) content;
                run_Memory := {| MemoryCount := 0; MemoryBuffer := [] |};
                run_line := s1;
                run_out := [MsgLoaded n; MsgUploaded n];
                run_saved := None |}) in *.
  assert (H1 : main_transfer p1 e1 (main_init ValueBytes s0) = Some r1).
  { unfold main_transfer. rewrite Hrun. cbn [mbind option_bind].
    unfold main_download. cbn [run_Success r1 andb]. rewrite Hoff.
    cbn [mbind option_bind].
    apply orb_false_elim in Hoff as [Hoff Hdump].
    apply orb_false_elim in Hoff as [Hverify Hrecv].
    unfold main_verify, main_receive, main_dump.
    cbn [run_Success run_Memory r1 andb]. rewrite Hverify, Hrecv, Hdump.
    cbn [andb]. reflexivity. }
  destruct (Sim_main_handshake p2 (main_init n s1) Hidle1)
    as (s2 & Hhand & Hidle2 & Hmute2 & Hregs2 & _).
  cbn [run_line main_init] in Hmute2, Hregs2.
  apply orb_false_elim in Hoff2 as [Hsend2 Hverify2].
  destruct (Sim_main_download (take (Z.to_nat n) content) p2 e2
              (set_line s2 (main_init n s1)))
    as (s3 & Hdown); try reflexivity; try assumption.
  { apply Forall_take, Hbytes. }
  { lia. }
  { rewrite Hreceive, orb_true_r. reflexivity. }
  { symmetry. exact Hlen. }
  { cbn [run_line set_line]. congruence. }
  { cbn [run_line set_line]. rewrite Hlen, Haddr, Hregs2. exact Hregs. }
  rewrite Hlen in Hdown.
  exists r1.
  exists (say [MsgWrote n]
            (set_saved (take (Z.to_nat n) (take (Z.to_nat n) content))
               (say [MsgDownloaded n]
                  (set_memory
                     {| MemoryCount := n;
                        MemoryBuffer := take (Z.to_nat n) content |}
                     (set_line s3 (set_line s2 (main_init n s1))))))).
  split; [exact H1|]. split.
  { cbn [run_line r1]. unfold main_transfer. rewrite Hhand.
    rewrite Sim_main_cpu_off by assumption.
    unfold main_load.
    change (run_Success (set_line s2 (main_init n s1))) with true.
    rewrite Hsend2, Hverify2. cbn [orb andb].
    unfold main_send.
    change (run_Success (set_line s2 (main_init n s1))) with true.
    rewrite Hsend2. cbn [andb mbind option_bind].
    rewrite Hdown. cbn [mbind option_bind].
    unfold main_verify.
    cbn [run_Success say set_memory set_line main_init andb].
    rewrite Hverify2. unfold main_receive.
    cbn [run_Success run_Memory MemoryCount MemoryBuffer say set_memory
         set_line main_init andb].
    rewrite Hreceive, Hopen, Hwrite.
    destruct (Z.eqb_spec n 0); [lia|]. cbn [andb negb].
    unfold main_dump. rewrite Hdump2. reflexivity. }
  cbn. split; [reflexivity|]. split; [reflexivity|].
  f_equal. apply take_ge. lia.
Qed.

Lemma main_send_then_receive_witness :
  exists r1 r2 : Run Sim,
    main_transfer params_send
      (env_with (Some [0x01; 0x02; 0x03; 0x80; 0xfe; 0xff]))
      (main_init 0 Sim_idle) = Some r1 /\
    main_transfer params_receive (env_with None) (main_init 6 (run_line r1))
      = Some r2 /\
    run_Success r2 = true /\
    run_out r2 = [MsgDownloaded 6; MsgWrote 6] /\
    run_saved r2 = Some [0x01; 0x02; 0x03; 0x80; 0xfe; 0xff].
Proof.
  apply (main_send_then_receive [0x01; 0x02; 0x03; 0x80; 0xfe; 0xff] 0
           params_send params_receive
           (env_with (Some [0x01; 0x02; 0x03; 0x80; 0xfe; 0xff]))
           (env_with None) Sim_idle);
    try reflexivity; try discriminate; try (cbn; lia).
  - repeat constructor; unfold is_byte; lia.
  - unfold is_bit32. cbn. lia.
Defined.

(** ** The terminal at work *)

Lemma wrap8_byte (k : Z) : is_byte k -> wrap8 k = k.
Proof. intros Hk. unfold wrap8. apply Z.mod_small. exact Hk. Qed.

(** One cycle that takes a key from the console while the target is
    silent. *)
Lemma Sim_Terminal_cycle_key (k Key : Z) (rest : list Z) (fuel : nat)
    (s : Sim) :
  is_byte k -> keys s = k :: rest -> to_host s = [] ->
  Terminal_cycle fuel Key s = Some (forwarded k, Sim_typed k rest s).
Proof.
  intros Hk Hkeys Hidle. unfold Terminal_cycle, Terminal_console.
  unfold FileInputAvailable, FileGetCharacter.
  cbn [sys_select sys_read sys_write Sim_transport Sim_select Sim_read].
  rewrite Hkeys. cbn [Z.eqb]. rewrite (wrap8_byte k Hk).
  fold (forwarded k). fold (printable (forwarded k)).
  assert (Hdrain : forall t : Sim, to_host t = [] ->
            Terminal_drain fuel (forwarded k) t = Some (forwarded k, t)).
  { intros t Ht. destruct fuel; cbn [Terminal_drain];
      unfold FileInputAvailable;
      cbn [sys_select Sim_transport Sim_select]; rewrite Ht; reflexivity. }
  rewrite Hdrain by (destruct (printable (forwarded k)); exact Hidle).
  unfold Sim_typed. destruct (printable (forwarded k)); cbn;
    rewrite ?app_nil_r; reflexivity.
Qed.

Lemma Terminal_state_forwarded (k : Z) :
  k <> 0x1b -> k <> 0x03 -> Terminal_state (forwarded k) = Running.
Proof.
  intros H1 H2. unfold Terminal_state, forwarded.
  destruct (Z.eqb_spec k 0x0d); [reflexivity|].
  destruct (Z.eqb_spec k 0x1b); [contradiction|].
  destruct (Z.eqb_spec k 0x03); [contradiction|]. reflexivity.
Qed.

(** X17.  While the target is silent the terminal forwards what is
    typed, key by key and in order: every key goes to the target, a
    carriage return as [#], the printable ones are echoed on the console
    and the others are not, and the loop runs until the first Escape or
    Ctrl-C, which is itself forwarded (and not echoed) before the loop
    ends; what was typed after it is left unread. *)
Theorem Terminal_forwards_keys (ks more : list Z) (stop Key : Z)
    (fuel : nat) (s : Sim) :
  Forall (fun k => is_byte k /\ k <> 0x1b /\ k <> 0x03) ks ->
  stop = 0x1b \/ stop = 0x03 ->
  to_host s = [] -> keys s = ks ++ stop :: more ->
  exists s' : Sim,
    Terminal_loop (S (length ks)) fuel Key s = Some (stop, s') /\
    from_host s' = from_host s ++ map forwarded ks ++ [stop] /\
    screen s' = screen s ++ List.filter printable (map forwarded ks) /\
    keys s' = more /\ to_host s' = [].
Proof.
  intros Hks Hstop. revert Key s.
  induction Hks as [|k ks (Hk & H1 & H2) _ IH]; intros Key s Hidle Hkeys.
  - cbn [app length] in *.
    assert (Hb : is_byte stop) by (unfold is_byte; destruct Hstop; lia).
    cbn [Terminal_loop].
    rewrite (Sim_Terminal_cycle_key stop Key more fuel s Hb Hkeys Hidle).
    assert (Hf : forwarded stop = stop)
      by (destruct Hstop as [-> | ->]; reflexivity).
    assert (Hp : printable stop = false)
      by (destruct Hstop as [-> | ->]; reflexivity).
    assert (He : Terminal_state stop = Exiting)
      by (destruct Hstop as [-> | ->]; reflexivity).
    rewrite Hf, He. eexists. split; [reflexivity|].
    unfold Sim_typed. rewrite Hf, Hp. cbn. rewrite app_nil_r. auto.
  - cbn [app length] in *.
    remember (S (length ks)) as cycles. cbn [Terminal_loop].
    rewrite (Sim_Terminal_cycle_key k Key (ks ++ stop :: more) fuel s
               Hk Hkeys Hidle).
    rewrite (Terminal_state_forwarded k H1 H2). subst cycles.
    destruct (IH (forwarded k) (Sim_typed k (ks ++ stop :: more) s)
                Hidle eq_refl) as (s' & Hloop & Hfrom & Hscreen & Hrest & Hto).
    exists s'. split; [exact Hloop|].
    rewrite Hfrom, Hscreen. cbn [Sim_typed from_host screen map List.filter].
    rewrite <- !app_assoc.
    destruct (printable (forwarded k)); cbn [app]; auto.
Qed.

Lemma Terminal_forwards_keys_witness :
  exists s' : Sim,
    Terminal_loop 4 0 0 (Sim_with [] [0x47; 0x0d; 0x08; 0x1b; 0x41])
      = Some (0x1b, s') /\
    from_host s' = [0x47; 0x23; 0x08; 0x1b] /\
    screen s' = [0x47; 0x23] /\
    keys s' = [0x41] /\ to_host s' = [].
Proof.
  apply (Terminal_forwards_keys [0x47; 0x0d; 0x08] [0x41] 0x1b 0 0
           (Sim_with [] [0x47; 0x0d; 0x08; 0x1b; 0x41])).
  - repeat constructor; unfold is_byte; lia.
  - left. reflexivity.
  - reflexivity.
  - reflexivity.
Defined.

(** The inner loop of the terminal on the bytes that the target has
    under way. *)
Lemma Sim_Terminal_drain (out : list Z) :
  forall (fuel : nat) (Key : Z) (s : Sim),
    Forall is_byte out -> (length out <= fuel)%nat -> to_host s = out ->
    Terminal_drain fuel Key s =
      Some (match out with [] => Key | _ => 0 end,
            {| regs := regs s; mute := mute s; to_host := [];
               keys := keys s; screen := screen s ++ out;
               from_host := from_host s; commands := commands s |}).
Proof.
  induction out as [|b out IH]; intros fuel Key s Hbytes Hfuel Hto.
  - destruct fuel; cbn [Terminal_drain]; unfold FileInputAvailable;
      cbn [sys_select Sim_transport Sim_select]; rewrite Hto; cbn [Z.eqb];
      rewrite app_nil_r, <- Hto; destruct s; reflexivity.
  - destruct fuel as [|fuel]; [cbn [length] in Hfuel; lia|].
    apply Forall_cons in Hbytes as [Hb Hbytes].
    cbn [Terminal_drain]. unfold FileInputAvailable, FileGetCharacter.
    cbn [sys_select sys_read sys_write Sim_transport Sim_select Sim_read].
    rewrite Hto. cbn [Z.eqb]. rewrite (wrap8_byte b Hb).
    rewrite (IH fuel 0 (Sim_write FileNumberConsole b (Sim_set_to_host out s))
               Hbytes ltac:(cbn [length] in Hfuel; lia) eq_refl).
    cbn. rewrite <- app_assoc. destruct out; reflexivity.
Qed.

(** X18.  What the target sends is shown as it is: in a cycle without a
    key, every byte under way from the target is written to the console
    unchanged and in order, control characters and Escape included,
    nothing is sent to the target, and the loop goes on, since a byte
    from the target never ends it. *)
Theorem Terminal_shows_target_output (out : list Z) (Key : Z) (fuel : nat)
    (s : Sim) :
  out <> [] -> Forall is_byte out -> (length out <= fuel)%nat ->
  keys s = [] -> to_host s = out ->
  exists s' : Sim,
    Terminal_cycle fuel Key s = Some (0, s') /\
    Terminal_state 0 = Running /\
    screen s' = screen s ++ out /\ to_host s' = [] /\
    from_host s' = from_host s.
Proof.
  intros Hne Hbytes Hfuel Hkeys Hto. unfold Terminal_cycle, Terminal_console.
  unfold FileInputAvailable.
  cbn [sys_select Sim_transport Sim_select]. rewrite Hkeys. cbn [Z.eqb].
  rewrite (Sim_Terminal_drain out fuel Key s Hbytes Hfuel Hto).
  destruct out as [|b out]; [contradiction|].
  eexists. split; [reflexivity|]. cbn. auto.
Qed.

Lemma Terminal_shows_target_output_witness :
  exists s' : Sim,
    Terminal_cycle 3 0 (Sim_with [0x3e; 0x1b; 0x07] []) = Some (0, s') /\
    Terminal_state 0 = Running /\
    screen s' = [0x3e; 0x1b; 0x07] /\ to_host s' = [] /\ from_host s' = [].
Proof.
  apply (Terminal_shows_target_output [0x3e; 0x1b; 0x07] 0 3
           (Sim_with [0x3e; 0x1b; 0x07] [])).
  - discriminate.
  - repeat constructor; unfold is_byte; lia.
  - cbn. lia.
  - reflexivity.
  - reflexivity.
Defined.

(** ** The range of the values read *)

Lemma wrap32_range (x : Z) : 0 <= wrap32 x < 2 ^ 32.
Proof. unfold wrap32. apply Z.mod_pos_bound. lia. Qed.

Lemma scanf_unsigned_range (neg : bool) (v : Z) :
  0 <= scanf_unsigned neg v < 2 ^ 32.
Proof. apply wrap32_range. Qed.

Lemma scanf_int_range (neg : bool) (v : Z) : 0 <= scanf_int neg v < 2 ^ 32.
Proof. apply wrap32_range. Qed.

Lemma sscanf_X_range (s : list Z) (V : Z) :
  0 <= V < 2 ^ 32 -> 0 <= sscanf_X s V < 2 ^ 32.
Proof.
  intros HV. unfold sscanf_X.
  destruct (skip_space s) as [|c r]; [exact HV|].
  destruct (c =? 0x2d); [|destruct (c =? 0x2b)];
    match goal with
    | |- context [match ?l with _ => _ end] =>
        destruct l as [|c0 [|c1 l']]
    end; try exact HV;
    repeat match goal with
           | |- context [if ?b then _ else _] => destruct b
           end; try exact HV; apply scanf_unsigned_range.
Qed.

Lemma sscanf_d_range (s : list Z) (V : Z) :
  0 <= V < 2 ^ 32 -> 0 <= sscanf_d s V < 2 ^ 32.
Proof.
  intros HV. unfold sscanf_d.
  destruct (skip_space s) as [|c r]; [exact HV|].
  destruct (c =? 0x2d); [|destruct (c =? 0x2b)];
    match goal with
    | |- context [match ?l with _ => _ end] => destruct l
    end; try exact HV;
    repeat match goal with
           | |- context [if ?b then _ else _] => destruct b
           end; try exact HV; apply scanf_int_range.
Qed.

Lemma NumericValue_range (String : option (list Z)) :
  0 <= NumericValue String < 2 ^ 32.
Proof.
  unfold NumericValue. destruct String as [s|]; [|lia].
  repeat match goal with
         | |- context [if ?b then _ else _] => destruct b
         end;
    first [apply sscanf_X_range | apply sscanf_d_range]; lia.
Qed.

Lemma GetResponse_scan_range (l : list Z) :
  forall State V, 0 <= V < 2 ^ 32 -> 0 <= GetResponse_scan State V l < 2 ^ 32.
Proof.
  induction l as [|c l IH]; intros State V HV; cbn [GetResponse_scan];
    [exact HV|].
  repeat match goal with
         | |- context [if ?b then _ else _] => destruct b
         end; apply IH; try exact HV.
  apply sscanf_X_range, HV.
Qed.

Section ResponseFacts.

Context {T : Type} `{Transport T}.

Lemma GetResponse_capture_bytes (fd : FileNumber) (room : nat) :
  forall (acc : list Z) (t : T),
    Forall is_byte acc ->
    Forall is_byte (GetResponse_capture fd room acc t).1.
Proof.
  induction room as [|room IH]; intros acc t Hacc;
    cbn [GetResponse_capture];
    destruct (FileInputAvailable fd t) as [avail t1];
    destruct (avail =? 0); try exact Hacc.
  unfold FileGetCharacter. destruct (sys_read fd t1) as [r t2].
  apply IH. apply Forall_app_2; [exact Hacc|]. constructor; [|constructor].
  unfold is_byte, wrap8. destruct r; apply Z.mod_pos_bound; lia.
Qed.

(** X19.  Whatever the transport delivers, and a failing [read]
    included (its error code is stored as the byte 0xFF), [GetResponse]
    leaves only byte values in [Response], returns a value that fits 32
    bits, and counts between 0 and 30 characters. *)
Theorem GetResponse_ranges (fd : FileNumber) (t : T) :
  let r := (GetResponse fd t).1 in
  Forall is_byte (Captured r) /\ is_bit32 (Value r) /\
  0 <= ResponseCount r <= 30.
Proof.
  unfold GetResponse.
  pose proof (GetResponse_capture_bytes fd 30 [] t ltac:(constructor)) as Hb.
  pose proof (GetResponse_capture_length fd 30 [] t) as Hl.
  destruct (GetResponse_capture fd 30 [] t) as [burst t'].
  cbn [fst snd Captured Value ResponseCount length] in *.
  split; [exact Hb|]. split; [|lia].
  apply GetResponse_scan_range. lia.
Qed.

End ResponseFacts.

Section CountFacts.

Import CommandLine.

Lemma ParseParameters_defaults_kept (argv : list (list Z)) (g0 g : Globals)
    (msgs : list Diagnostic) :
  ParseParameters argv g0 = (true, g, msgs) ->
  (is_NULL (ParamAddrStart (strings g)) = true ->
   ValueAddrStart g = ValueAddrStart g0) /\
  (is_NULL (ParamAddrGo (strings g)) = true ->
   ValueAddrGo g = ValueAddrGo g0).
Proof.
  unfold ParseParameters.
  destruct (ParseParameters_loop (drop 1 argv) (strings g0, flags g0))
    as [[s f] bad].
  destruct bad; [discriminate|].
  destruct (is_device (ParamPort s)); cbn [negb]; [|discriminate].
  destruct ((FlagReceive f || FlagSend f) && is_NULL (ParamFileName s));
    [discriminate|].
  destruct (FlagReceive f && FlagSend f); [discriminate|].
  destruct (is_NULL (ParamBytes s)).
  - intros Hr. injection Hr as <- <-. cbn.
    split; intros ->; reflexivity.
  - destruct (NumericValue (ParamBytes s) =? 0); cbn [negb]; [discriminate|].
    intros Hr. injection Hr as <- <-. cbn.
    split; intros ->; reflexivity.
Qed.

(** X20.  After an accepted command line the three values fit 32 bits,
    and [ValueBytes] is 0 exactly when no [-n] was given: a [-n] for
    which [NumericValue] returns 0 (a text that is no number, for one)
    is never accepted. *)
Theorem ParseParameters_count (argv : list (list Z)) (g : Globals)
    (msgs : list Diagnostic) :
  ParseParameters argv defaults = (true, g, msgs) ->
  (ValueBytes g = 0 <-> has_option 0x6e argv = false) /\
  is_bit32 (ValueBytes g) /\ is_bit32 (ValueAddrStart g) /\
  is_bit32 (ValueAddrGo g).
Proof.
  intros Hok.
  destruct (ParseParameters_accepts _ _ _ _ Hok)
    as (Hl & _ & _ & _ & Hnone & Hsome & Hstart & Hgo & _).
  destruct (ParseParameters_defaults_kept _ _ _ _ Hok) as (Hstart0 & Hgo0).
  destruct (ParseParameters_loop_options _ _ _ _ _ Hl)
    as (_ & _ & Hb & _).
  cbn in Hb. unfold has_option, is_bit32.
  pose proof (NumericValue_range (ParamBytes (strings g))) as Rb.
  pose proof (NumericValue_range (ParamAddrStart (strings g))) as Rs.
  pose proof (NumericValue_range (ParamAddrGo (strings g))) as Rg.
  assert (Hs : 0 <= ValueAddrStart g < 2 ^ 32).
  { destruct (is_NULL (ParamAddrStart (strings g))) eqn:E.
    - rewrite (Hstart0 eq_refl). cbn. lia.
    - rewrite (Hstart eq_refl). exact Rs. }
  assert (Hg : 0 <= ValueAddrGo g < 2 ^ 32).
  { destruct (is_NULL (ParamAddrGo (strings g))) eqn:E.
    - rewrite (Hgo0 eq_refl). cbn. lia.
    - rewrite (Hgo eq_refl). exact Rg. }
  destruct (existsb (names 0x6e) (drop 1 argv)); cbn in Hb.
  - destruct (Hsome Hb) as [E Hne]. split; [split; [lia|discriminate]|].
    split; [lia|]. split; assumption.
  - rewrite (Hnone Hb). cbn. split; [split; reflexivity|].
    split; [lia|]. split; assumption.
Qed.

Lemma ParseParameters_count_witness :
  (ValueBytes
     (ParseParameters (map arg ["sam9boot"; "-d"; "-n=0x40"]%string)
        defaults).1.2 = 0 <->
   has_option 0x6e (map arg ["sam9boot"; "-d"; "-n=0x40"]%string) = false).
Proof.
  exact (proj1 (ParseParameters_count
                  (map arg ["sam9boot"; "-d"; "-n=0x40"]%string) _ _ eq_refl)).
Defined.

End CountFacts.

(** ** LoadFile and the dump, case by case *)

(** X21.  The outcomes of [LoadFile], for a file of fewer than 2^32
    bytes.  It fails with the open error exactly when the file cannot be
    opened and with the zero-length error exactly when the file is
    empty, leaving [ValueBytes] and [FileBuffer] alone.  Otherwise a
    [ValueBytes] of 0 is replaced by the size of the file, and a
    [ValueBytes] given before is kept: a file that is longer is cut to
    its first [ValueBytes] bytes without a diagnostic (the size of the
    file does not override the count), and a file that is shorter is a
    read error. *)
Theorem LoadFile_outcomes (file : option (list Z)) (calloc_ok : bool)
    (ValueBytes : Z) (FileBuffer : list Z) :
  0 <= ValueBytes < 2 ^ 32 ->
  Z.of_nat (length (default [] file)) < 2 ^ 32 ->
  let size := Z.of_nat (length (default [] file)) in
  let count := if ValueBytes =? 0 then size else ValueBytes in
  let r := LoadFile file calloc_ok ValueBytes FileBuffer in
  (r = (Some ErrOpen, ValueBytes, FileBuffer) <-> file = None) /\
  (r = (Some ErrZeroLength, ValueBytes, FileBuffer) <-> file = Some []) /\
  (r = (Some ErrFileCalloc, count, []) <->
   file <> None /\ 0 < size /\ calloc_ok = false) /\
  (r.1.1 = Some ErrRead <->
   file <> None /\ 0 < size < ValueBytes /\ calloc_ok = true) /\
  (r = (None, count, take (Z.to_nat count) (default [] file)) <->
   file <> None /\ ValueBytes <= size /\ 0 < size /\ calloc_ok = true).
Proof.
  intros Hn Hfit size count r. subst r. unfold LoadFile.
  destruct file as [content|]; cbn [from_option id] in *.
  2:{ repeat split; try discriminate; try congruence; intros (? & _);
      congruence. }
  rewrite wrap32_small by lia. fold size.
  destruct (Z.eqb_spec size 0) as [Hz|Hnz].
  { assert (content = []) as ->
      by (destruct content; [reflexivity|cbn [length] in *; lia]).
    repeat split; try discriminate; try congruence; try lia;
      intros (? & ? & ?); lia. }
  assert (Hpos : 0 < size) by lia.
  assert (Hne : content <> [])
    by (intros ->; cbn [length] in *; lia).
  fold count. destruct calloc_ok.
  2:{ repeat split; try discriminate; try congruence; try lia;
      try (intros (? & ? & ?); discriminate);
      try (intros (? & ? & ? & ?); discriminate). }
  rewrite length_take.
  destruct (Z.eqb_spec (Z.of_nat (Z.to_nat count `min` length content)) count)
    as [Heq|Hneq].
  - assert (Hle : ValueBytes <= size)
      by (subst count; destruct (Z.eqb_spec ValueBytes 0); lia).
    replace (Z.to_nat count - Z.to_nat count `min` length content)%nat
      with 0%nat by lia.
    cbn [replicate]. rewrite app_nil_r.
    repeat split; try discriminate; try congruence; try lia;
      try (intros (? & ? & ?); first [discriminate | lia]).
  - assert (Hgt : size < ValueBytes)
      by (subst count; destruct (Z.eqb_spec ValueBytes 0); lia).
    repeat split; try discriminate; try congruence; try lia;
      try (intros (? & ? & ?); first [discriminate | lia]);
      try (intros (? & ? & ? & ?); lia).
Qed.

Lemma LoadFile_outcomes_witness :
  LoadFile (Some [0x01; 0x02; 0x03; 0x80; 0xfe; 0xff]) true 4 [] =
    (None, 4, [0x01; 0x02; 0x03; 0x80]) /\
  (LoadFile (Some [0x01; 0x02; 0x03]) true 4 []).1.1 = Some ErrRead.
Proof.
  split.
  - apply (proj2 (proj2 (proj2 (proj2
             (LoadFile_outcomes (Some [0x01; 0x02; 0x03; 0x80; 0xfe; 0xff])
                true 4 [] ltac:(lia) ltac:(cbn; lia)))))).
    repeat split; try discriminate; cbn; lia.
  - apply (proj1 (proj2 (proj2 (proj2
             (LoadFile_outcomes (Some [0x01; 0x02; 0x03]) true 4 []
                ltac:(lia) ltac:(cbn; lia)))))).
    repeat split; try discriminate; cbn; lia.
Defined.

Section DumpAfterDownload.

Context {T : Type} `{Transport T}.

(** [LoadMemory] returns, whatever the target does. *)
Lemma LoadMemory_returns (ValueBytes : Z) (m : Memory) (calloc_ok : bool)
    (StartAddress Count : Z) (t : T) :
  0 <= Count < 2 ^ 32 ->
  exists res, LoadMemory ValueBytes m calloc_ok StartAddress Count t = Some res.
Proof.
  intros HC. unfold LoadMemory. destruct calloc_ok; [|eexists; reflexivity].
  destruct (LoadMemory_loop_total Count (Z.to_nat Count) (proj2 HC)
              (LoadMemory_start ValueBytes m StartAddress Count t)
              (first_chunk_progress ValueBytes Count StartAddress))
    as [[[ex m'] t'] Hloop]; [cbn; lia|].
  rewrite Hloop. destruct ex; [destruct (MemoryCount m' =? Count)|];
    eexists; reflexivity.
Qed.

(** X22.  The dump prints what was received, whether or not the
    download succeeded.  For every behaviour of the target, a requested
    download of [ValueBytes] bytes returns, it leaves [Success] true
    exactly when all [ValueBytes] bytes came, and the dump that follows
    (which is not gated on [Success]) returns too: it prints nothing
    when no byte was received and otherwise one line for every 16 of the
    bytes received, labelled from [ValueAddrStart]. *)
Theorem main_dump_after_download (p : Params) (e : Env) (r : Run T) :
  run_Success r = true -> FlagDump p = true ->
  0 < run_ValueBytes r < 2 ^ 32 -> MemoryCount (run_Memory r) = 0 ->
  exists r5 : Run T,
    main_download p e r = Some r5 /\
    0 <= MemoryCount (run_Memory r5) <= run_ValueBytes r /\
    (run_Success r5 = true <->
     MemoryCount (run_Memory r5) = run_ValueBytes r) /\
    main_dump p r5 =
      Some (if MemoryCount (run_Memory r5) =? 0 then r5
            else say (map MsgDump
                        (dump_text
                           (Z.to_nat ((MemoryCount (run_Memory r5) + 15) / 16))
                           (ValueAddrStart p)
                           (take (Z.to_nat (MemoryCount (run_Memory r5)))
                              (MemoryBuffer (run_Memory r5))))) r5).
Proof.
  intros Hok Hdump Hn Hm. unfold main_download.
  rewrite Hok, Hdump, orb_true_r. cbn [andb].
  destruct (Z.eqb_spec (run_ValueBytes r) 0); [lia|].
  destruct (LoadMemory_returns (run_ValueBytes r) (run_Memory r)
              (calloc_memory e) (ValueAddrStart p) (run_ValueBytes r)
              (run_line r) ltac:(lia)) as [[[err m'] t'] Hload].
  rewrite Hload.
  assert (Hfacts :
    0 <= MemoryCount m' <= run_ValueBytes r /\
    (err = None <-> MemoryCount m' = run_ValueBytes r) /\
    (Z.to_nat (MemoryCount m') <= length (MemoryBuffer m'))%nat /\
    Forall is_byte (MemoryBuffer m')).
  { unfold LoadMemory in Hload. destruct (calloc_memory e).
    - destruct (LoadMemory_loop _ _ _) as [[[ex m1] t1]|] eqn:Hloop;
        [|discriminate].
      apply LoadMemory_loop_prefix in Hloop
        as (c' & (Hpol & Hcount & Hlen & Hbytes) & _ & Hdone & Hsilent);
        [|lia| |].
      + cbn [fst snd] in *. destruct Hpol as ((H0 & Hle) & _).
        destruct ex.
        * specialize (Hdone eq_refl).
          destruct (Z.eqb_spec (MemoryCount m1) (run_ValueBytes r)); [|lia].
          injection Hload as <- <- _.
          split; [lia|]. split; [split; [lia|reflexivity]|].
          split; [lia|exact Hbytes].
        * specialize (Hsilent eq_refl). injection Hload as <- <- _.
          split; [lia|]. split; [split; [discriminate|lia]|].
          split; [lia|exact Hbytes].
      + unfold LoadMemory_start, image_ok.
        cbn [fst snd MemoryCount MemoryBuffer Length].
        split; [apply first_chunk_policy; lia|]. split; [exact Hm|].
        split; [apply length_replicate|]. apply Forall_replicate.
        unfold is_byte. lia.
      + unfold LoadMemory_start. cbn [fst snd MemoryCount MemoryBuffer].
        rewrite Hm, drop_0, Z.sub_0_r. reflexivity.
    - injection Hload as <- <- _. cbn [MemoryCount MemoryBuffer length].
      rewrite Hm. split; [lia|]. split; [split; [discriminate|lia]|].
      split; [lia|constructor]. }
  destruct Hfacts as (Hrange & Hiff & Hheld & Hbytes).
  assert (Hdumped : forall r5 : Run T,
            run_Memory r5 = m' ->
            main_dump p r5 =
              Some (if MemoryCount m' =? 0 then r5
                    else say (map MsgDump
                                (dump_text
                                   (Z.to_nat ((MemoryCount m' + 15) / 16))
                                   (ValueAddrStart p)
                                   (take (Z.to_nat (MemoryCount m'))
                                      (MemoryBuffer m')))) r5)).
  { intros r5 E. unfold main_dump. rewrite E, Hdump. cbn [andb].
    destruct (Z.eqb_spec (MemoryCount m') 0); [reflexivity|]. cbn [negb].
    unfold dump.
    set (image := take (Z.to_nat (MemoryCount m')) (MemoryBuffer m')).
    assert (HN : Z.of_nat (length image) = MemoryCount m')
      by (apply (dump_image_length m' image); [reflexivity | lia | exact Hheld]).
    pose proof (dump_loop_spec m' image eq_refl ltac:(lia) Hheld
                  (Forall_take _ _ _ Hbytes) (Z.to_nat (MemoryCount m')) 0
                  (ValueAddrStart p)) as Hloop.
    rewrite drop_0, Nat.sub_0_r, HN in Hloop.
    change (Z.of_nat 0) with 0 in Hloop. rewrite Hloop by lia.
    reflexivity. }
  destruct err as [err|].
  - eexists. split; [reflexivity|]. cbn [run_Memory run_Success fail say set_memory set_line].
    split; [exact Hrange|]. split.
    + split; [discriminate|]. intros E. apply Hiff in E. discriminate.
    + apply Hdumped. reflexivity.
  - eexists. split; [reflexivity|]. cbn [run_Memory run_Success say set_memory set_line].
    split; [exact Hrange|]. split.
    + split; [intros _; apply Hiff; reflexivity|intros _; exact Hok].
    + apply Hdumped. reflexivity.
Qed.

End DumpAfterDownload.

Lemma main_dump_after_download_witness :
  exists r5 : Run Sim,
    main_download params_dump (env_with None)
      (main_init 6 (Sim_silent_at [0x300004])) = Some r5 /\
    0 <= MemoryCount (run_Memory r5) <= 6 /\
    (run_Success r5 = true <-> MemoryCount (run_Memory r5) = 6).
Proof.
  destruct (main_dump_after_download params_dump (env_with None)
              (main_init 6 (Sim_silent_at [0x300004]))
              eq_refl eq_refl ltac:(cbn; lia) eq_refl)
    as (r5 & Hd & Hrange & Hiff & _).
  exists r5. auto.
Defined.

(** ** The cpu query and the file that [-v] needs *)

(** X23.  The part id that [main] prints is the value that the target
    holds at 0xFFFFF240: asked for [-c] of a target that answers, the
    cpu block sends the one word read of that address, prints the value
    that came back and leaves [Success] as it was. *)
Theorem main_cpu_reports_part_id (p : Params) (r : Run Sim) (v : Z) :
  FlagCpu p = true ->
  to_host (run_line r) = [] -> mute (run_line r) = [] ->
  regs (run_line r) !! 0xfffff240 = Some v -> is_bit32 v ->
  exists s' : Sim,
    main_cpu p r = say [MsgPartId v] (set_line s' r) /\
    to_host s' = [] /\ regs s' = regs (run_line r) /\
    commands s' = commands (run_line r) ++ [CmdReadWord 0xfffff240].
Proof.
  intros Hcpu Hidle Hmute Hreg Hv. unfold main_cpu. rewrite Hcpu.
  destruct (Sim_read_reply 8 v ltac:(lia) Hv)
    as (Hlen & Hpos & Hbytes & Hscan).
  remember (fprintf (CmdReadWord 0xfffff240) (run_line r)) as s1 eqn:Es1.
  assert (Hto : to_host s1 = [0x30; 0x78] ++ printf_X true 8 v ++ prompt).
  { rewrite Es1. cbn [fprintf Sim_transport Sim_fprintf to_host Sim_reply].
    rewrite Hidle, Hmute, bool_decide_eq_false_2 by apply not_elem_of_nil.
    rewrite Hreg. reflexivity. }
  rewrite (Sim_GetResponse_all s1) by (rewrite Hto; assumption).
  cbn [ResponseCount Value]. rewrite Hto, Hscan.
  destruct (Z.eqb_spec (Z.of_nat (length ([0x30; 0x78] ++ printf_X true 8 v
                                            ++ prompt))) 0); [lia|].
  cbn [run_line say set_line].
  destruct (Sim_GetResponse_state (Sim_set_to_host [] s1)) as [Hs _].
  destruct (GetResponse FileNumberSam9 (Sim_set_to_host [] s1)) as [? s2].
  cbn [snd] in Hs. subst s2. cbn [Sim_set_to_host to_host drop].
  eexists. split; [reflexivity|]. rewrite Es1. cbn. auto.
Qed.

Lemma main_cpu_reports_part_id_witness :
  exists s' : Sim,
    main_cpu params_cpu_dump
      (main_init 4 (Sim_holding 0xfffff240 0x019803a0)) =
      say [MsgPartId 0x019803a0]
        (set_line s' (main_init 4 (Sim_holding 0xfffff240 0x019803a0))) /\
    to_host s' = [].
Proof.
  destruct (main_cpu_reports_part_id params_cpu_dump
              (main_init 4 (Sim_holding 0xfffff240 0x019803a0))
              0x019803a0 eq_refl eq_refl eq_refl eq_refl
              ltac:(unfold is_bit32; lia))
    as (s' & Hcpu & Hidle & _).
  exists s'. auto.
Defined.

Section FileNeeded.

Context {T : Type} `{Transport T}.

(** Without a file name, a send or a verify fails before anything is
    loaded or transferred. *)
Lemma main_transfer_without_file (p : Params) (e : Env) (ValueBytes : Z)
    (t : T) :
  FlagSend p || FlagVerify p = true -> ParamFileName p = None ->
  exists r : Run T,
    main_transfer p e (main_init ValueBytes t) = Some r /\
    run_Success r = false /\
    run_FileBuffer r = [] /\
    run_Memory r = {| MemoryCount := 0; MemoryBuffer := [] |} /\
    run_saved r = None /\
    (ErrRequiresF ∈ run_out r \/ ErrCpu ∈ run_out r).
Proof.
  intros Hsv Hname. unfold main_transfer.
  destruct (main_handshake_frame p (main_init ValueBytes t)) as (t1 & ->).
  destruct (main_cpu_frame p (set_line t1 (main_init ValueBytes t)))
    as (t2 & msg & [-> | ->]).
  - unfold main_load, main_send, main_download. cbn.
    rewrite Hsv, Hname. cbn.
    unfold main_verify, main_receive, main_dump. cbn.
    rewrite andb_false_r. eexists. split; [reflexivity|]. cbn.
    repeat split. left. apply elem_of_app. right. constructor.
  - unfold main_load, main_send, main_download. cbn.
    unfold main_verify, main_receive, main_dump. cbn.
    rewrite andb_false_r. eexists. split; [reflexivity|]. cbn.
    repeat split. right. constructor.
Qed.

(** Without a file name and without [-c], a send or a verify fails in
    the load block: the run is the one that the handshake left, with the
    diagnostic printed and [Success] cleared. *)
Lemma main_transfer_without_file_exact (p : Params) (e : Env)
    (ValueBytes : Z) (t : T) :
  FlagSend p || FlagVerify p = true -> ParamFileName p = None ->
  FlagCpu p = false ->
  exists t' : T,
    main_cpu p (main_handshake p (main_init ValueBytes t)) =
      set_line t' (main_init ValueBytes t) /\
    main_transfer p e (main_init ValueBytes t) =
      Some (fail (say [ErrRequiresF] (set_line t' (main_init ValueBytes t)))).
Proof.
  intros Hsv Hname Hcpu. unfold main_transfer.
  destruct (main_handshake_frame p (main_init ValueBytes t)) as (t1 & ->).
  unfold main_cpu. rewrite Hcpu.
  destruct (GetResponse FileNumberSam9
              (run_line (set_line t1 (main_init ValueBytes t)))) as [? t2].
  exists t2. split; [reflexivity|].
  unfold main_load, main_send, main_download. cbn.
  rewrite Hsv, Hname. cbn.
  unfold main_verify, main_receive, main_dump. cbn.
  rewrite andb_false_r. reflexivity.
Qed.

(** X24.  [ParseParameters] asks for [-f] with [-r] and [-s] but not
    with [-v].  Take a command line whose arguments are in order, that
    names [-v] and none of [-f], [-r], [-s] and [-c]: it is accepted, so
    that the port is opened and the handshake is sent, and whenever
    [main] returns, it returns with exit code 1 after a failure in the
    load block: the one line printed is that [-s] and [-v] require [-f],
    no file was read (the buffer is empty and the byte count is as the
    command line gave it), and no block was allocated for a download.  It
    does return unless [-i] starts the terminal, with the line as the
    handshake left it: nothing was uploaded or downloaded. *)
Theorem main_argv_verify_needs_file (argv : list (list Z)) (t : T) (e : Env)
    (cycles fuel : nat) :
  forallb in_order (drop 1 argv) = true ->
  has_option 0x76 argv = true ->
  has_option 0x66 argv = false ->
  has_option 0x72 argv = false ->
  has_option 0x73 argv = false ->
  has_option 0x63 argv = false ->
  exists (g : CommandLine.Globals) (msgs : list CommandLine.Diagnostic),
    CommandLine.ParseParameters argv CommandLine.defaults = (true, g, msgs) /\
    (forall (code : Z) (r : option (Run T)),
       main_argv argv (Some t) e cycles fuel = Some (code, r) ->
       code = 1 /\
       exists run : Run T,
         r = Some run /\ run_Success run = false /\
         run_out run = [ErrRequiresF] /\ run_FileBuffer run = [] /\
         run_ValueBytes run = CommandLine.ValueBytes g /\
         run_Memory run = {| MemoryCount := 0; MemoryBuffer := [] |} /\
         run_saved run = None) /\
    (has_option 0x69 argv = false ->
     exists run : Run T,
       main_argv argv (Some t) e cycles fuel = Some (1, Some run) /\
       run_Success run = false /\
       run_out run = [ErrRequiresF] /\ run_FileBuffer run = [] /\
       run_ValueBytes run = CommandLine.ValueBytes g /\
       run_Memory run = {| MemoryCount := 0; MemoryBuffer := [] |} /\
       run_saved run = None /\
       run_line run =
         run_line (main_cpu (Params_of g)
                     (main_handshake (Params_of g)
                        (main_init (CommandLine.ValueBytes g) t)))).
Proof.
  intros Hall Hv Hf Hr Hs Hc.
  destruct (ParseParameters_accepts_in_order argv Hall) as (g & msgs & Hok).
  { rewrite Hr, Hs. reflexivity. }
  { rewrite Hr. reflexivity. }
  exists g, msgs. split; [exact Hok|].
  destruct (ParseParameters_accepts _ _ _ _ Hok) as (Hl & _).
  destruct (ParseParameters_loop_options _ _ _ _ _ Hl) as (Hflag & Hn & _).
  pose proof (Hflag 0x76 eq_refl) as Fv. pose proof (Hflag 0x63 eq_refl) as Fc.
  pose proof (Hflag 0x69 eq_refl) as Fi.
  cbn in Fv, Fc, Fi, Hn. unfold has_option in *.
  rewrite Hv in Fv. rewrite Hc in Fc. rewrite Hf in Hn. cbn in Hn.
  assert (Hargc : (1 <? Z.of_nat (length argv)) = true).
  { destruct argv as [|a [|b argv]]; cbn in Hv; try discriminate.
    apply Z.ltb_lt. cbn [length]. lia. }
  destruct (main_transfer_without_file_exact (Params_of g) e
              (CommandLine.ValueBytes g) t) as (t1 & Hline & Ht).
  { cbn. rewrite Fv. apply orb_true_r. }
  { cbn. destruct (CommandLine.ParamFileName (CommandLine.strings g));
      [discriminate|reflexivity]. }
  { exact Fc. }
  set (r1 := fail (say [ErrRequiresF]
                     (set_line t1 (main_init (CommandLine.ValueBytes g) t))))
    in Ht.
  destruct (main_go_failed (Params_of g) cycles fuel r1 eq_refl) as [Hret Hgo].
  unfold main_argv, main. rewrite Hargc, Hok, Ht, Hline.
  cbn [mbind option_bind]. split.
  - intros code r Hmain.
    destruct (main_go (Params_of g) cycles fuel r1) as [r2|] eqn:Hgo2;
      [|discriminate].
    destruct (Hgo r2 eq_refl) as (t2 & ->).
    cbn [mbind option_bind] in Hmain. injection Hmain as <- <-.
    split; [reflexivity|]. eexists. split; [reflexivity|].
    cbn. auto 7.
  - intros Hi. rewrite Hret by (cbn; rewrite Fi; exact Hi).
    cbn [mbind option_bind]. exists r1. cbn. auto 9.
Qed.

End FileNeeded.

Lemma main_argv_verify_needs_file_witness :
  exists run : Run Sim,
    main_argv (map arg ["sam9boot"; "-v"; "-n=16"]%string) (Some Sim_idle)
      (env_with None) 0 0 = Some (1, Some run) /\
    run_out run = [ErrRequiresF] /\
    commands (run_line run) = [CmdSync; CmdVersion].
Proof.
  destruct (main_argv_verify_needs_file
              (map arg ["sam9boot"; "-v"; "-n=16"]%string) Sim_idle
              (env_with None) 0 0
              eq_refl eq_refl eq_refl eq_refl eq_refl eq_refl)
    as (g & msgs & Hok & _ & Hret).
  destruct (Hret eq_refl)
    as (run & Hmain & _ & Hout & _ & _ & _ & _ & Hline).
  exists run. split; [exact Hmain|]. split; [exact Hout|].
  rewrite Hline. vm_compute in Hok. injection Hok as <- _. reflexivity.
Defined.
